(** * Gatekeeper Viewer backend: artifact retrieval, session fetch, router

    A shallow embedding of [backend/github_client.py],
    [backend/copilot_fetcher.py], the endpoints of [backend/main.py] and the
    command-line script [copilot_session_fetch.py], followed by the
    properties of the specification and by further properties of the code.

    Conventions of the embedding.
    - A decoded JSON document is a value of [json]; Python [None] is [JNull],
      a [dict] is an insertion-ordered association list, a [list] is a list.
      JSON numbers are integers (floating point is not modelled).
    - Python [str] is [string], one [ascii] per character; a character
      beyond ASCII is held as the bytes of its UTF-8 form, which [str.strip]
      alone looks into.  [bytes] is a list of [Byte.byte].
    - A Python exception is a value of [exn]; code that may raise returns
      [result A].  Only subclasses of [Exception] are modelled.
    - The collaborators outside the repository (HTTP transport, JSON decoder,
      archive reader, text decoder, the built-in sort, the assistant-session
      RPC client) are fields of the records [Env] and [Rpc]; every theorem
      holds for all of them. *)

From Stdlib Require Import ZArith List String Ascii Bool Lia DecimalString.
Import ListNotations.
Set Warnings "-register-all".
Local Open Scope list_scope.
Local Open Scope string_scope.

(* ================================================================== *)
(** ** Python values *)

Inductive json : Type :=
| JNull
| JBool (b : bool)
| JNum (n : Z)
| JStr (s : string)
| JArr (items : list json)
| JObj (fields : list (string * json)).

Definition bytes := list Byte.byte.

Inductive exn : Type :=
| PermissionError (msg : string)
| LookupError (msg : string)
| KeyError (key : string)
| TypeError
| AttributeError
| ValueError (msg : string)
| HTTPException (status_code : Z) (detail : json)
| ExternalError (kind msg : string).

(** [except PermissionError] and [except LookupError]: [KeyError] is a
    subclass of [LookupError]. *)
Definition is_PermissionError (e : exn) : bool :=
  match e with PermissionError _ => true | _ => false end.

Definition is_LookupError (e : exn) : bool :=
  match e with LookupError _ | KeyError _ => true | _ => false end.

Inductive result (A : Type) : Type :=
| Ok (a : A)
| Raise (e : exn).
Arguments Ok {A} a.
Arguments Raise {A} e.

Definition bind {A B} (m : result A) (k : A -> result B) : result B :=
  match m with
  | Ok a => k a
  | Raise e => Raise e
  end.

Declare Scope py_scope.
Delimit Scope py_scope with py.
Notation "x <- m ;; k" := (bind m (fun x => k))
  (at level 100, m at next level, right associativity) : py_scope.
Notation "m ;;; k" := (bind m (fun _ => k))
  (at level 100, right associativity) : py_scope.
Local Open Scope py_scope.

(** [try: body finally: fin]: the clean-up always runs; when it raises, its
    exception replaces the outcome of the body. *)
Definition try_finally {A} (body : result A) (fin : result unit) : result A :=
  match fin with
  | Ok _ => body
  | Raise e => Raise e
  end.

(** [mapM]: a list comprehension whose element expression may raise. *)
Fixpoint mapM {A B} (f : A -> result B) (l : list A) : result (list B) :=
  match l with
  | [] => Ok []
  | x :: xs => y <- f x ;; ys <- mapM f xs ;; Ok (y :: ys)
  end.

(* ------------------------------------------------------------------ *)
(** *** str *)

Definition startswith (s p : string) : bool := String.prefix p s.

Definition endswith (s suffix : string) : bool :=
  let n := String.length s in
  let m := String.length suffix in
  (m <=? n)%nat && String.eqb (substring (n - m) m s) suffix.

(** [sub in s] for strings. *)
Definition str_contains (s sub : string) : bool :=
  match index 0 sub s with Some _ => true | None => false end.

(** [s.rsplit("/", 1)[-1]]: what follows the last ["/"], the whole string
    when there is none. *)
Fixpoint rsplit_last (s : string) : string :=
  match s with
  | EmptyString => EmptyString
  | String c r =>
      if str_contains r "/" then rsplit_last r
      else if Ascii.eqb c "/" then r else s
  end.

(** [s.replace(old, new)]. *)
Fixpoint str_replace_fuel (fuel : nat) (s old new : string) : string :=
  match fuel with
  | O => s
  | S fuel' =>
      match s with
      | EmptyString => EmptyString
      | String c r =>
          if String.prefix old s
          then new ++ str_replace_fuel fuel'
                        (substring (String.length old)
                                   (String.length s - String.length old) s)
                        old new
          else String c (str_replace_fuel fuel' r old new)
      end
  end.

Fixpoint intersperse_str (new s : string) : string :=
  match s with
  | EmptyString => new
  | String c r => new ++ String c (intersperse_str new r)
  end.

Definition str_replace (s old new : string) : string :=
  match old with
  | EmptyString => intersperse_str new s
  | _ => str_replace_fuel (S (String.length s)) s old new
  end.

(* ------------------------------------------------------------------ *)
(** *** dict, list and the operators used on decoded JSON *)

Fixpoint assoc_get (k : string) (d : list (string * json)) : option json :=
  match d with
  | [] => None
  | (k', v) :: d' => if String.eqb k k' then Some v else assoc_get k d'
  end.

(** [d[k] = v] on a dict: an existing key keeps its position. *)
Fixpoint assoc_set (k : string) (v : json) (d : list (string * json))
  : list (string * json) :=
  match d with
  | [] => [(k, v)]
  | (k', v') :: d' =>
      if String.eqb k k' then (k', v) :: d' else (k', v') :: assoc_set k v d'
  end.

(** [x.get(k, default)]: only a dict has the method. *)
Definition py_get (x : json) (k : string) (default : json) : result json :=
  match x with
  | JObj d => Ok (match assoc_get k d with Some v => v | None => default end)
  | _ => Raise AttributeError
  end.

(** [x[k]] with a string key. *)
Definition py_getitem (x : json) (k : string) : result json :=
  match x with
  | JObj d => match assoc_get k d with
              | Some v => Ok v
              | None => Raise (KeyError k)
              end
  | _ => Raise TypeError
  end.

(** [x[k] = v] with a string key: a dict takes it, anything else raises
    [TypeError]. *)
Definition py_setitem (x : json) (k : string) (v : json) : result json :=
  match x with
  | JObj d => Ok (JObj (assoc_set k v d))
  | _ => Raise TypeError
  end.

(** [x[:n]] for a non-negative literal [n]; what is not a sequence raises
    (the model does not tell a dict's exception from the others'). *)
Definition py_slice_to (x : json) (n : nat) : result json :=
  match x with
  | JStr s => Ok (JStr (substring 0 n s))
  | JArr l => Ok (JArr (firstn n l))
  | _ => Raise TypeError
  end.

Definition chars (s : string) : list json :=
  map (fun c => JStr (String c EmptyString)) (list_ascii_of_string s).

(** [for a in x]: a list yields its items, a dict its keys, a string its
    characters; nothing else is iterable. *)
Definition py_iter (x : json) : result (list json) :=
  match x with
  | JArr l => Ok l
  | JObj d => Ok (map (fun kv => JStr (fst kv)) d)
  | JStr s => Ok (chars s)
  | _ => Raise TypeError
  end.

(** [x == s] where [s] is a [str]. *)
Definition py_eq_str (x : json) (s : string) : bool :=
  match x with JStr t => String.eqb t s | _ => false end.

(** [k in x] where [k] is a [str]. *)
Definition py_contains (k : string) (x : json) : result bool :=
  match x with
  | JObj d => Ok (match assoc_get k d with Some _ => true | None => false end)
  | JArr l => Ok (existsb (fun v => py_eq_str v k) l)
  | JStr s => Ok (str_contains s k)
  | _ => Raise TypeError
  end.

(** Truth value of a decoded JSON value. *)
Definition py_truthy (x : json) : bool :=
  match x with
  | JNull => false
  | JBool b => b
  | JNum n => negb (n =? 0)%Z
  | JStr s => negb (String.eqb s "")
  | JArr l => match l with [] => false | _ => true end
  | JObj d => match d with [] => false | _ => true end
  end.

Definition is_None (x : json) : bool :=
  match x with JNull => true | _ => false end.

(** [len(x)]: sequences and mappings have a length. *)
Definition py_len (x : json) : result Z :=
  match x with
  | JStr s => Ok (Z.of_nat (String.length s))
  | JArr l => Ok (Z.of_nat (List.length l))
  | JObj d => Ok (Z.of_nat (List.length d))
  | _ => Raise TypeError
  end.

(** [str.strip()] removes white-space characters from both ends.  A
    character beyond ASCII is held as the bytes of its UTF-8 form: one to
    four bytes, the number told by the first. *)
Definition utf8_width (c : ascii) : nat :=
  let n := nat_of_ascii c in
  if (n <? 192)%nat then 1
  else if (n <? 224)%nat then 2
  else if (n <? 240)%nat then 3
  else if (n <? 248)%nat then 4
  else 1.

(** The characters of a text, in order.  A byte that starts no character,
    or a first byte without all of its followers, stands alone; neither
    occurs in a Python [str]. *)
Fixpoint characters (s : string) : list string :=
  match s with
  | EmptyString => []
  | String a r =>
      match utf8_width a, r with
      | 2, String b r' => String a (String b "") :: characters r'
      | 3, String b (String c r') =>
          String a (String b (String c "")) :: characters r'
      | 4, String b (String c (String d r')) =>
          String a (String b (String c (String d ""))) :: characters r'
      | _, _ => String a "" :: characters r
      end
  end.

(** The code points for which [str.isspace()] holds, the ones [str.strip()]
    removes: the ASCII controls and the blank, NEL, the no-break space and
    the space separators and line separators of Unicode. *)
Definition WHITESPACE : list N :=
  [0x09; 0x0A; 0x0B; 0x0C; 0x0D; 0x1C; 0x1D; 0x1E; 0x1F; 0x20; 0x85; 0xA0;
   0x1680; 0x2000; 0x2001; 0x2002; 0x2003; 0x2004; 0x2005; 0x2006; 0x2007;
   0x2008; 0x2009; 0x200A; 0x2028; 0x2029; 0x202F; 0x205F; 0x3000]%N.

(** The UTF-8 form of a code point. *)
Definition utf8_char (cp : N) : string :=
  let byte n := ascii_of_N n in
  (if cp <? 0x80 then String (byte cp) ""
   else if cp <? 0x800 then
     String (byte (0xC0 + cp / 0x40)) (String (byte (0x80 + cp mod 0x40)) "")
   else if cp <? 0x10000 then
     String (byte (0xE0 + cp / 0x1000))
       (String (byte (0x80 + (cp / 0x40) mod 0x40))
          (String (byte (0x80 + cp mod 0x40)) ""))
   else
     String (byte (0xF0 + cp / 0x40000))
       (String (byte (0x80 + (cp / 0x1000) mod 0x40))
          (String (byte (0x80 + (cp / 0x40) mod 0x40))
             (String (byte (0x80 + cp mod 0x40)) ""))))%N.

Definition join (l : list string) : string := fold_right append "" l.

(** The text made of the given code points. *)
Definition utf8 (cps : list N) : string := join (map utf8_char cps).

Definition is_space (ch : string) : bool :=
  existsb (fun cp => String.eqb ch (utf8_char cp)) WHITESPACE.

Fixpoint dropwhile {A} (p : A -> bool) (l : list A) : list A :=
  match l with
  | x :: r => if p x then dropwhile p r else l
  | [] => []
  end.

Definition lstrip (l : list string) : list string := dropwhile is_space l.

Definition rstrip (l : list string) : list string :=
  rev (dropwhile is_space (rev l)).

(** [s.strip()] *)
Definition py_strip (s : string) : string :=
  join (rstrip (lstrip (characters s))).

(** A text without any character that is not white space. *)
Definition blank (s : string) : bool := forallb is_space (characters s).

(** [a or b] on optional strings: the first operand when it is true (a
    non-empty string), else the second. *)
Definition py_or (a b : option string) : option string :=
  match a with
  | Some (String _ _) => a
  | _ => b
  end.

(** An optional string that is true: present and not empty. *)
Definition usable (o : option string) : bool :=
  match o with
  | Some (String _ _) => true
  | _ => false
  end.

Fixpoint no_char (c : ascii) (s : string) : bool :=
  match s with
  | EmptyString => true
  | String c' r => negb (Ascii.eqb c c') && no_char c r
  end.

(* ================================================================== *)
(** ** Collaborators outside the repository *)

Record response := { status_code : Z; content : bytes }.

(** A ZIP archive once opened: the directory in listing order; the payload
    of an entry is the outcome of reading it (a damaged entry raises). *)
Record entry := { filename : string; payload : result bytes }.
Definition ZipFile := list entry.

Definition namelist (zf : ZipFile) : list string := map filename zf.

(** [zf.read(name)] looks the name up in the archive's name table, where a
    later directory record of the same name replaces an earlier one. *)
Fixpoint zf_lookup (zf : ZipFile) (name : string) : option entry :=
  match zf with
  | [] => None
  | e :: rest =>
      match zf_lookup rest name with
      | Some e' => Some e'
      | None => if String.eqb (filename e) name then Some e else None
      end
  end.

Definition zf_read (zf : ZipFile) (name : string) : result bytes :=
  match zf_lookup zf name with
  | Some e => payload e
  | None => Raise (KeyError name)
  end.

(** One assistant-session RPC client, as the code drives it. *)
Record Rpc := {
  start : result unit;
  stop : result unit;
  (** [client._client.request(method, params)] *)
  request : string -> json -> result json;
  (** [client.resume_session(session_id)] *)
  resume_session : json -> result unit;
}.

Record Env := {
  (** [AsyncClient.get(path, params=..., follow_redirects=...)] of a client
      built with the given headers *)
  http_get : list (string * string) -> string -> list (string * json) ->
             bool -> result response;
  (** [Response.raise_for_status()] *)
  raise_for_status : response -> result unit;
  (** [AsyncClient.aclose()] *)
  aclose : result unit;
  (** [json.loads], also behind [Response.json()] *)
  json_loads : bytes -> result json;
  (** [zipfile.ZipFile(io.BytesIO(content))] *)
  zip_open : bytes -> result ZipFile;
  (** [b.decode("utf-8", errors="replace")] *)
  decode_utf8_replace : bytes -> result string;
  (** how an f-string renders a value, and [str(exc)] *)
  py_str : json -> string;
  exn_str : exn -> string;
  (** [_GITHUB_URL_RE.match(url.strip())] with its two groups *)
  github_url_match : string -> option (string * string);
  (** [list.sort(key=..., reverse=True)] on the (key, item) pairs *)
  sort_reverse : list (json * json) -> result (list json);
  (** [CopilotClient({"github_token": token, "use_logged_in_user": False})] *)
  CopilotClient : string -> Rpc;
}.

(* ================================================================== *)
(** ** backend/github_client.py *)

Module GitHub.

Record GitHubClient := {
  owner : string;
  repo : string;
  headers : list (string * string);
}.

Definition BASE := "https://api.github.com".

Definition init (token owner repo : string) : GitHubClient :=
  let prefix := if startswith token "github_pat_" then "Bearer" else "token" in
  {| owner := owner;
     repo := repo;
     headers := [ ("Authorization", prefix ++ " " ++ token);
                  ("Accept", "application/vnd.github+json");
                  ("X-GitHub-Api-Version", "2022-11-28") ] |}.

Definition msg_401 : string :=
  "Invalid token — check that your PAT is correct and not expired.".

Definition msg_403 : string :=
  "Access denied (403). Your token may lack the required scope. " ++
  "Classic PATs need 'repo' scope; fine-grained PATs need " ++
  "'Actions: Read' and 'Contents: Read' permissions for this repository.".

Definition msg_404 : string :=
  "Repository not found or not accessible with this token.".

Definition json_candidates : list string :=
  ["gatekeeper-consolidated.json"; "council-results.json"].

Definition basename (name : string) : string :=
  if str_contains name "/" then rsplit_last name else name.

Definition is_cast_impact (name : string) : bool :=
  startswith (basename name) "cast-impact-analysis".

(** The same test as the specification words it, the directory path
    ignored: the entry is named ["cast-impact-analysis"] and a remainder
    without ["/"], alone or after a directory path and its ["/"]. *)
Definition cast_impact_by_spec (name : string) : Prop :=
  exists path rest,
    name = path ++ "cast-impact-analysis" ++ rest /\
    no_char "/" rest = true /\
    (path = "" \/ exists dir, path = dir ++ "/").

(** The nested search of [get_artifact]: candidates outermost, archive
    names innermost, so an earlier candidate wins wherever it is listed. *)
Fixpoint find_candidate (names candidates : list string) : option string :=
  match candidates with
  | [] => None
  | candidate :: more =>
      match find (fun name => endswith name candidate) names with
      | Some name => Some name
      | None => find_candidate names more
      end
  end.

Section Client.
Context (U : Env) (self : GitHubClient).

Definition close : result unit := aclose U.

Definition _repo_prefix : string :=
  "/repos/" ++ owner self ++ "/" ++ repo self.

Definition _get_json (path : string) (params : list (string * json))
  : result json :=
  r <- http_get U (headers self) path params false ;;
  if (status_code r =? 401)%Z then Raise (PermissionError msg_401)
  else if (status_code r =? 403)%Z then Raise (PermissionError msg_403)
  else if (status_code r =? 404)%Z then Raise (LookupError msg_404)
  else (raise_for_status U r ;;; json_loads U (content r)).

Definition validate : result json := _get_json _repo_prefix [].

(** One element of the comprehension of [get_runs]. *)
Definition run_summary (r : json) : result json :=
  id <- py_getitem r "id" ;;
  status <- py_getitem r "status" ;;
  conclusion <- py_getitem r "conclusion" ;;
  created_at <- py_getitem r "created_at" ;;
  updated_at <- py_getitem r "updated_at" ;;
  html_url <- py_getitem r "html_url" ;;
  sha <- py_getitem r "head_sha" ;;
  head_sha <- py_slice_to sha 7 ;;
  display_title <- py_getitem r "display_title" ;;
  run_number <- py_getitem r "run_number" ;;
  a1 <- py_get r "actor" (JObj []) ;;
  actor <- py_get a1 "login" (JStr "unknown") ;;
  a2 <- py_get r "actor" (JObj []) ;;
  actor_avatar <- py_get a2 "avatar_url" (JStr "") ;;
  Ok (JObj [ ("id", id); ("status", status); ("conclusion", conclusion);
             ("created_at", created_at); ("updated_at", updated_at);
             ("html_url", html_url); ("head_sha", head_sha);
             ("display_title", display_title); ("run_number", run_number);
             ("actor", actor); ("actor_avatar", actor_avatar) ]).

Definition get_runs (workflow_id per_page : Z) : result (list json) :=
  data <- _get_json
            (_repo_prefix ++ "/actions/workflows/" ++
             py_str U (JNum workflow_id) ++ "/runs")
            [("per_page", JNum per_page); ("status", JStr "completed")] ;;
  runs <- py_get data "workflow_runs" (JArr []) ;;
  rs <- py_iter runs ;;
  mapM run_summary rs.

(** The listing loop of [get_artifact]: returns [artifact_id] ([JNull]
    while unset) and the names seen so far. *)
Fixpoint scan_artifacts (artifact_name : string) (items available : list json)
  : result (json * list json) :=
  match items with
  | [] => Ok (JNull, available)
  | a :: rest =>
      n <- py_getitem a "name" ;;
      let available := (available ++ [n])%list in
      if py_eq_str n artifact_name
      then id <- py_getitem a "id" ;; Ok (id, available)
      else scan_artifacts artifact_name rest available
  end.

Definition _merge_cast_impact (zf : ZipFile) (result : json) : json :=
  match find is_cast_impact (namelist zf) with
  | None => result
  | Some name =>
      match (b <- zf_read zf name ;;
             content <- decode_utf8_replace U b ;;
             py_setitem result "cast_impact_analysis" (JStr content))
      with
      | Ok result' => result'
      | Raise _ => result
      end
  end.

Definition load_entry (zf : ZipFile) (name : string) : result json :=
  b <- zf_read zf name ;;
  result <- json_loads U b ;;
  Ok (_merge_cast_impact zf result).

(** Step 1 of [get_artifact]: the artifacts listed for the run. *)
Definition list_artifacts (run_id : Z) : result (list json) :=
  data <- _get_json
            (_repo_prefix ++ "/actions/runs/" ++ py_str U (JNum run_id) ++
             "/artifacts") [] ;;
  arts <- py_get data "artifacts" (JArr []) ;;
  py_iter arts.

(** Step 2: download the bundle and open it. *)
Definition download_zip (artifact_id : json) : result ZipFile :=
  r <- http_get U (headers self)
         (_repo_prefix ++ "/actions/artifacts/" ++ py_str U artifact_id ++ "/zip")
         [] true ;;
  raise_for_status U r ;;;
  zip_open U (content r).

(** Step 3: the entry both search loops end up loading. *)
Definition select_json_entry (names : list string) : option string :=
  match find_candidate names json_candidates with
  | Some name => Some name
  | None => find (fun name => endswith name ".json") names
  end.

Definition extract_json (zf : ZipFile) : result json :=
  match select_json_entry (namelist zf) with
  | Some name => load_entry zf name
  | None => Ok (JObj [("error", JStr "No JSON found in artifact")])
  end.

Definition not_found (artifact_name : string) (available : list json) : json :=
  JObj [ ("error", JStr ("Artifact '" ++ artifact_name ++ "' not found"));
         ("available", JArr available) ].

(** [zf] is the opened bundle of the artifact [artifact_name] of the run:
    the listing loop stopped at a match and the download succeeded. *)
Definition serves_bundle (run_id : Z) (artifact_name : string) (zf : ZipFile)
  : Prop :=
  exists items artifact_id available,
    list_artifacts run_id = Ok items /\
    scan_artifacts artifact_name items [] = Ok (artifact_id, available) /\
    is_None artifact_id = false /\
    download_zip artifact_id = Ok zf.

Definition get_artifact (run_id : Z) (artifact_name : string) : result json :=
  items <- list_artifacts run_id ;;
  found <- scan_artifacts artifact_name items [] ;;
  let '(artifact_id, available) := found in
  if is_None artifact_id
  then Ok (not_found artifact_name available)
  else
    zf <- download_zip artifact_id ;;
    extract_json zf.

(** The loop of [get_workflow_id]: the identifier of the first workflow
    with the name, [None] when the listing is exhausted. *)
Fixpoint scan_workflows (workflow_name : string) (items : list json)
  : result json :=
  match items with
  | [] => Ok JNull
  | wf :: rest =>
      n <- py_getitem wf "name" ;;
      if py_eq_str n workflow_name then py_getitem wf "id"
      else scan_workflows workflow_name rest
  end.

Definition get_workflow_id (workflow_name : string) : result json :=
  data <- _get_json (_repo_prefix ++ "/actions/workflows") [] ;;
  wfs <- py_get data "workflows" (JArr []) ;;
  items <- py_iter wfs ;;
  scan_workflows workflow_name items.

(** [get_runs] as the endpoints call it, with the identifier that
    [get_workflow_id] returned, whatever its type. *)
Definition get_runs_for (workflow_id : json) (per_page : Z)
  : result (list json) :=
  data <- _get_json
            (_repo_prefix ++ "/actions/workflows/" ++
             py_str U workflow_id ++ "/runs")
            [("per_page", JNum per_page); ("status", JStr "completed")] ;;
  runs <- py_get data "workflow_runs" (JArr []) ;;
  rs <- py_iter runs ;;
  mapM run_summary rs.

(** One element of the comprehension of [get_all_runs]. *)
Definition all_runs_summary (r : json) : result json :=
  id <- py_getitem r "id" ;;
  status <- py_getitem r "status" ;;
  conclusion <- py_getitem r "conclusion" ;;
  created_at <- py_getitem r "created_at" ;;
  updated_at <- py_getitem r "updated_at" ;;
  html_url <- py_getitem r "html_url" ;;
  sha <- py_getitem r "head_sha" ;;
  head_sha <- py_slice_to sha 7 ;;
  display_title <- py_getitem r "display_title" ;;
  run_number <- py_getitem r "run_number" ;;
  workflow_name <- py_get r "name" (JStr "Unknown") ;;
  a1 <- py_get r "actor" (JObj []) ;;
  actor <- py_get a1 "login" (JStr "unknown") ;;
  a2 <- py_get r "actor" (JObj []) ;;
  actor_avatar <- py_get a2 "avatar_url" (JStr "") ;;
  Ok (JObj [ ("id", id); ("status", status); ("conclusion", conclusion);
             ("created_at", created_at); ("updated_at", updated_at);
             ("html_url", html_url); ("head_sha", head_sha);
             ("display_title", display_title); ("run_number", run_number);
             ("workflow_name", workflow_name);
             ("actor", actor); ("actor_avatar", actor_avatar) ]).

Definition get_all_runs (per_page : Z) : result (list json) :=
  data <- _get_json (_repo_prefix ++ "/actions/runs")
                    [("per_page", JNum per_page)] ;;
  runs <- py_get data "workflow_runs" (JArr []) ;;
  rs <- py_iter runs ;;
  mapM all_runs_summary rs.

End Client.

End GitHub.

(* ================================================================== *)
(** ** Calls to the RPC client, in the order the code makes them *)

Inductive call : Type :=
| CallStart
| CallStop
| CallRequest (method : string) (params : json)
| CallResume (session_id : json).

(** A computation that may raise and that appends to the call log. *)
Definition traced (A : Type) : Type := list call -> result A * list call.

Definition tret {A} (a : A) : traced A := fun log => (Ok a, log).

Definition tbind {A B} (m : traced A) (k : A -> traced B) : traced B :=
  fun log =>
    match m log with
    | (Ok a, log') => k a log'
    | (Raise e, log') => (Raise e, log')
    end.

Definition lift {A} (r : result A) : traced A := fun log => (r, log).

(** Perform the external call [c], whose outcome is [r]. *)
Definition perform {A} (c : call) (r : result A) : traced A :=
  fun log => (r, (log ++ [c])%list).

(** [try: m except Exception: h] *)
Definition tcatch {A} (m : traced A) (h : exn -> traced A) : traced A :=
  fun log =>
    match m log with
    | (Ok a, log') => (Ok a, log')
    | (Raise e, log') => h e log'
    end.

(** [try: m finally: fin] *)
Definition tfinally {A} (m : traced A) (fin : traced unit) : traced A :=
  fun log =>
    let '(r, log1) := m log in
    match fin log1 with
    | (Ok _, log2) => (r, log2)
    | (Raise e, log2) => (Raise e, log2)
    end.

Declare Scope traced_scope.
Delimit Scope traced_scope with traced.
Notation "x <~ m ;; k" := (tbind m (fun x => k))
  (at level 100, m at next level, right associativity) : traced_scope.
Notation "m ~;; k" := (tbind m (fun _ => k))
  (at level 100, right associativity) : traced_scope.

(* ------------------------------------------------------------------ *)
(** *** A dict keyed by decoded JSON values *)

(** Keys of a dict are compared with [==]: [True] and [1] are one key. *)
Definition key_norm (k : json) : json :=
  match k with
  | JBool b => JNum (if b then 1 else 0)
  | _ => k
  end.

Definition key_eqb (a b : json) : bool :=
  match key_norm a, key_norm b with
  | JNull, JNull => true
  | JNum m, JNum n => (m =? n)%Z
  | JStr s, JStr t => String.eqb s t
  | _, _ => false
  end.

Definition hashable (k : json) : bool :=
  match k with JArr _ | JObj _ => false | _ => true end.

Definition dict := list (json * json).

Fixpoint dict_get (k : json) (d : dict) : option json :=
  match d with
  | [] => None
  | (k', v) :: d' => if key_eqb k k' then Some v else dict_get k d'
  end.

Fixpoint dict_put (k v : json) (d : dict) : dict :=
  match d with
  | [] => [(k, v)]
  | (k', v') :: d' =>
      if key_eqb k k' then (k', v) :: d' else (k', v') :: dict_put k v d'
  end.

(** [d[k] = v]: a list or a dict is not hashable. *)
Definition dict_setitem (d : dict) (k v : json) : result dict :=
  if hashable k then Ok (dict_put k v d) else Raise TypeError.

(** A record that has the empty event list and otherwise the fields of
    [reference]. *)
Definition emptied (record reference : json) : Prop :=
  py_getitem record "events" = Ok (JArr []) /\
  forall field, field <> "events" ->
                py_getitem record field = py_getitem reference field.

(** Two mappings that agree outside the key [sid0], where the first holds an
    emptied copy of what the second holds. *)
Definition agree_but (sid0 : json) (d1 d2 : dict) : Prop :=
  forall k,
    if key_eqb k sid0
    then match dict_get k d1, dict_get k d2 with
         | Some r1, Some r2 => emptied r1 r2
         | None, None => True
         | _, _ => False
         end
    else dict_get k d1 = dict_get k d2.

(** [l[:cap]] for an integer [cap]; a negative one counts from the end. *)
Definition slice_to {A} (l : list A) (cap : Z) : list A :=
  if (0 <=? cap)%Z then firstn (Z.to_nat cap) l
  else firstn (List.length l - Z.to_nat (- cap)) l.

(** The session identifiers for which an event fetch was started. *)
Fixpoint fetched_ids (log : list call) : list json :=
  match log with
  | [] => []
  | CallResume sid :: log' => sid :: fetched_ids log'
  | _ :: log' => fetched_ids log'
  end.


(** A stretch of the log made of requests and session resumptions only. *)
Definition rpc_only (log : list call) : bool :=
  forallb (fun c => match c with
                    | CallRequest _ _ | CallResume _ => true
                    | _ => false
                    end) log.

(** The identifiers the loop of [fetch_copilot_sessions] does not skip. *)
Fixpoint selected_ids (sessions : list json) : list json :=
  match sessions with
  | [] => []
  | s :: rest =>
      match py_get s "sessionId" JNull with
      | Ok sid => if py_truthy sid then sid :: selected_ids rest
                  else selected_ids rest
      | Raise _ => []
      end
  end.

(** The same environment with another assistant-session client. *)
Definition set_client (U : Env) (rpc : Rpc) : Env :=
  {| http_get := http_get U;
     raise_for_status := raise_for_status U;
     aclose := aclose U;
     json_loads := json_loads U;
     zip_open := zip_open U;
     decode_utf8_replace := decode_utf8_replace U;
     py_str := py_str U;
     exn_str := exn_str U;
     github_url_match := github_url_match U;
     sort_reverse := sort_reverse U;
     CopilotClient := fun _ => rpc |}.

(* ================================================================== *)
(** ** backend/copilot_fetcher.py *)

Module Copilot.

Local Open Scope traced_scope.

Section Fetcher.
Context (U : Env).

Definition _fetch_sessions (client : Rpc) : traced (list json) :=
  response <~ perform (CallRequest "session.list" (JObj []))
                      (request client "session.list" (JObj [])) ;;
  sessions <~ lift (match response with
                    | JArr _ => Ok response
                    | _ => py_get response "sessions" (JArr [])
                    end) ;;
  match sessions with
  | JArr l =>
      keys <~ lift (mapM (fun s => py_get s "startTime" (JStr "")) l) ;;
      lift (sort_reverse U (combine keys l))
  | _ => lift (Raise AttributeError)
  end.

(** The [try] block of [_fetch_session_events]. *)
Definition session_events (client : Rpc) (session_id : json) : traced json :=
  perform (CallResume session_id) (resume_session client session_id) ~;;
  result <~ perform
              (CallRequest "session.getMessages"
                           (JObj [("sessionId", session_id)]))
              (request client "session.getMessages"
                       (JObj [("sessionId", session_id)])) ;;
  lift (py_get result "events" (JArr [])).

Definition _fetch_session_events (client : Rpc) (session_id : json)
  : traced json :=
  tcatch (session_events client session_id) (fun _ => tret (JArr [])).

(** How the [try] block ends for a session: its events, or the exception
    that [_fetch_session_events] then swallows. *)
Definition events_outcome (client : Rpc) (session_id : json) : result json :=
  fst (session_events client session_id []).

(** [{**s, "events": events}] *)
Definition with_events (s events : json) : result json :=
  match s with
  | JObj d => Ok (JObj (assoc_set "events" events d))
  | _ => Raise TypeError
  end.

(** The [for s in sessions] loop, [session_data] threaded through. *)
Fixpoint collect (client : Rpc) (sessions : list json) (session_data : dict)
  : traced dict :=
  match sessions with
  | [] => tret session_data
  | s :: rest =>
      sid <~ lift (py_get s "sessionId" JNull) ;;
      if negb (py_truthy sid) then collect client rest session_data
      else
        events <~ _fetch_session_events client sid ;;
        record <~ lift (with_events s events) ;;
        session_data <~ lift (dict_setitem session_data sid record) ;;
        collect client rest session_data
  end.

(** [cap = None if fetch_all else limit] and [sessions[:cap] if cap else
    sessions]: [None] and [0] are both false. *)
Definition cap_of (limit : Z) (fetch_all : bool) : option Z :=
  if fetch_all then None else Some limit.

Definition truncate (sessions : list json) (cap : option Z) : list json :=
  match cap with
  | None => sessions
  | Some c => if (c =? 0)%Z then sessions else slice_to sessions c
  end.

Definition fetch_copilot_sessions (token : string) (limit : Z)
           (fetch_all : bool) : traced (list json * dict) :=
  let client := CopilotClient U token in
  perform CallStart (start client) ~;;
  tfinally
    (sessions <~ _fetch_sessions client ;;
     let cap := cap_of limit fetch_all in
     let sessions := truncate sessions cap in
     session_data <~ collect client sessions [] ;;
     tret (sessions, session_data))
    (perform CallStop (stop client)).

End Fetcher.

End Copilot.

(* ================================================================== *)
(** ** backend/main.py *)

Module Main.

(** [_session_store]: the two entries of the module-level dict. *)
Record session_store := {
  sessions : list json;
  session_data : dict;
}.

Definition _session_store : session_store :=
  {| sessions := []; session_data := [] |}.

Record ConnectRequest := { github_url : string; connect_token : string }.

Record SessionFetchRequest := {
  token : string;
  limit : Z;
  fetch_all : bool;
}.

Section Router.
Context (U : Env).

Definition parse_github_url (url : string) : result (string * string) :=
  match github_url_match U url with
  | None => Raise (ValueError ("Invalid GitHub URL: " ++ url))
  | Some groups => Ok groups
  end.

Definition _make_client (owner repo token : string) : GitHub.GitHubClient :=
  GitHub.init token owner repo.

(** The [try]/[except] ladder of [connect] around [client.validate()]. *)
Definition connect_handlers (r : result json) : result json :=
  match r with
  | Ok info => Ok info
  | Raise exc =>
      if is_PermissionError exc
      then Raise (HTTPException 403 (JStr (exn_str U exc)))
      else if is_LookupError exc
      then Raise (HTTPException 404 (JStr (exn_str U exc)))
      else Raise (HTTPException 401
                    (JStr ("GitHub API error: " ++ exn_str U exc)))
  end.

(** The fields of the [ConnectResponse]; the validation of their types by
    the response model is not part of the embedding. *)
Definition connect (body : ConnectRequest) : result json :=
  match parse_github_url (github_url body) with
  | Raise exc => Raise (HTTPException 400 (JStr (exn_str U exc)))
  | Ok (owner, repo) =>
      let client := _make_client owner repo (connect_token body) in
      info <- try_finally (connect_handlers (GitHub.validate U client))
                          (GitHub.close U) ;;
      full_name <- py_get info "full_name" (JStr (owner ++ "/" ++ repo)) ;;
      description <- py_get info "description" JNull ;;
      default_branch <- py_get info "default_branch" (JStr "main") ;;
      Ok (JObj [ ("owner", JStr owner); ("repo", JStr repo);
                 ("full_name", full_name); ("description", description);
                 ("default_branch", default_branch) ])
  end.

(** The body shared by [get_run_artifact] and [get_frd_run_artifact];
    they differ in the default of [artifact_name]. *)
Definition artifact_response (res : json) : result json :=
  if is_None res
  then Raise (HTTPException 404 (JStr "Artifact not found"))
  else
    has_error <- py_contains "error" res ;;
    has_available <- (if has_error then py_contains "available" res
                      else Ok false) ;;
    if has_error && has_available
    then Raise (HTTPException 404 res)
    else Ok res.

Definition get_run_artifact (run_id : Z) (owner repo token : string)
           (artifact_name : string) : result json :=
  let client := _make_client owner repo token in
  try_finally
    (res <- GitHub.get_artifact U client run_id artifact_name ;;
     artifact_response res)
    (GitHub.close U).

Definition get_frd_run_artifact (run_id : Z) (owner repo token : string)
           (artifact_name : string) : result json :=
  let client := _make_client owner repo token in
  try_finally
    (res <- GitHub.get_artifact U client run_id artifact_name ;;
     artifact_response res)
    (GitHub.close U).

Definition default_artifact_name := "gatekeeper-final-analysis".
Definition default_frd_artifact_name := "feature-requirement-analysis".

(** [fetch_sessions_endpoint]: the response (or the raised
    [HTTPException]), the store afterwards, and the RPC calls made. *)
Definition fetch_sessions_endpoint (body : SessionFetchRequest)
           (store : session_store)
  : result json * session_store * list call :=
  match Copilot.fetch_copilot_sessions U (token body) (limit body)
                                       (fetch_all body) [] with
  | (Raise exc, log) =>
      let err := str_replace (exn_str U exc) (token body) "***" in
      (Raise (HTTPException 500 (JStr ("Fetch failed: " ++ err))), store, log)
  | (Ok (sessions, session_data), log) =>
      let store := {| sessions := sessions; session_data := session_data |} in
      let n := py_str U (JNum (Z.of_nat (List.length sessions))) in
      (Ok (JObj [ ("count", JNum (Z.of_nat (List.length sessions)));
                  ("message",
                   JStr ("Fetched " ++ n ++ " session(s) successfully")) ]),
       store, log)
  end.

Definition list_sessions (store : session_store) : list json :=
  sessions store.

Definition get_session (session_id : string) (store : session_store)
  : result json :=
  match dict_get (JStr session_id) (session_data store) with
  | Some data => if is_None data
                 then Raise (HTTPException 404
                        (JStr ("Session '" ++ session_id ++
                               "' not found. Fetch sessions first.")))
                 else Ok data
  | None => Raise (HTTPException 404
              (JStr ("Session '" ++ session_id ++
                     "' not found. Fetch sessions first.")))
  end.

(** The body shared by [list_runs] and [list_frd_runs]; they differ in the
    default of [workflow_name]. *)
Definition list_runs (owner repo token workflow_name : string) (per_page : Z)
  : result (list json) :=
  let client := _make_client owner repo token in
  try_finally
    (wf_id <- GitHub.get_workflow_id U client workflow_name ;;
     if is_None wf_id
     then Raise (HTTPException 404
                   (JStr ("Workflow '" ++ workflow_name ++ "' not found in " ++
                          owner ++ "/" ++ repo)))
     else GitHub.get_runs_for U client wf_id per_page)
    (GitHub.close U).

Definition list_frd_runs (owner repo token workflow_name : string)
           (per_page : Z) : result (list json) :=
  let client := _make_client owner repo token in
  try_finally
    (wf_id <- GitHub.get_workflow_id U client workflow_name ;;
     if is_None wf_id
     then Raise (HTTPException 404
                   (JStr ("Workflow '" ++ workflow_name ++ "' not found in " ++
                          owner ++ "/" ++ repo)))
     else GitHub.get_runs_for U client wf_id per_page)
    (GitHub.close U).

End Router.

(** The hosted agent: [project_client.agents.get(agent_name=...)] gives the
    agent's name, [openai_client.responses.create] the output text for a
    prompt and an agent name. *)
Record Agent := {
  agents_get : string -> result string;
  responses_create : string -> string -> result string;
}.

Record AgentQueryRequest := { context : string; query : string }.

Definition AGENT_NAME : string := "gatekeeper-agent".

Definition newline : string := String "010" EmptyString.

Definition user_message (context query : string) : string :=
  "You are provided with context data from workflow analyses and copilot sessions." ++ newline ++
  "Use this context to answer the user's question accurately." ++ newline ++
  newline ++
  "=== CONTEXT START ===" ++ newline ++
  context ++ newline ++
  "=== CONTEXT END ===" ++ newline ++
  newline ++
  "User Question: " ++ query.

Definition _call_agent_sync (A : Agent) (context query : string)
  : result string :=
  agent_name <- agents_get A AGENT_NAME ;;
  responses_create A (user_message context query) agent_name.

Definition agent_query (U : Env) (A : Agent) (body : AgentQueryRequest)
  : result json :=
  if String.eqb (py_strip (query body)) ""
  then Raise (HTTPException 400 (JStr "Query cannot be empty"))
  else if String.eqb (py_strip (context body)) ""
  then Raise (HTTPException 400
                (JStr "Context cannot be empty. Please load context first."))
  else
    match _call_agent_sync A (context body) (query body) with
    | Ok text => Ok (JObj [("response", JStr text)])
    | Raise exc =>
        Raise (HTTPException 500 (JStr ("Agent call failed: " ++ exn_str U exc)))
    end.

End Main.

(* ================================================================== *)
(** ** copilot_session_fetch.py

    The command-line script.  Its effects are the RPC calls, the creation of
    the output directory and the files it writes; what it prints is left
    out, except where evaluating the printed expression can raise. *)

Module Cli.

Record Args := {
  all : bool;
  limit : Z;
  list_only : bool;
  token : option string;
}.

(** The operating system and the SDK as the script uses them. *)
Record Os := {
  (** [os.environ.get(name)] *)
  environ : string -> option string;
  (** [os.makedirs(SESSIONS_DIR, exist_ok=True)] *)
  makedirs : result unit;
  (** [dump_json(path, data)]: open the file and write the document *)
  dump_json : string -> json -> result unit;
  (** [os.path.join] *)
  path_join : string -> string -> string;
  DATA_DIR : string;
  (** [CopilotClient()], the client of the local login *)
  local_client : Rpc;
}.

Inductive effect : Type :=
| Rpc_call (c : call)
| Makedirs
| Dump (path : string) (data : json).

(** Reading a local variable that no statement has assigned yet raises
    [UnboundLocalError], an exception the rest of the code never meets. *)
Inductive cli_exn : Type :=
| Exn (e : exn)
| UnboundLocalError (name : string).

Inductive outcome (A : Type) : Type :=
| Done (a : A)
| Fail (e : cli_exn).
Arguments Done {A} a.
Arguments Fail {A} e.

Definition cli (A : Type) : Type := list effect -> outcome A * list effect.

Definition cret {A} (a : A) : cli A := fun tr => (Done a, tr).

Definition cbind {A B} (m : cli A) (k : A -> cli B) : cli B :=
  fun tr =>
    match m tr with
    | (Done a, tr') => k a tr'
    | (Fail e, tr') => (Fail e, tr')
    end.

Definition of_result {A} (r : result A) : outcome A :=
  match r with
  | Ok a => Done a
  | Raise e => Fail (Exn e)
  end.

Definition pure {A} (r : result A) : cli A := fun tr => (of_result r, tr).

(** An effect other than an RPC call, with its outcome. *)
Definition act {A} (e : effect) (r : result A) : cli A :=
  fun tr => (of_result r, (tr ++ [e])%list).

(** A computation on the RPC client, its calls appended to the trace. *)
Definition rpc {A} (m : traced A) : cli A :=
  fun tr =>
    let '(r, log) := m [] in
    (of_result r, (tr ++ map Rpc_call log)%list).

Definition cfinally {A} (m : cli A) (fin : cli unit) : cli A :=
  fun tr =>
    let '(r, tr1) := m tr in
    match fin tr1 with
    | (Done _, tr2) => (r, tr2)
    | (Fail e, tr2) => (Fail e, tr2)
    end.

Declare Scope cli_scope.
Delimit Scope cli_scope with cli.
Notation "x <- m ;; k" := (cbind m (fun x => k))
  (at level 100, m at next level, right associativity) : cli_scope.
Notation "m ;;; k" := (cbind m (fun _ => k))
  (at level 100, right associativity) : cli_scope.

Section Script.
Context (U : Env) (O : Os).

Definition SESSIONS_DIR : string := path_join O (DATA_DIR O) "sessions".

Definition ensure_dirs : cli unit := act Makedirs (makedirs O).

Definition fetch_sessions (client : Rpc) : traced (list json) :=
  (response <~ perform (CallRequest "session.list" (JObj []))
                       (request client "session.list" (JObj [])) ;;
   sessions <~ lift (match response with
                     | JArr _ => Ok response
                     | _ => py_get response "sessions" (JArr [])
                     end) ;;
   match sessions with
   | JArr l =>
       keys <~ lift (mapM (fun s => py_get s "startTime" (JStr "")) l) ;;
       lift (sort_reverse U (combine keys l))
   | _ => lift (Raise AttributeError)
   end)%traced.

Definition fetch_session_events (client : Rpc) (session_id : json)
  : traced json :=
  tcatch
    (perform (CallResume session_id) (resume_session client session_id) ~;;
     result <~ perform
                 (CallRequest "session.getMessages"
                              (JObj [("sessionId", session_id)]))
                 (request client "session.getMessages"
                          (JObj [("sessionId", session_id)])) ;;
     lift (py_get result "events" (JArr [])))%traced
    (fun _ => tret (JArr [])).

(** [args.token or os.environ.get(...) or ... or ...] *)
Definition resolve_token (args : Args) : option string :=
  py_or (py_or (py_or (token args) (environ O "COPILOT_GITHUB_TOKEN"))
               (environ O "GH_TOKEN"))
        (environ O "GITHUB_TOKEN").

(** The client that [main] builds: with the resolved token when it is true,
    the one of the local login otherwise. *)
Definition make_client (args : Args) : Rpc :=
  match resolve_token args with
  | Some (String c r) => CopilotClient U (String c r)
  | _ => local_client O
  end.

Definition session_path (sid : json) : string :=
  path_join O SESSIONS_DIR (py_str U sid ++ ".json").

(** The [for i, s in enumerate(display, 1)] loop; the value threaded
    through is the local variable [events], [None] while unassigned. *)
Fixpoint write_sessions (client : Rpc) (display : list json)
         (events : option json) : cli (option json) :=
  match display with
  | [] => cret events
  | s :: rest =>
      (sid <- pure (py_get s "sessionId" (JStr "unknown")) ;;
       events <- rpc (fetch_session_events client sid) ;;
       session_data <- pure (Copilot.with_events s events) ;;
       act (Dump (session_path sid) session_data)
           (dump_json O (session_path sid) session_data) ;;;
       write_sessions client rest (Some events))%cli
  end.

Definition main (args : Args) : cli unit :=
  (ensure_dirs ;;;
   let client := make_client args in
   rpc (perform CallStart (start client)) ;;;
   cfinally
     (sessions <- rpc (fetch_sessions client) ;;
      let limit := Copilot.cap_of (limit args) (all args) in
      let display := Copilot.truncate sessions limit in
      let sessions_path := path_join O (DATA_DIR O) "sessions.json" in
      act (Dump sessions_path (JArr display))
          (dump_json O sessions_path (JArr display)) ;;;
      events <- (if list_only args then cret None
                 else write_sessions client display None) ;;
      match events with
      | None => fun tr => (Fail (UnboundLocalError "events"), tr)
      | Some events => n <- pure (py_len events) ;; cret tt
      end)
     (rpc (perform CallStop (stop client))))%cli.

End Script.

End Cli.

(* ================================================================== *)
(** ** A concrete environment, for running the code on examples

    [Demo.loads] decodes the fragment of JSON made of [null], [true],
    [false], integers, strings of printable ASCII without escapes, arrays
    and objects, where it agrees with [json.loads]; it raises on every other
    input. *)

Module Demo.

Definition is_ws (c : ascii) : bool :=
  (Ascii.eqb c " " || Ascii.eqb c "009" || Ascii.eqb c "010" || Ascii.eqb c "013")%bool.

Fixpoint skip_ws (s : string) : string :=
  match s with
  | String c r => if is_ws c then skip_ws r else s
  | EmptyString => EmptyString
  end.

Definition digit_of (c : ascii) : option Z :=
  let n := nat_of_ascii c in
  if ((48 <=? n) && (n <=? 57))%nat then Some (Z.of_nat (n - 48)) else None.

Fixpoint read_digits (s : string) (acc : Z) : Z * string :=
  match s with
  | String c r =>
      match digit_of c with
      | Some d => read_digits r (10 * acc + d)%Z
      | None => (acc, s)
      end
  | EmptyString => (acc, s)
  end.

(** An integer literal, without a leading zero; a fraction or an exponent
    is outside the fragment. *)
Definition read_int (s : string) : option (Z * string) :=
  match s with
  | String c r =>
      match digit_of c with
      | None => None
      | Some d =>
          let '(n, rest) := if (d =? 0)%Z then (0%Z, r) else read_digits s 0%Z in
          match rest with
          | String c' _ =>
              if (Ascii.eqb c' "." || Ascii.eqb c' "e" || Ascii.eqb c' "E")%bool
              then None else Some (n, rest)
          | EmptyString => Some (n, rest)
          end
      end
  | EmptyString => None
  end.

(** The characters up to the closing quote: printable ASCII, no escapes. *)
Fixpoint read_string (s : string) : option (string * string) :=
  match s with
  | EmptyString => None
  | String c r =>
      if Ascii.eqb c "034" then Some (EmptyString, r)
      else if Ascii.eqb c "\" then None
      else if ((nat_of_ascii c <? 32) || (126 <? nat_of_ascii c))%nat then None
      else match read_string r with
           | Some (t, rest) => Some (String c t, rest)
           | None => None
           end
  end.

Definition expect (word : string) (v : json) (s : string)
  : option (json * string) :=
  if String.prefix word s
  then Some (v, substring (String.length word)
                          (String.length s - String.length word) s)
  else None.

Fixpoint parse_value (fuel : nat) (s : string) : option (json * string) :=
  match fuel with
  | O => None
  | S fuel =>
      match skip_ws s with
      | EmptyString => None
      | String c r as s' =>
          if Ascii.eqb c "n" then expect "null" JNull s'
          else if Ascii.eqb c "t" then expect "true" (JBool true) s'
          else if Ascii.eqb c "f" then expect "false" (JBool false) s'
          else if Ascii.eqb c "034" then
            match read_string r with
            | Some (t, rest) => Some (JStr t, rest)
            | None => None
            end
          else if Ascii.eqb c "-" then
            match read_int r with
            | Some (n, rest) => Some (JNum (- n), rest)
            | None => None
            end
          else if Ascii.eqb c "[" then
            match skip_ws r with
            | String c' r' =>
                if Ascii.eqb c' "]" then Some (JArr [], r')
                else parse_items fuel r []
            | EmptyString => None
            end
          else if Ascii.eqb c "{" then
            match skip_ws r with
            | String c' r' =>
                if Ascii.eqb c' "}" then Some (JObj [], r')
                else parse_members fuel r []
            | EmptyString => None
            end
          else
            match read_int s' with
            | Some (n, rest) => Some (JNum n, rest)
            | None => None
            end
      end
  end
with parse_items (fuel : nat) (s : string) (acc : list json)
  : option (json * string) :=
  match fuel with
  | O => None
  | S fuel =>
      match parse_value fuel s with
      | None => None
      | Some (v, rest) =>
          match skip_ws rest with
          | String c r =>
              if Ascii.eqb c "," then parse_items fuel r (acc ++ [v])%list
              else if Ascii.eqb c "]" then Some (JArr (acc ++ [v])%list, r)
              else None
          | EmptyString => None
          end
      end
  end
with parse_members (fuel : nat) (s : string) (acc : list (string * json))
  : option (json * string) :=
  match fuel with
  | O => None
  | S fuel =>
      match skip_ws s with
      | String q r =>
          if Ascii.eqb q "034" then
            match read_string r with
            | None => None
            | Some (k, rest) =>
                match skip_ws rest with
                | String c r1 =>
                    if Ascii.eqb c ":" then
                      match parse_value fuel r1 with
                      | None => None
                      | Some (v, rest') =>
                          match skip_ws rest' with
                          | String c' r2 =>
                              if Ascii.eqb c' ","
                              then parse_members fuel r2 (assoc_set k v acc)
                              else if Ascii.eqb c' "}"
                              then Some (JObj (assoc_set k v acc), r2)
                              else None
                          | EmptyString => None
                          end
                      end
                    else None
                | EmptyString => None
                end
            end
          else None
      | EmptyString => None
      end
  end.

Definition decode_error : exn := ExternalError "JSONDecodeError" "invalid document".

Definition loads (b : bytes) : result json :=
  let s := string_of_list_byte b in
  match parse_value (2 * String.length s + 2) s with
  | Some (v, rest) =>
      match skip_ws rest with
      | EmptyString => Ok v
      | _ => Raise decode_error
      end
  | None => Raise decode_error
  end.

(** Text to bytes, and a double quote for writing JSON text. *)
Definition b (s : string) : bytes := list_byte_of_string s.
Definition q : string := String "034" EmptyString.

Definition bytes_eqb (x y : bytes) : bool :=
  String.eqb (string_of_list_byte x) (string_of_list_byte y).

(** Rendering of integers, strings, [None] and booleans. *)
Definition str (v : json) : string :=
  match v with
  | JStr s => s
  | JNum n => NilZero.string_of_int (Z.to_int n)
  | JNull => "None"
  | JBool true => "True"
  | JBool false => "False"
  | _ => "..."
  end.

Definition str_of_exn (e : exn) : string :=
  match e with
  | PermissionError m | LookupError m | ValueError m => m
  | KeyError k => "'" ++ k ++ "'"
  | TypeError => "TypeError"
  | AttributeError => "AttributeError"
  | HTTPException c d => str (JNum c) ++ ": " ++ str d
  | ExternalError _ m => m
  end.

(** Owner and repository of ["https://github.com/<owner>/<repo>"]. *)
Definition url_match (url : string) : option (string * string) :=
  let host := "https://github.com/" in
  if String.prefix host url then
    let rest := substring (String.length host)
                          (String.length url - String.length host) url in
    match index 0 "/" rest with
    | Some i => Some (substring 0 i rest,
                      substring (S i) (String.length rest - S i) rest)
    | None => None
    end
  else None.

(** A stable descending sort for keys that are all strings. *)
Fixpoint insert_desc (k : string) (v : json) (l : list (string * json))
  : list (string * json) :=
  match l with
  | [] => [(k, v)]
  | (k', v') :: l' =>
      if String.ltb k' k then (k, v) :: l
      else (k', v') :: insert_desc k v l'
  end.

Fixpoint string_keys (l : list (json * json)) : option (list (string * json)) :=
  match l with
  | [] => Some []
  | (JStr k, v) :: l' =>
      match string_keys l' with
      | Some r => Some ((k, v) :: r)
      | None => None
      end
  | _ => None
  end.

Definition sort_desc (l : list (json * json)) : result (list json) :=
  match l with
  | [] | [_] => Ok (map snd l)
  | _ =>
      match string_keys l with
      | Some kl =>
          Ok (map snd (fold_left (fun acc kv => insert_desc (fst kv) (snd kv) acc)
                                 kl []))
      | None => Raise TypeError
      end
  end.

Definition zip_bytes : bytes := b "PK".

(** An upstream that answers every JSON request with [status] and [body],
    serves [archive] as the artifact bundle, and whose assistant-session
    client is [rpc]. *)
Definition env (status : Z) (body : bytes) (archive : ZipFile) (rpc : Rpc)
  : Env :=
  {| http_get := fun _ path _ _ =>
       if endswith path "/zip"
       then Ok {| status_code := 200; content := zip_bytes |}
       else Ok {| status_code := status; content := body |};
     raise_for_status := fun r =>
       if (400 <=? status_code r)%Z
       then Raise (ExternalError "HTTPStatusError" (str (JNum (status_code r))))
       else Ok tt;
     aclose := Ok tt;
     json_loads := loads;
     zip_open := fun x =>
       if bytes_eqb x zip_bytes then Ok archive
       else Raise (ExternalError "BadZipFile" "File is not a zip file");
     decode_utf8_replace := fun x => Ok (string_of_list_byte x);
     py_str := str;
     exn_str := str_of_exn;
     github_url_match := url_match;
     sort_reverse := sort_desc;
     CopilotClient := fun _ => rpc |}.

Definition no_rpc : Rpc :=
  {| start := Raise (ExternalError "ConnectionError" "no server");
     stop := Ok tt;
     request := fun _ _ => Raise (ExternalError "ConnectionError" "no server");
     resume_session := fun _ => Raise (ExternalError "ConnectionError" "no server") |}.

Definition file (name text : string) : entry :=
  {| filename := name; payload := Ok (b text) |}.

Definition client : GitHub.GitHubClient := GitHub.init "ghp_x" "octo" "demo".

(** A run listing with one artifact named ["gatekeeper-final-analysis"]. *)
Definition listing_one : bytes :=
  b ("{" ++ q ++ "artifacts" ++ q ++ ": [{" ++ q ++ "id" ++ q ++ ": 11, " ++
     q ++ "name" ++ q ++ ": " ++ q ++ "gatekeeper-final-analysis" ++ q ++ "}]}").

(** A run listing with two artifacts, neither the default one. *)
Definition listing_other : bytes :=
  b ("{" ++ q ++ "artifacts" ++ q ++ ": [{" ++ q ++ "id" ++ q ++ ": 5, " ++
     q ++ "name" ++ q ++ ": " ++ q ++ "logs" ++ q ++ "}, {" ++
     q ++ "id" ++ q ++ ": 6, " ++
     q ++ "name" ++ q ++ ": " ++ q ++ "coverage" ++ q ++ "}]}").

(** An assistant-session client that lists [listing] and answers
    [session.getMessages] for a session with [events sid]. *)
Definition sessions_rpc (listing : json) (events : json -> result json) : Rpc :=
  {| start := Ok tt;
     stop := Ok tt;
     request := fun method params =>
       if String.eqb method "session.list" then Ok listing
       else match params with
            | JObj [(_, sid)] => events sid
            | _ => Raise (ExternalError "RpcError" "bad request")
            end;
     resume_session := fun _ => Ok tt |}.

Definition session (sid started : string) : json :=
  JObj [("sessionId", JStr sid); ("startTime", JStr started)].

Definition anonymous (started : string) : json :=
  JObj [("startTime", JStr started)].

Definition timeline (sid : json) : result json :=
  Ok (JObj [("events", JArr [JObj [("type", JStr "user.message"); ("of", sid)]])]).

(** As [timeline], except that the fetch for session ["b"] fails. *)
Definition timeline_b_down (sid : json) : result json :=
  if key_eqb sid (JStr "b")
  then Raise (ExternalError "RpcError" "session not found")
  else timeline sid.

Definition three_sessions : json :=
  JArr [session "a" "2024-01-02"; anonymous "2024-01-01"; session "b" "2024-01-03"].

Definition report_text : string := "{" ++ q ++ "a" ++ q ++ ": 1}".

(** A bundle with the consolidated report and its companion markdown. *)
Definition report_bundle : ZipFile :=
  [ file "reports/gatekeeper-consolidated.json" report_text;
    file "cast-impact-analysis-v2.md" "hi" ].

(** A bundle where both known names occur, the lower-priority one first. *)
Definition both_bundle : ZipFile :=
  [ file "x/council-results.json" "[1]";
    file "nested/dir/gatekeeper-consolidated.json" report_text ].

(** A bundle whose report is the JSON document [null]. *)
Definition null_bundle : ZipFile :=
  [ file "gatekeeper-consolidated.json" "null" ].

(** A bundle whose companion markdown cannot be read. *)
Definition damaged_bundle : ZipFile :=
  [ file "out/result.json" report_text;
    {| filename := "docs/cast-impact-analysis.md";
       payload := Raise (ExternalError "BadZipFile" "Bad CRC-32") |} ].

Definition default_name : string := "gatekeeper-final-analysis".

(** The fetch against a client that lists [three_sessions]. *)
Definition sessions_env (events : json -> result json) : Env :=
  env 200 [] [] (sessions_rpc three_sessions events).

Definition run_fetch (limit : Z) (fetch_all : bool)
  : result (list json * dict) * list call :=
  Copilot.fetch_copilot_sessions (sessions_env timeline) "ghp_x" limit fetch_all [].

Definition fetch_request (limit : Z) (fetch_all : bool)
  : Main.SessionFetchRequest :=
  {| Main.token := "ghp_x"; Main.limit := limit; Main.fetch_all := fetch_all |}.

(** One run of a workflow as the upstream lists it. *)
Definition run_text (id status : string) : string :=
  "{" ++ q ++ "id" ++ q ++ ": " ++ id ++ ", " ++
  q ++ "status" ++ q ++ ": " ++ q ++ status ++ q ++ ", " ++
  q ++ "conclusion" ++ q ++ ": null, " ++
  q ++ "created_at" ++ q ++ ": " ++ q ++ "2024-01-01T00:00:00Z" ++ q ++ ", " ++
  q ++ "updated_at" ++ q ++ ": " ++ q ++ "2024-01-01T00:05:00Z" ++ q ++ ", " ++
  q ++ "html_url" ++ q ++ ": " ++ q ++ "https://github.com/octo/demo/actions/runs/" ++ id ++ q ++ ", " ++
  q ++ "head_sha" ++ q ++ ": " ++ q ++ "0123456789abcdef" ++ q ++ ", " ++
  q ++ "display_title" ++ q ++ ": " ++ q ++ "Update" ++ q ++ ", " ++
  q ++ "run_number" ++ q ++ ": " ++ id ++ "}".

Definition runs_body (runs : string) : bytes :=
  b ("{" ++ q ++ "workflow_runs" ++ q ++ ": [" ++ runs ++ "]}").

(** A bundle with only the lower-priority report, after an unrelated JSON
    file. *)
Definition council_bundle : ZipFile :=
  [ file "meta/index.json" "[0]";
    file "out/council-results.json" report_text ].

(** A bundle with no known name: the first ".json" entry is the payload. *)
Definition plain_bundle : ZipFile :=
  [ file "README.md" "notes";
    file "x/output.json" report_text;
    file "y/other.json" "[2]" ].

(** A bundle without any JSON file. *)
Definition text_bundle : ZipFile :=
  [ file "README.md" "notes"; file "logs/run.txt" "ok" ].

(** A run listing where two artifacts share the default name. *)
Definition listing_twice : bytes :=
  b ("{" ++ q ++ "artifacts" ++ q ++ ": [{" ++ q ++ "id" ++ q ++ ": 5, " ++
     q ++ "name" ++ q ++ ": " ++ q ++ "logs" ++ q ++ "}, {" ++
     q ++ "id" ++ q ++ ": 11, " ++
     q ++ "name" ++ q ++ ": " ++ q ++ "gatekeeper-final-analysis" ++ q ++ "}, {" ++
     q ++ "id" ++ q ++ ": 12, " ++
     q ++ "name" ++ q ++ ": " ++ q ++ "gatekeeper-final-analysis" ++ q ++ "}, 7]}").

(** A workflow listing: two workflows whose names differ in case only, then
    an entry that is not a workflow. *)
Definition workflows_body : bytes :=
  b ("{" ++ q ++ "workflows" ++ q ++ ": [{" ++ q ++ "id" ++ q ++ ": 1, " ++
     q ++ "name" ++ q ++ ": " ++ q ++ "gatekeeper analysis" ++ q ++ "}, {" ++
     q ++ "id" ++ q ++ ": 2, " ++
     q ++ "name" ++ q ++ ": " ++ q ++ "Gatekeeper Analysis" ++ q ++ "}, 7]}").

(** The two workflows alone. *)
Definition workflows_two : bytes :=
  b ("{" ++ q ++ "workflows" ++ q ++ ": [{" ++ q ++ "id" ++ q ++ ": 1, " ++
     q ++ "name" ++ q ++ ": " ++ q ++ "gatekeeper analysis" ++ q ++ "}, {" ++
     q ++ "id" ++ q ++ ": 2, " ++
     q ++ "name" ++ q ++ ": " ++ q ++ "Gatekeeper Analysis" ++ q ++ "}]}").

(** A run as [run_text] but with the given last member. *)
Definition run_with (id status member : string) : string :=
  let r := run_text id status in
  substring 0 (String.length r - 1) r ++ ", " ++ member ++ "}".


(** A page whose second run has the actor [null]. *)
Definition runs_page_null_actor : bytes :=
  runs_body (run_text "1" "completed" ++ ", " ++
             run_with "2" "completed" (q ++ "actor" ++ q ++ ": null")).

(** A page over all workflows: one run with the workflow's name, one
    without. *)
Definition all_runs_page : bytes :=
  runs_body (run_with "1" "in_progress"
               (q ++ "name" ++ q ++ ": " ++ q ++ "Nightly" ++ q) ++ ", " ++
             run_text "2" "completed").

(** A client whose start fails with a message that quotes the token. *)
Definition leaky_rpc : Rpc :=
  {| start := Raise (ExternalError "AuthError"
                       "token ghp_x rejected (ghp_x is not authorised)");
     stop := Ok tt;
     request := fun _ _ => Raise (ExternalError "ConnectionError" "no server");
     resume_session := fun _ => Raise (ExternalError "ConnectionError" "no server") |}.

(** A client that starts and then cannot list its sessions. *)
Definition listless_rpc : Rpc :=
  {| start := Ok tt;
     stop := Ok tt;
     request := fun _ _ => Raise (ExternalError "RpcError" "unavailable");
     resume_session := fun _ => Ok tt |}.

(** An agent that answers every prompt with the same text. *)
Definition canned_agent : Main.Agent :=
  {| Main.agents_get := fun name => Ok name;
     Main.responses_create := fun _ _ => Ok "All checks passed." |}.

(** An agent that cannot be reached. *)
Definition absent_agent : Main.Agent :=
  {| Main.agents_get := fun _ => Raise (ExternalError "HttpResponseError" "agent not found");
     Main.responses_create := fun _ _ => Ok "unused" |}.

(** An operating system where only [GH_TOKEN] and [GITHUB_TOKEN] are set,
    the first to the empty string, and every write succeeds. *)
Definition os : Cli.Os :=
  {| Cli.environ := fun name =>
       if String.eqb name "GH_TOKEN" then Some ""
       else if String.eqb name "GITHUB_TOKEN" then Some "ghp_env"
       else None;
     Cli.makedirs := Ok tt;
     Cli.dump_json := fun _ _ => Ok tt;
     Cli.path_join := fun a c => a ++ "/" ++ c;
     Cli.DATA_DIR := "data";
     Cli.local_client := no_rpc |}.

Definition cli_args (list_only : bool) : Cli.Args :=
  {| Cli.all := false; Cli.limit := 50; Cli.list_only := list_only;
     Cli.token := None |}.

(** As [env 200 listing_one], except that the download of the bundle is
    answered with [status] and no content. *)
Definition download_env (status : Z) : Env :=
  let U := env 200 listing_one [] no_rpc in
  {| http_get := fun _ path _ _ =>
       if endswith path "/zip"
       then Ok {| status_code := status; content := [] |}
       else Ok {| status_code := 200; content := listing_one |};
     raise_for_status := raise_for_status U;
     aclose := aclose U;
     json_loads := json_loads U;
     zip_open := zip_open U;
     decode_utf8_replace := decode_utf8_replace U;
     py_str := py_str U;
     exn_str := exn_str U;
     github_url_match := github_url_match U;
     sort_reverse := sort_reverse U;
     CopilotClient := CopilotClient U |}.

(** A bundle whose report is a JSON array, with a companion markdown. *)
Definition array_bundle : ZipFile :=
  [ file "out/result.json" "[1]";
    file "cast-impact-analysis.md" "hi" ].

(** A bundle with two companion markdown entries. *)
Definition two_reports_bundle : ZipFile :=
  [ file "result.json" report_text;
    file "cast-impact-analysis-v1.md" "first";
    file "docs/cast-impact-analysis-v2.md" "second" ].

(** A bundle whose companion report lies in a directory, after a file that
    has the prefix only in its directory name. *)
Definition nested_bundle : ZipFile :=
  [ file "result.json" report_text;
    file "cast-impact-analysis/readme.md" "no";
    file "reports/md/cast-impact-analysis-v3.md" "deep" ].

End Demo.

(* ================================================================== *)
(** * Properties *)

Local Open Scope py_scope.

(** ** Facts about the Python operators *)

Lemma bind_Ok {A B} (m : result A) (k : A -> result B) (a : A) :
  m = Ok a -> bind m k = k a.
Proof. intros ->. reflexivity. Qed.

Lemma bind_Ok_inv {A B} (m : result A) (k : A -> result B) (y : B) :
  bind m k = Ok y -> exists a, m = Ok a /\ k a = Ok y.
Proof. destruct m as [a|e]; simpl; [eauto | discriminate]. Qed.

Lemma assoc_get_set_same k v d : assoc_get k (assoc_set k v d) = Some v.
Proof.
  induction d as [|[k' v'] d IH]; simpl.
  - now rewrite String.eqb_refl.
  - destruct (String.eqb k k') eqn:E; simpl; rewrite E; auto.
Qed.

Lemma assoc_get_set_other k k' v d :
  k <> k' -> assoc_get k (assoc_set k' v d) = assoc_get k d.
Proof.
  intros Hne. induction d as [|[k0 v0] d IH]; simpl.
  - destruct (String.eqb_spec k k'); [contradiction | reflexivity].
  - destruct (String.eqb_spec k' k0) as [->|Hk]; simpl.
    + destruct (String.eqb_spec k k0); [contradiction | reflexivity].
    + destruct (String.eqb k k0); auto.
Qed.

Lemma find_first {A} (f : A -> bool) (l : list A) (x : A) :
  In x l -> f x = true -> exists y, find f l = Some y.
Proof.
  intros Hin Hx. destruct (find f l) as [y|] eqn:E; [eauto|].
  rewrite (find_none _ _ E _ Hin) in Hx. discriminate.
Qed.

(** ** Facts about names and base names *)

Lemma append_nil_r (a : string) : (a ++ "")%string = a.
Proof. induction a as [|x a IH]; simpl; [reflexivity | now rewrite IH]. Qed.

Lemma append_assoc (a b c : string) : ((a ++ b) ++ c)%string = (a ++ b ++ c)%string.
Proof. induction a as [|x a IH]; simpl; [reflexivity | now rewrite IH]. Qed.

Lemma length_append (a b : string) :
  String.length (a ++ b) = (String.length a + String.length b)%nat.
Proof. induction a as [|x a IH]; simpl; [reflexivity | now rewrite IH]. Qed.

Lemma substring_all (s : string) : substring 0 (String.length s) s = s.
Proof. induction s as [|c s IH]; simpl; [reflexivity | now rewrite IH]. Qed.

Lemma substring_skip (p s : string) (m : nat) :
  substring (String.length p) m (p ++ s) = substring 0 m s.
Proof. induction p as [|c p IH]; simpl; [reflexivity | exact IH]. Qed.

Lemma substring_split (k : nat) :
  forall s, (k <= String.length s)%nat ->
            s = (substring 0 k s ++ substring k (String.length s - k) s)%string.
Proof.
  induction k as [|k IH]; intros s Hk.
  - rewrite Nat.sub_0_r, substring_all. now destruct s.
  - destruct s as [|c s]; simpl in *; [lia|].
    f_equal. apply IH. lia.
Qed.

Lemma prefix_cons a t c s :
  String.prefix (String a t) (String c s)
  = (if Ascii.eqb a c then String.prefix t s else false).
Proof.
  simpl. destruct (Ascii.eqb_spec a c) as [->|Hne].
  - destruct (ascii_dec c c); [reflexivity | contradiction].
  - destruct (ascii_dec a c); [contradiction | reflexivity].
Qed.

Lemma str_contains_cons c s t :
  str_contains (String c s) t = String.prefix t (String c s) || str_contains s t.
Proof.
  unfold str_contains.
  change (index 0 t (String c s))
    with (if String.prefix t (String c s) then Some 0%nat
          else match index 0 t s with
               | Some n => Some (S n)
               | None => None
               end).
  destruct (String.prefix t (String c s)); [reflexivity|].
  simpl. now destruct (index 0 t s).
Qed.

Lemma str_contains_slash d base :
  str_contains (d ++ String "/" base) "/" = true.
Proof.
  induction d as [|c d IH]; cbn [append]; rewrite str_contains_cons.
  - rewrite prefix_cons, Ascii.eqb_refl. now destruct base.
  - rewrite IH. apply orb_true_r.
Qed.

Lemma no_slash base : no_char "/" base = true -> str_contains base "/" = false.
Proof.
  induction base as [|c r IH]; [reflexivity|].
  cbn [no_char]. intros H. apply andb_true_iff in H as [Hc Hr].
  rewrite str_contains_cons, prefix_cons, (IH Hr).
  destruct (Ascii.eqb "/" c) eqn:E; [discriminate Hc | reflexivity].
Qed.

Lemma rsplit_last_join d base :
  no_char "/" base = true -> rsplit_last (d ++ String "/" base) = base.
Proof.
  intros Hbase. induction d as [|c d IH]; cbn [append rsplit_last].
  - rewrite (no_slash _ Hbase). reflexivity.
  - now rewrite str_contains_slash.
Qed.

Lemma basename_join d base :
  no_char "/" base = true -> GitHub.basename (d ++ String "/" base) = base.
Proof.
  intros Hbase. unfold GitHub.basename.
  rewrite str_contains_slash. now apply rsplit_last_join.
Qed.

Lemma prefix_app p s : String.prefix p (p ++ s) = true.
Proof.
  induction p as [|c p IH]; [now destruct s|].
  cbn [append]. rewrite prefix_cons, Ascii.eqb_refl. exact IH.
Qed.

Lemma prefix_inv p : forall s, String.prefix p s = true -> exists rest, s = p ++ rest.
Proof.
  induction p as [|a p IH]; intros s H.
  - exists s. reflexivity.
  - destruct s as [|c s]; [discriminate H|].
    rewrite prefix_cons in H. destruct (Ascii.eqb_spec a c) as [->|]; [|discriminate H].
    destruct (IH _ H) as [rest ->]. exists rest. reflexivity.
Qed.

Lemma no_char_app c a b : no_char c (a ++ b) = no_char c a && no_char c b.
Proof.
  induction a as [|x a IH]; [reflexivity|].
  cbn [append no_char]. now rewrite IH, andb_assoc.
Qed.

Lemma no_slash_inv s : str_contains s "/" = false -> no_char "/" s = true.
Proof.
  induction s as [|c r IH]; [reflexivity|].
  rewrite str_contains_cons, prefix_cons. cbn [no_char].
  destruct (Ascii.eqb "/" c); [destruct r; discriminate|].
  intros H. now rewrite IH.
Qed.

(** What [rsplit("/", 1)[-1]] leaves of a name with a ["/"]: the part
    after a directory path and a ["/"], itself without any. *)
Lemma rsplit_last_split name :
  str_contains name "/" = true ->
  exists dir,
    name = dir ++ String "/" (rsplit_last name) /\
    no_char "/" (rsplit_last name) = true.
Proof.
  induction name as [|c r IH]; [discriminate|].
  intros H. cbn [rsplit_last].
  destruct (str_contains r "/") eqn:Hr.
  - destruct (IH eq_refl) as (dir & Heq & Hno).
    exists (String c dir). split; [|exact Hno].
    cbn [append]. now rewrite <- Heq.
  - rewrite str_contains_cons, prefix_cons, Hr in H.
    destruct (Ascii.eqb_spec "/" c) as [<-|]; [|now destruct (String.prefix "" r)].
    rewrite Ascii.eqb_refl.
    exists "". split; [reflexivity | now apply no_slash_inv].
Qed.

(** The code's test on the base name is the specification's. *)
Lemma is_cast_impact_spec name :
  GitHub.is_cast_impact name = true <-> GitHub.cast_impact_by_spec name.
Proof.
  unfold GitHub.is_cast_impact, GitHub.cast_impact_by_spec, startswith. split.
  - unfold GitHub.basename. destruct (str_contains name "/") eqn:Hs.
    + destruct (rsplit_last_split _ Hs) as (dir & Heq & Hno). intros H.
      apply prefix_inv in H as [rest Hrest]. rewrite Hrest in Heq, Hno.
      exists (dir ++ "/"), rest. split; [|split].
      * rewrite append_assoc. exact Heq.
      * rewrite no_char_app in Hno. now apply andb_true_iff in Hno.
      * right. now exists dir.
    + intros H. apply prefix_inv in H as [rest Hrest].
      exists "", rest. split; [exact Hrest | split; [|now left]].
      apply no_slash_inv in Hs. rewrite Hrest, no_char_app in Hs.
      now apply andb_true_iff in Hs.
  - intros (path & rest & -> & Hrest & [->|[dir ->]]).
    + change ("" ++ "cast-impact-analysis" ++ rest)%string
        with ("cast-impact-analysis" ++ rest)%string.
      unfold GitHub.basename.
      rewrite (no_slash ("cast-impact-analysis" ++ rest)) by exact Hrest.
      apply prefix_app.
    + rewrite append_assoc.
      change ("/" ++ "cast-impact-analysis" ++ rest)%string
        with (String "/" ("cast-impact-analysis" ++ rest)).
      rewrite basename_join by exact Hrest. apply prefix_app.
Qed.

Lemma find_first_split {A} (f : A -> bool) (P : A -> Prop) pre x post :
  (forall a, f a = true <-> P a) ->
  Forall (fun a => ~ P a) pre -> P x ->
  find f (pre ++ x :: post)%list = Some x.
Proof.
  intros Hf Hpre Hx. induction Hpre as [|a pre Ha _ IH]; simpl.
  - now rewrite (proj2 (Hf x) Hx).
  - destruct (f a) eqn:E; [|exact IH]. apply Hf in E. contradiction.
Qed.

(** ** The artifact extractor *)

Section ArtifactProperties.
Context (U : Env) (self : GitHub.GitHubClient).
Import GitHub.

Lemma scan_artifacts_miss artifact_name items names :
  Forall2 (fun a n => py_getitem a "name" = Ok n) items names ->
  Forall (fun n => py_eq_str n artifact_name = false) names ->
  forall acc,
    scan_artifacts artifact_name items acc = Ok (JNull, (acc ++ names)%list).
Proof.
  induction 1 as [|a n items names Ha _ IH]; intros Hmiss acc; simpl.
  - now rewrite app_nil_r.
  - inversion Hmiss as [|? ? Hn Hrest]; subst.
    rewrite Ha; simpl. rewrite Hn, (IH Hrest).
    now rewrite <- app_assoc.
Qed.

Lemma get_artifact_of_bundle run_id artifact_name zf :
  serves_bundle U self run_id artifact_name zf ->
  get_artifact U self run_id artifact_name = extract_json U zf.
Proof.
  intros (items & id & avail & Hl & Hs & Hid & Hz).
  unfold get_artifact. rewrite Hl; simpl. rewrite Hs; simpl.
  rewrite Hid, Hz. reflexivity.
Qed.

(** The outer loop over the candidates decides before the listing order
    does: a name ending in the first candidate is selected whatever else
    is in the archive. *)
Lemma select_first_candidate names name :
  find (fun n => endswith n "gatekeeper-consolidated.json") names = Some name ->
  select_json_entry names = Some name.
Proof. intros H. unfold select_json_entry. simpl. now rewrite H. Qed.


Lemma merge_None_iff zf v : _merge_cast_impact U zf v = JNull <-> v = JNull.
Proof.
  unfold _merge_cast_impact.
  destruct (find is_cast_impact (namelist zf)) as [name|]; [|tauto].
  destruct (zf_read zf name) as [bs|]; simpl; [|tauto].
  destruct (decode_utf8_replace U bs) as [text|]; simpl; [|tauto].
  destruct v; simpl; try tauto. split; discriminate.
Qed.


(** C2.  When no listed artifact has the requested name, [get_artifact]
    returns (does not raise) the error descriptor whose "available" entry
    is the list of all artifact names of the listing, in listing order. *)
Theorem get_artifact_name_miss run_id artifact_name items names :
  list_artifacts U self run_id = Ok items ->
  Forall2 (fun a n => py_getitem a "name" = Ok n) items names ->
  Forall (fun n => py_eq_str n artifact_name = false) names ->
  exists descriptor,
    get_artifact U self run_id artifact_name = Ok descriptor /\
    py_getitem descriptor "available" = Ok (JArr names) /\
    py_getitem descriptor "error"
      = Ok (JStr ("Artifact '" ++ artifact_name ++ "' not found")).
Proof.
  intros Hl Hnames Hmiss. exists (not_found artifact_name names).
  split; [|split; reflexivity].
  unfold get_artifact. rewrite Hl; simpl.
  now rewrite (scan_artifacts_miss _ _ _ Hnames Hmiss []).
Qed.

(** C3 (as amended).  Let the bundle have an entry whose base filename,
    the directory path ignored, starts with "cast-impact-analysis", and
    take the first such entry in listing order.  When the payload decodes
    to a mapping and the entry can be read and decoded, the result has the
    text of that entry under "cast_impact_analysis" and every other field
    of the payload unchanged.  When reading or decoding the entry raises,
    the failure is swallowed and the payload is returned as decoded; so is
    a payload that is not a mapping, the failed assignment being swallowed
    as well. *)
Theorem get_artifact_merges_cast_impact
        run_id artifact_name zf jname content v pre mname post :
  serves_bundle U self run_id artifact_name zf ->
  select_json_entry (namelist zf) = Some jname ->
  zf_read zf jname = Ok content ->
  json_loads U content = Ok v ->
  namelist zf = (pre ++ mname :: post)%list ->
  Forall (fun n => ~ cast_impact_by_spec n) pre ->
  cast_impact_by_spec mname ->
  match (raw <- zf_read zf mname ;; decode_utf8_replace U raw), v with
  | Ok text, JObj fields =>
      exists merged,
        get_artifact U self run_id artifact_name = Ok (JObj merged) /\
        assoc_get "cast_impact_analysis" merged = Some (JStr text) /\
        forall k, k <> "cast_impact_analysis" ->
                  assoc_get k merged = assoc_get k fields
  | _, _ => get_artifact U self run_id artifact_name = Ok v
  end.
Proof.
  intros Hb Hsel Hread Hparse Hnames Hpre Hm.
  assert (Hmd : find is_cast_impact (namelist zf) = Some mname).
  { rewrite Hnames.
    now apply (find_first_split _ cast_impact_by_spec _ _ _ is_cast_impact_spec). }
  rewrite (get_artifact_of_bundle _ _ _ Hb). unfold extract_json.
  rewrite Hsel. unfold load_entry. rewrite Hread; simpl. rewrite Hparse; simpl.
  unfold _merge_cast_impact. rewrite Hmd.
  destruct (zf_read zf mname) as [raw|e]; simpl; [|reflexivity].
  destruct (decode_utf8_replace U raw) as [text|e]; simpl; [|reflexivity].
  destruct v; try reflexivity.
  eexists; split; [reflexivity|]. split.
  - apply assoc_get_set_same.
  - intros k Hk. now apply assoc_get_set_other.
Qed.

Lemma get_artifact_cases run_id artifact_name res :
  get_artifact U self run_id artifact_name = Ok res ->
  (exists available, res = not_found artifact_name available) \/
  res = JObj [("error", JStr "No JSON found in artifact")] \/
  (exists zf name content v,
      serves_bundle U self run_id artifact_name zf /\
      select_json_entry (namelist zf) = Some name /\
      zf_read zf name = Ok content /\
      json_loads U content = Ok v /\
      res = _merge_cast_impact U zf v).
Proof.
  intros H. unfold get_artifact in H.
  apply bind_Ok_inv in H as (items & Hl & H).
  apply bind_Ok_inv in H as ([id avail] & Hs & H).
  destruct (is_None id) eqn:Hid.
  - left. exists avail. congruence.
  - right. apply bind_Ok_inv in H as (zf & Hz & H).
    assert (Hb : serves_bundle U self run_id artifact_name zf)
      by (exists items, id, avail; auto).
    unfold extract_json in H.
    destruct (select_json_entry (namelist zf)) as [name|] eqn:Hsel.
    + right. unfold load_entry in H.
      apply bind_Ok_inv in H as (content & Hread & H).
      apply bind_Ok_inv in H as (v & Hparse & H).
      exists zf, name, content, v. repeat split; auto. congruence.
    + left. congruence.
Qed.

Lemma get_artifact_None run_id artifact_name :
  get_artifact U self run_id artifact_name = Ok JNull <->
  exists zf name content,
    serves_bundle U self run_id artifact_name zf /\
    select_json_entry (namelist zf) = Some name /\
    zf_read zf name = Ok content /\
    json_loads U content = Ok JNull.
Proof.
  split.
  - intros H. destruct (get_artifact_cases _ _ _ H) as [[av Hd]|[Hd|Hd]];
      try discriminate.
    destruct Hd as (zf & name & content & v & Hb & Hsel & Hread & Hparse & Hm).
    symmetry in Hm. apply merge_None_iff in Hm. subst v. eauto 8.
  - intros (zf & name & content & Hb & Hsel & Hread & Hparse).
    rewrite (get_artifact_of_bundle _ _ _ Hb). unfold extract_json.
    rewrite Hsel. unfold load_entry. rewrite Hread; simpl.
    rewrite Hparse; simpl. f_equal. now apply merge_None_iff.
Qed.

End ArtifactProperties.

(** The demonstration upstream serves whatever bundle it is given. *)
Lemma demo_serves_bundle zf rpc :
  GitHub.serves_bundle (Demo.env 200 Demo.listing_one zf rpc) Demo.client 7
                       Demo.default_name zf.
Proof.
  unfold GitHub.serves_bundle.
  exists [JObj [("id", JNum 11); ("name", JStr "gatekeeper-final-analysis")]],
         (JNum 11), [JStr "gatekeeper-final-analysis"].
  repeat split; vm_compute; reflexivity.
Defined.



Lemma get_artifact_name_miss_witness :
  exists descriptor,
    GitHub.get_artifact (Demo.env 200 Demo.listing_other [] Demo.no_rpc)
                        Demo.client 7 Demo.default_name = Ok descriptor /\
    py_getitem descriptor "available" = Ok (JArr [JStr "logs"; JStr "coverage"]) /\
    py_getitem descriptor "error"
      = Ok (JStr "Artifact 'gatekeeper-final-analysis' not found").
Proof.
  apply (get_artifact_name_miss
           (Demo.env 200 Demo.listing_other [] Demo.no_rpc) Demo.client 7
           Demo.default_name
           [ JObj [("id", JNum 5); ("name", JStr "logs")];
             JObj [("id", JNum 6); ("name", JStr "coverage")] ]
           [JStr "logs"; JStr "coverage"]).
  - vm_compute; reflexivity.
  - repeat constructor.
  - repeat constructor.
Defined.

Lemma get_artifact_merges_cast_impact_witness :
  (exists merged,
      GitHub.get_artifact
        (Demo.env 200 Demo.listing_one Demo.report_bundle Demo.no_rpc)
        Demo.client 7 Demo.default_name = Ok (JObj merged) /\
      assoc_get "cast_impact_analysis" merged = Some (JStr "hi") /\
      forall k, k <> "cast_impact_analysis" ->
                assoc_get k merged = assoc_get k [("a", JNum 1)]) /\
  GitHub.get_artifact
    (Demo.env 200 Demo.listing_one Demo.damaged_bundle Demo.no_rpc)
    Demo.client 7 Demo.default_name = Ok (JObj [("a", JNum 1)]) /\
  GitHub.get_artifact
    (Demo.env 200 Demo.listing_one Demo.array_bundle Demo.no_rpc)
    Demo.client 7 Demo.default_name = Ok (JArr [JNum 1]).
Proof.
  assert (Hjson : forall name,
             GitHub.is_cast_impact name = false ->
             Forall (fun n => ~ GitHub.cast_impact_by_spec n) [name]).
  { intros name Hname. constructor; [|constructor].
    intros H. apply is_cast_impact_spec in H. congruence. }
  split; [|split].
  - apply (get_artifact_merges_cast_impact
             (Demo.env 200 Demo.listing_one Demo.report_bundle Demo.no_rpc)
             Demo.client 7 Demo.default_name Demo.report_bundle
             "reports/gatekeeper-consolidated.json"
             (Demo.b Demo.report_text) (JObj [("a", JNum 1)])
             ["reports/gatekeeper-consolidated.json"]
             "cast-impact-analysis-v2.md" []
             (demo_serves_bundle _ _) eq_refl eq_refl eq_refl eq_refl
             (Hjson "reports/gatekeeper-consolidated.json" eq_refl)).
    exists "", "-v2.md". split; [reflexivity | split; [reflexivity | now left]].
  - apply (get_artifact_merges_cast_impact
             (Demo.env 200 Demo.listing_one Demo.damaged_bundle Demo.no_rpc)
             Demo.client 7 Demo.default_name Demo.damaged_bundle
             "out/result.json"
             (Demo.b Demo.report_text) (JObj [("a", JNum 1)])
             ["out/result.json"] "docs/cast-impact-analysis.md" []
             (demo_serves_bundle _ _) eq_refl eq_refl eq_refl eq_refl
             (Hjson "out/result.json" eq_refl)).
    exists "docs/", ".md".
    split; [reflexivity | split; [reflexivity | right; now exists "docs"]].
  - apply (get_artifact_merges_cast_impact
             (Demo.env 200 Demo.listing_one Demo.array_bundle Demo.no_rpc)
             Demo.client 7 Demo.default_name Demo.array_bundle
             "out/result.json" (Demo.b "[1]") (JArr [JNum 1])
             ["out/result.json"] "cast-impact-analysis.md" []
             (demo_serves_bundle _ _) eq_refl eq_refl eq_refl eq_refl
             (Hjson "out/result.json" eq_refl)).
    exists "", ".md". split; [reflexivity | split; [reflexivity | now left]].
Defined.

(** The claim C3 as first stated fails in two ways.  A payload that is a
    JSON array next to a companion entry comes back as it is, without the
    added key: the assignment raises and is swallowed.  And of two
    companion entries only the first is used: the text of the second, whose
    base filename starts with "cast-impact-analysis" as well, is nowhere in
    the result. *)
Lemma cast_impact_merge_counterexample :
  let U1 := Demo.env 200 Demo.listing_one Demo.array_bundle Demo.no_rpc in
  let U2 := Demo.env 200 Demo.listing_one Demo.two_reports_bundle Demo.no_rpc in
  (GitHub.select_json_entry (namelist Demo.array_bundle)
     = Some "out/result.json" /\
   GitHub.cast_impact_by_spec "cast-impact-analysis.md" /\
   In "cast-impact-analysis.md" (namelist Demo.array_bundle) /\
   (raw <- zf_read Demo.array_bundle "cast-impact-analysis.md" ;;
    decode_utf8_replace U1 raw) = Ok "hi" /\
   GitHub.get_artifact U1 Demo.client 7 Demo.default_name
     = Ok (JArr [JNum 1]) /\
   (res <- GitHub.get_artifact U1 Demo.client 7 Demo.default_name ;;
    py_getitem res "cast_impact_analysis") <> Ok (JStr "hi")) /\
  (GitHub.select_json_entry (namelist Demo.two_reports_bundle)
     = Some "result.json" /\
   GitHub.cast_impact_by_spec "docs/cast-impact-analysis-v2.md" /\
   In "docs/cast-impact-analysis-v2.md" (namelist Demo.two_reports_bundle) /\
   (raw <- zf_read Demo.two_reports_bundle "docs/cast-impact-analysis-v2.md" ;;
    decode_utf8_replace U2 raw) = Ok "second" /\
   GitHub.get_artifact U2 Demo.client 7 Demo.default_name
     = Ok (JObj [("a", JNum 1); ("cast_impact_analysis", JStr "first")]) /\
   (res <- GitHub.get_artifact U2 Demo.client 7 Demo.default_name ;;
    py_getitem res "cast_impact_analysis") <> Ok (JStr "second")).
Proof.
  cbv zeta. split.
  - split; [vm_compute; reflexivity|]. split.
    { exists "", ".md". split; [reflexivity | split; [reflexivity | now left]]. }
    split; [simpl; auto|]. split; [vm_compute; reflexivity|].
    split; [vm_compute; reflexivity|]. vm_compute. discriminate.
  - split; [vm_compute; reflexivity|]. split.
    { exists "docs/", "-v2.md".
      split; [reflexivity | split; [reflexivity | right; now exists "docs"]]. }
    split; [simpl; auto|]. split; [vm_compute; reflexivity|].
    split; [vm_compute; reflexivity|]. vm_compute. discriminate.
Qed.

(** C10 (as amended).  Whatever [get_artifact] returns is the "not found"
    descriptor, the "No JSON found in artifact" descriptor, or the decoded
    payload after the merge step; it is [None] exactly when the selected
    payload decodes to [null], and then both artifact endpoints raise 404
    "Artifact not found" through their [None] branch. *)
Theorem get_artifact_None_iff_null_payload
        (U : Env) (owner repo token : string) (run_id : Z)
        (artifact_name : string) :
  let self := Main._make_client owner repo token in
  (forall res,
      GitHub.get_artifact U self run_id artifact_name = Ok res ->
      (exists available, res = GitHub.not_found artifact_name available) \/
      res = JObj [("error", JStr "No JSON found in artifact")] \/
      (exists zf name content v,
          GitHub.serves_bundle U self run_id artifact_name zf /\
          GitHub.select_json_entry (namelist zf) = Some name /\
          zf_read zf name = Ok content /\
          json_loads U content = Ok v /\
          res = GitHub._merge_cast_impact U zf v)) /\
  (GitHub.get_artifact U self run_id artifact_name = Ok JNull <->
   exists zf name content,
     GitHub.serves_bundle U self run_id artifact_name zf /\
     GitHub.select_json_entry (namelist zf) = Some name /\
     zf_read zf name = Ok content /\
     json_loads U content = Ok JNull) /\
  (GitHub.get_artifact U self run_id artifact_name = Ok JNull ->
   aclose U = Ok tt ->
   Main.get_run_artifact U run_id owner repo token artifact_name
     = Raise (HTTPException 404 (JStr "Artifact not found")) /\
   Main.get_frd_run_artifact U run_id owner repo token artifact_name
     = Raise (HTTPException 404 (JStr "Artifact not found"))).
Proof.
  intros self. split; [|split].
  - intros res. apply get_artifact_cases.
  - apply get_artifact_None.
  - intros Hnone Hclose.
    unfold Main.get_run_artifact, Main.get_frd_run_artifact, GitHub.close.
    fold self. rewrite Hnone, Hclose. simpl. auto.
Qed.

Lemma get_artifact_None_iff_null_payload_witness :
  let U := Demo.env 200 Demo.listing_one Demo.null_bundle Demo.no_rpc in
  GitHub.get_artifact U (Main._make_client "octo" "demo" "ghp_x") 7
                      Demo.default_name = Ok JNull /\
  Main.get_run_artifact U 7 "octo" "demo" "ghp_x" Demo.default_name
    = Raise (HTTPException 404 (JStr "Artifact not found")).
Proof.
  cbv zeta.
  assert (H : GitHub.get_artifact
                (Demo.env 200 Demo.listing_one Demo.null_bundle Demo.no_rpc)
                (Main._make_client "octo" "demo" "ghp_x") 7 Demo.default_name
              = Ok JNull) by (vm_compute; reflexivity).
  split; [exact H|].
  apply (get_artifact_None_iff_null_payload
           (Demo.env 200 Demo.listing_one Demo.null_bundle Demo.no_rpc)
           "octo" "demo" "ghp_x" 7 Demo.default_name);
    [exact H | reflexivity].
Defined.

(** The claim C10 as first stated fails: a report that is the JSON document
    [null] makes [get_artifact] return [None], and the endpoint then takes
    its [None] branch. *)
Lemma get_artifact_returns_None_counterexample :
  let U := Demo.env 200 Demo.listing_one Demo.null_bundle Demo.no_rpc in
  GitHub.get_artifact U Demo.client 7 Demo.default_name = Ok JNull /\
  Main.get_run_artifact U 7 "octo" "demo" "ghp_x" Demo.default_name
    = Raise (HTTPException 404 (JStr "Artifact not found")).
Proof. cbv zeta. split; vm_compute; reflexivity. Qed.

(** ** Error classification and the run lister *)

Lemma get_json_status (U : Env) (self : GitHub.GitHubClient) path params r :
  http_get U (GitHub.headers self) path params false = Ok r ->
  GitHub._get_json U self path params =
  if (status_code r =? 401)%Z then Raise (PermissionError GitHub.msg_401)
  else if (status_code r =? 403)%Z then Raise (PermissionError GitHub.msg_403)
  else if (status_code r =? 404)%Z then Raise (LookupError GitHub.msg_404)
  else (raise_for_status U r ;;; json_loads U (content r)).
Proof. intros H. unfold GitHub._get_json. now rewrite H. Qed.

Lemma connect_failure (U : Env) body owner repo e :
  github_url_match U (Main.github_url body) = Some (owner, repo) ->
  aclose U = Ok tt ->
  GitHub.validate U (Main._make_client owner repo (Main.connect_token body))
    = Raise e ->
  Main.connect U body = Main.connect_handlers U (Raise e).
Proof.
  intros Hurl Hclose Hval. unfold Main.connect, Main.parse_github_url.
  rewrite Hurl, Hval. unfold GitHub.close. rewrite Hclose. simpl.
  destruct (is_PermissionError e); [reflexivity|].
  destruct (is_LookupError e); reflexivity.
Qed.

(** C4 (as amended).  For every request sent through [_get_json], hence for
    [validate], [get_workflow_id], [get_runs], [get_all_runs] and the
    artifact listing of [get_artifact], an upstream 401 and an upstream 403
    both fail with [PermissionError], told apart only by their messages (the
    one for 403 names the required scopes), and a 404 fails with
    [LookupError].  The download of the artifact bundle, the one request
    that does not go through [_get_json], is not classified: whatever
    [raise_for_status] raises for its response, for a 401, 403 or 404 as for
    any other status, is what [get_artifact] raises.  The connect endpoint
    maps [PermissionError], hence an upstream 401 as well as a 403, to 403,
    [LookupError] to 404, and every other failure of the validation request
    to 401. *)
Theorem status_classification (U : Env) :
  (forall self path params r,
      http_get U (GitHub.headers self) path params false = Ok r ->
      (status_code r = 401%Z ->
       GitHub._get_json U self path params
         = Raise (PermissionError GitHub.msg_401)) /\
      (status_code r = 403%Z ->
       GitHub._get_json U self path params
         = Raise (PermissionError GitHub.msg_403)) /\
      (status_code r = 404%Z ->
       GitHub._get_json U self path params
         = Raise (LookupError GitHub.msg_404))) /\
  (str_contains GitHub.msg_403 "'repo' scope" = true /\
   str_contains GitHub.msg_403 "'Actions: Read' and 'Contents: Read'" = true /\
   GitHub.msg_401 <> GitHub.msg_403) /\
  (forall body owner repo e,
      github_url_match U (Main.github_url body) = Some (owner, repo) ->
      aclose U = Ok tt ->
      GitHub.validate U (Main._make_client owner repo (Main.connect_token body))
        = Raise e ->
      Main.connect U body =
      Raise (HTTPException
               (if is_PermissionError e then 403
                else if is_LookupError e then 404 else 401)
               (JStr (if is_PermissionError e || is_LookupError e
                      then exn_str U e
                      else "GitHub API error: " ++ exn_str U e)))) /\
  (forall self r e,
      status_code r = 401%Z /\ e = PermissionError GitHub.msg_401 \/
      status_code r = 403%Z /\ e = PermissionError GitHub.msg_403 \/
      status_code r = 404%Z /\ e = LookupError GitHub.msg_404 ->
      let get path params :=
        http_get U (GitHub.headers self) (GitHub._repo_prefix self ++ path)
                 params false in
      (get "" [] = Ok r -> GitHub.validate U self = Raise e) /\
      (forall workflow_name,
          get "/actions/workflows" [] = Ok r ->
          GitHub.get_workflow_id U self workflow_name = Raise e) /\
      (forall workflow_id per_page,
          get ("/actions/workflows/" ++ py_str U (JNum workflow_id) ++ "/runs")
              [("per_page", JNum per_page); ("status", JStr "completed")]
            = Ok r ->
          GitHub.get_runs U self workflow_id per_page = Raise e) /\
      (forall per_page,
          get "/actions/runs" [("per_page", JNum per_page)] = Ok r ->
          GitHub.get_all_runs U self per_page = Raise e) /\
      (forall run_id artifact_name,
          get ("/actions/runs/" ++ py_str U (JNum run_id) ++ "/artifacts") []
            = Ok r ->
          GitHub.get_artifact U self run_id artifact_name = Raise e)) /\
  (forall self run_id artifact_name items artifact_id available r e,
      GitHub.list_artifacts U self run_id = Ok items ->
      GitHub.scan_artifacts artifact_name items [] = Ok (artifact_id, available) ->
      is_None artifact_id = false ->
      http_get U (GitHub.headers self)
               (GitHub._repo_prefix self ++ "/actions/artifacts/" ++
                py_str U artifact_id ++ "/zip") [] true = Ok r ->
      raise_for_status U r = Raise e ->
      GitHub.get_artifact U self run_id artifact_name = Raise e).
Proof.
  split; [|split; [|split; [|split]]].
  - intros self path params r Hget. rewrite (get_json_status _ _ _ _ _ Hget).
    repeat split; intros ->; reflexivity.
  - repeat split; try reflexivity. discriminate.
  - intros body owner repo e Hurl Hclose Hval.
    rewrite (connect_failure _ _ _ _ _ Hurl Hclose Hval). simpl.
    destruct (is_PermissionError e); [reflexivity|].
    destruct (is_LookupError e); reflexivity.
  - intros self r e Hstatus get.
    assert (Hraise : forall path params,
               get path params = Ok r ->
               GitHub._get_json U self (GitHub._repo_prefix self ++ path) params
               = Raise e).
    { intros path params Hget. rewrite (get_json_status _ _ _ _ _ Hget).
      destruct Hstatus as [[-> ->]|[[-> ->]|[-> ->]]]; reflexivity. }
    repeat split; intros;
      unfold GitHub.validate, GitHub.get_workflow_id, GitHub.get_runs,
        GitHub.get_all_runs, GitHub.get_artifact, GitHub.list_artifacts.
    + rewrite <- (Hraise "" [] H). f_equal. symmetry. apply append_nil_r.
    + now rewrite (Hraise _ _ H).
    + now rewrite (Hraise _ _ H).
    + now rewrite (Hraise _ _ H).
    + now rewrite (Hraise _ _ H).
  - intros self run_id artifact_name items artifact_id available r e
           Hlist Hscan Hid Hget Hstatus.
    unfold GitHub.get_artifact. rewrite Hlist; simpl. rewrite Hscan; simpl.
    rewrite Hid. unfold GitHub.download_zip. rewrite Hget; simpl.
    now rewrite Hstatus.
Qed.

Lemma status_classification_witness :
  Main.connect (Demo.env 403 [] [] Demo.no_rpc)
               {| Main.github_url := "https://github.com/octo/demo";
                  Main.connect_token := "ghp_x" |}
  = Raise (HTTPException 403 (JStr GitHub.msg_403)) /\
  GitHub.get_all_runs (Demo.env 404 [] [] Demo.no_rpc) Demo.client 10
  = Raise (LookupError GitHub.msg_404) /\
  GitHub.get_artifact (Demo.download_env 401) Demo.client 7 Demo.default_name
  = Raise (ExternalError "HTTPStatusError" "401").
Proof.
  split; [|split].
  - apply (proj1 (proj2 (proj2 (status_classification
                                  (Demo.env 403 [] [] Demo.no_rpc))))
                 {| Main.github_url := "https://github.com/octo/demo";
                    Main.connect_token := "ghp_x" |}
                 "octo" "demo" (PermissionError GitHub.msg_403)).
    + vm_compute; reflexivity.
    + reflexivity.
    + vm_compute; reflexivity.
  - apply (proj1 (proj2 (proj2 (proj2 (proj1 (proj2 (proj2 (proj2
             (status_classification (Demo.env 404 [] [] Demo.no_rpc)))))
             Demo.client {| status_code := 404; content := [] |}
             (LookupError GitHub.msg_404)
             (or_intror (or_intror (conj eq_refl eq_refl))))))) 10%Z).
    vm_compute; reflexivity.
  - apply (proj2 (proj2 (proj2 (proj2 (status_classification
                                         (Demo.download_env 401)))))
                 Demo.client 7%Z Demo.default_name
                 [JObj [("id", JNum 11);
                        ("name", JStr "gatekeeper-final-analysis")]]
                 (JNum 11) [JStr "gatekeeper-final-analysis"]
                 {| status_code := 401; content := [] |}
                 (ExternalError "HTTPStatusError" "401"));
      vm_compute; reflexivity.
Defined.

(** The claim C4 as first stated fails: an upstream 401 and an upstream 403
    raise the same exception class, the endpoint answers the upstream 401
    with 403, and an unclassified upstream failure with 401, not 500; and a
    401 that answers the download of the bundle is not classified at all. *)
Lemma status_mapping_counterexample :
  let body := {| Main.github_url := "https://github.com/octo/demo";
                 Main.connect_token := "ghp_x" |} in
  GitHub.validate (Demo.env 401 [] [] Demo.no_rpc) Demo.client
    = Raise (PermissionError GitHub.msg_401) /\
  GitHub.validate (Demo.env 403 [] [] Demo.no_rpc) Demo.client
    = Raise (PermissionError GitHub.msg_403) /\
  Main.connect (Demo.env 401 [] [] Demo.no_rpc) body
    = Raise (HTTPException 403 (JStr GitHub.msg_401)) /\
  (exists detail,
      Main.connect (Demo.env 500 [] [] Demo.no_rpc) body
      = Raise (HTTPException 401 detail)) /\
  GitHub.get_artifact (Demo.download_env 401) Demo.client 7 Demo.default_name
    = Raise (ExternalError "HTTPStatusError" "401").
Proof.
  cbv zeta. split; [vm_compute; reflexivity|].
  split; [vm_compute; reflexivity|].
  split; [vm_compute; reflexivity|].
  split; [|vm_compute; reflexivity].
  eexists. vm_compute. reflexivity.
Qed.

Lemma mapM_total {A B} (f : A -> result B) (l : list A) :
  Forall (fun x => exists y, f x = Ok y) l ->
  exists out, mapM f l = Ok out /\ Forall2 (fun x y => f x = Ok y) l out.
Proof.
  induction 1 as [|x l [y Hy] _ (out & Hout & Hall)]; simpl.
  - exists []. split; [reflexivity | constructor].
  - exists (y :: out). rewrite Hy; simpl. rewrite Hout; simpl.
    split; [reflexivity | now constructor].
Qed.

Lemma run_summary_status r o :
  GitHub.run_summary r = Ok o -> py_getitem o "status" = py_getitem r "status".
Proof.
  unfold GitHub.run_summary. intros H.
  repeat match type of H with
         | bind _ _ = Ok _ => apply bind_Ok_inv in H as (? & ? & H)
         end.
  injection H as <-. simpl. congruence.
Qed.

(** C5 (as amended).  [get_runs] sends the page size and the status
    "completed" as query parameters and returns one summary for each run of
    the upstream's answer, in order, each with the status the upstream gave;
    it neither truncates nor filters.  The returned sequence therefore has
    as many entries as the upstream listed, and all report "completed" when
    all the listed runs do. *)
Theorem get_runs_mirrors_upstream
        (U : Env) (self : GitHub.GitHubClient) workflow_id per_page
        data listed runs :
  GitHub._get_json U self
    (GitHub._repo_prefix self ++ "/actions/workflows/" ++
     py_str U (JNum workflow_id) ++ "/runs")
    [("per_page", JNum per_page); ("status", JStr "completed")] = Ok data ->
  py_get data "workflow_runs" (JArr []) = Ok listed ->
  py_iter listed = Ok runs ->
  Forall (fun r => exists o, GitHub.run_summary r = Ok o) runs ->
  exists out,
    GitHub.get_runs U self workflow_id per_page = Ok out /\
    List.length out = List.length runs /\
    Forall2 (fun r o => py_getitem o "status" = py_getitem r "status") runs out /\
    (Forall (fun r => py_getitem r "status" = Ok (JStr "completed")) runs ->
     Forall (fun o => py_getitem o "status" = Ok (JStr "completed")) out).
Proof.
  intros Hdata Hlisted Hruns Hwf.
  destruct (mapM_total _ _ Hwf) as (out & Hout & Hall).
  exists out. unfold GitHub.get_runs.
  rewrite Hdata; simpl. rewrite Hlisted; simpl. rewrite Hruns; simpl.
  split; [exact Hout|].
  assert (Hst : Forall2 (fun r o => py_getitem o "status" = py_getitem r "status")
                        runs out).
  { clear - Hall. induction Hall; constructor; auto using run_summary_status. }
  split; [symmetry; eapply Forall2_length; eauto|].
  split; [exact Hst|].
  clear - Hst. induction Hst as [|r o runs out Hro _ IH];
    intros Hc; inversion Hc; subst; constructor; [congruence | auto].
Qed.

Lemma get_runs_mirrors_upstream_witness :
  exists out,
    GitHub.get_runs
      (Demo.env 200 (Demo.runs_body (Demo.run_text "1" "completed")) []
                Demo.no_rpc) Demo.client 42 5 = Ok out /\
    List.length out = 1%nat /\
    Forall (fun o => py_getitem o "status" = Ok (JStr "completed")) out.
Proof.
  edestruct (get_runs_mirrors_upstream
               (Demo.env 200 (Demo.runs_body (Demo.run_text "1" "completed")) []
                         Demo.no_rpc) Demo.client 42 5)
    as (out & Hout & Hlen & _ & Hcompleted).
  - vm_compute; reflexivity.
  - vm_compute; reflexivity.
  - vm_compute; reflexivity.
  - repeat constructor. eexists. vm_compute. reflexivity.
  - exists out. split; [exact Hout|]. split; [exact Hlen|].
    apply Hcompleted. repeat constructor.
Defined.

(** The claim C5 as first stated fails: asked for one completed run, an
    upstream that answers with two runs that are not completed gets both
    returned, with the statuses it gave. *)
Lemma get_runs_counterexample :
  let U := Demo.env 200
             (Demo.runs_body (Demo.run_text "1" "in_progress" ++ ", " ++
                              Demo.run_text "2" "queued")) [] Demo.no_rpc in
  match GitHub.get_runs U Demo.client 42 1 with
  | Ok out =>
      List.length out = 2%nat /\
      map (fun o => py_getitem o "status") out
        = [Ok (JStr "in_progress"); Ok (JStr "queued")]
  | Raise _ => False
  end.
Proof. vm_compute. split; reflexivity. Qed.

(** ** The session fetch *)

Lemma fetched_ids_app l1 l2 :
  fetched_ids (l1 ++ l2) = (fetched_ids l1 ++ fetched_ids l2)%list.
Proof.
  induction l1 as [|c l1 IH]; simpl; [reflexivity|].
  destruct c; simpl; now rewrite ?IH.
Qed.

Lemma selected_ids_length sessions :
  (List.length (selected_ids sessions) <= List.length sessions)%nat.
Proof.
  induction sessions as [|s rest IH]; simpl; [lia|].
  destruct (py_get s "sessionId" JNull) as [sid|]; simpl; [|lia].
  destruct (py_truthy sid); simpl; lia.
Qed.

Lemma slice_to_length {A} (l : list A) (cap : Z) :
  (0 < cap)%Z -> (Z.of_nat (List.length (slice_to l cap)) <= cap)%Z.
Proof.
  intros Hpos. unfold slice_to.
  destruct (Z.leb_spec 0 cap); [|lia].
  rewrite length_firstn. lia.
Qed.

Section SessionProperties.
Context (U : Env).
Import Copilot.

(** The event fetch of one session never raises, and is logged. *)
Lemma fetch_session_events_total client sid log :
  exists events log',
    _fetch_session_events client sid log = (Ok events, log') /\
    fetched_ids log' = (fetched_ids log ++ [sid])%list /\
    (forall e l, session_events client sid log = (Raise e, l) ->
                 events = JArr []).
Proof.
  unfold _fetch_session_events, tcatch, session_events, tbind, perform, lift, tret.
  destruct (resume_session client sid) as [[]|e]; simpl.
  - destruct (request client "session.getMessages" _) as [res|e]; simpl.
    + destruct (py_get res "events" (JArr [])) as [ev|e]; simpl;
        eexists _, _; (split; [reflexivity|]);
        (split; [rewrite !fetched_ids_app; simpl; now rewrite app_nil_r
                | intros ? ? Heq; congruence]).
    + eexists _, _. split; [reflexivity|].
      split; [rewrite !fetched_ids_app; simpl; now rewrite app_nil_r | auto].
  - eexists _, _. split; [reflexivity|].
    split; [rewrite fetched_ids_app; reflexivity | auto].
Qed.

Lemma key_eqb_refl k : hashable k = true -> key_eqb k k = true.
Proof.
  destruct k as [|[]| | | |]; simpl; intros H; try discriminate;
    unfold key_eqb; simpl; auto using Z.eqb_refl, String.eqb_refl.
Qed.

Lemma in_dict_put k v d k' v' :
  hashable k = true ->
  In (k', v') (dict_put k v d) ->
  In (k', v') d \/ (v' = v /\ key_eqb k k' = true).
Proof.
  intros Hh. induction d as [|[k0 v0] d IH]; simpl.
  - intros [H|[]]. injection H as <- <-. right. auto using key_eqb_refl.
  - destruct (key_eqb k k0) eqn:E; simpl.
    + intros [H|H]; [|auto]. injection H as <- <-. auto.
    + intros [H|H]; [auto|]. destruct (IH H); auto.
Qed.

(** What the loop adds to the mapping, and what it logs. *)
Lemma collect_spec client sessions :
  forall acc log data log',
    collect client sessions acc log = (Ok data, log') ->
    fetched_ids log' = (fetched_ids log ++ selected_ids sessions)%list /\
    forall k record,
      In (k, record) data ->
      In (k, record) acc \/
      exists d sid events,
        In (JObj d) sessions /\
        assoc_get "sessionId" d = Some sid /\
        py_truthy sid = true /\
        key_eqb sid k = true /\
        record = JObj (assoc_set "events" events d).
Proof.
  induction sessions as [|s rest IH]; intros acc log data log' H.
  - injection H as <- <-. simpl. rewrite app_nil_r. auto.
  - simpl in H. unfold tbind at 1, lift at 1 in H. simpl selected_ids.
    destruct (py_get s "sessionId" JNull) as [sid|e] eqn:Hsid;
      [|discriminate].
    destruct (py_truthy sid) eqn:Htruthy; simpl in H.
    + unfold tbind at 1 in H.
      destruct (fetch_session_events_total client sid log)
        as (events & log1 & Hev & Hlog1 & _).
      rewrite Hev in H. unfold tbind at 1, lift at 1 in H.
      destruct s as [| | | | |d]; simpl in Hsid; try discriminate.
      simpl in H. unfold tbind at 1, lift at 1, dict_setitem in H.
      destruct (hashable sid) eqn:Hh; [|discriminate].
      apply IH in H as [Hlog Hrec]. split.
      * rewrite Hlog, Hlog1, <- app_assoc. reflexivity.
      * intros k record Hin. destruct (Hrec _ _ Hin) as [Hacc|Hnew].
        -- apply in_dict_put in Hacc as [Hacc|[-> Hk]]; auto.
           right. exists d, sid, events.
           split; [now left|]. repeat split; auto.
           injection Hsid as Hsid.
           destruct (assoc_get "sessionId" d) as [v|]; [congruence|].
           subst sid. discriminate.
        -- right. destruct Hnew as (d' & sid' & ev' & Hin' & Hrest).
           exists d', sid', ev'. split; [now right | exact Hrest].
    + apply IH in H as [Hlog Hrec]. split; [exact Hlog|].
      intros k record Hin. destruct (Hrec _ _ Hin) as [Hacc|Hnew]; auto.
      right. destruct Hnew as (d' & sid' & ev' & Hin' & Hrest).
      exists d', sid', ev'. split; [now right | exact Hrest].
Qed.

Lemma fetch_sessions_log client log all log1 :
  _fetch_sessions U client log = (Ok all, log1) ->
  fetched_ids log1 = fetched_ids log.
Proof.
  unfold _fetch_sessions, tbind, perform, lift.
  destruct (request client "session.list" (JObj [])) as [resp|e];
    [|discriminate].
  set (lst := match resp with JArr _ => Ok resp | _ => _ end).
  destruct lst as [ss|e]; [|discriminate].
  destruct ss; try discriminate.
  destruct (mapM _ items) as [keys|e]; [|discriminate].
  intros H. injection H as _ <-.
  rewrite fetched_ids_app. simpl. now rewrite app_nil_r.
Qed.

(** The steps behind a successful fetch. *)
Lemma fetch_copilot_sessions_steps token limit fetch_all sessions data log :
  fetch_copilot_sessions U token limit fetch_all [] = (Ok (sessions, data), log) <->
  exists all log1 log2,
    start (CopilotClient U token) = Ok tt /\
    _fetch_sessions U (CopilotClient U token) [CallStart] = (Ok all, log1) /\
    sessions = truncate all (cap_of limit fetch_all) /\
    collect (CopilotClient U token) sessions [] log1 = (Ok data, log2) /\
    stop (CopilotClient U token) = Ok tt /\
    log = (log2 ++ [CallStop])%list.
Proof.
  unfold fetch_copilot_sessions, tbind at 1, perform at 1. simpl.
  split.
  - destruct (start (CopilotClient U token)) as [[]|e]; [|discriminate].
    unfold tfinally, tbind at 1.
    destruct (_fetch_sessions U (CopilotClient U token) [CallStart])
      as [[all|e] log1] eqn:Hall.
    + unfold tbind at 1.
      destruct (collect (CopilotClient U token) _ [] log1)
        as [[d|e] log2] eqn:Hc; unfold tret, perform;
        destruct (stop (CopilotClient U token)) as [[]|e']; try discriminate.
      intros H. injection H as <- <- <-.
      exists all, log1, log2. repeat split; auto.
    + unfold perform.
      destruct (stop (CopilotClient U token)) as [[]|e']; discriminate.
  - intros (all & log1 & log2 & Hstart & Hall & -> & Hcol & Hstop & ->).
    rewrite Hstart. unfold tfinally, tbind at 1. rewrite Hall.
    unfold tbind at 1. rewrite Hcol. unfold tret, perform.
    rewrite Hstop. reflexivity.
Qed.

Lemma fetch_copilot_sessions_inv token limit fetch_all sessions data log :
  fetch_copilot_sessions U token limit fetch_all [] = (Ok (sessions, data), log) ->
  exists all log1 log2,
    _fetch_sessions U (CopilotClient U token) [CallStart] = (Ok all, log1) /\
    sessions = truncate all (cap_of limit fetch_all) /\
    collect (CopilotClient U token) sessions [] log1 = (Ok data, log2) /\
    log = (log2 ++ [CallStop])%list.
Proof.
  intros H. apply fetch_copilot_sessions_steps in H
    as (all & log1 & log2 & _ & Hall & Htr & Hcol & _ & Hlog).
  eauto 8.
Qed.

Lemma fetch_truncates_ids token limit fetch_all sessions data log :
  fetch_copilot_sessions U token limit fetch_all [] = (Ok (sessions, data), log) ->
  fetched_ids log = selected_ids sessions.
Proof.
  intros H.
  apply fetch_copilot_sessions_inv in H
    as (all & log1 & log2 & Hall & Htr & Hcol & ->).
  apply collect_spec in Hcol as [Hlog _].
  rewrite (fetch_sessions_log _ _ _ _ Hall) in Hlog. simpl in Hlog.
  rewrite fetched_ids_app. simpl. now rewrite app_nil_r.
Qed.

(** The cap of the fetch.  With the "all" flag false and a positive limit,
    the returned list and the sessions whose events are fetched number at
    most the limit; with the flag true, and also with the flag false and
    the limit 0, the returned list is the whole sorted listing.  In every
    case events are fetched for exactly the returned sessions that have an
    identifier. *)
Lemma fetch_truncates_to_positive_limit
        token limit fetch_all sessions data log :
  fetch_copilot_sessions U token limit fetch_all [] = (Ok (sessions, data), log) ->
  (fetch_all = false -> (0 < limit)%Z ->
   (Z.of_nat (List.length sessions) <= limit)%Z /\
   (Z.of_nat (List.length (fetched_ids log)) <= limit)%Z) /\
  (fetch_all = true \/ limit = 0%Z ->
   exists log1,
     _fetch_sessions U (CopilotClient U token) [CallStart] = (Ok sessions, log1)) /\
  fetched_ids log = selected_ids sessions.
Proof.
  intros H.
  pose proof (fetch_truncates_ids _ _ _ _ _ _ H) as Hids.
  apply fetch_copilot_sessions_inv in H
    as (all & log1 & log2 & Hall & Htr & Hcol & ->).
  split; [|split; [|exact Hids]].
  - intros -> Hpos.
    assert (Hlen : (Z.of_nat (List.length sessions) <= limit)%Z).
    { subst sessions. unfold cap_of, truncate.
      destruct (Z.eqb_spec limit 0); [lia|]. now apply slice_to_length. }
    split; [exact Hlen|]. rewrite Hids.
    pose proof (selected_ids_length sessions). lia.
  - intros Hcase. exists log1. rewrite Hall. subst sessions.
    unfold cap_of, truncate. destruct Hcase as [->| ->]; [reflexivity|].
    destruct fetch_all; reflexivity.
Qed.

(** C8.  A session whose metadata has no "sessionId" contributes no record
    to the returned mapping (every record is some returned session that
    has a non-empty identifier, extended with its events, under that
    identifier) and no event fetch; the returned list is the listing after
    sorting and truncation only, so such a session is not removed from
    it. *)
Theorem sessions_without_id_are_skipped
        token limit fetch_all sessions data log :
  fetch_copilot_sessions U token limit fetch_all [] = (Ok (sessions, data), log) ->
  (forall k record,
      In (k, record) data ->
      exists d sid events,
        In (JObj d) sessions /\
        assoc_get "sessionId" d = Some sid /\
        py_truthy sid = true /\
        key_eqb sid k = true /\
        record = JObj (assoc_set "events" events d)) /\
  (forall d, In (JObj d) sessions ->
             assoc_get "sessionId" d = None ->
             forall k events,
               ~ In (k, JObj (assoc_set "events" events d)) data) /\
  fetched_ids log = selected_ids sessions /\
  (exists all log1,
      _fetch_sessions U (CopilotClient U token) [CallStart] = (Ok all, log1) /\
      sessions = truncate all (cap_of limit fetch_all)).
Proof.
  intros H.
  pose proof (fetch_truncates_ids _ _ _ _ _ _ H) as Hids.
  apply fetch_copilot_sessions_inv in H
    as (all & log1 & log2 & Hall & Htr & Hcol & ->).
  apply collect_spec in Hcol as [_ Hrec].
  assert (Hrecords : forall k record,
             In (k, record) data ->
             exists d sid events,
               In (JObj d) sessions /\
               assoc_get "sessionId" d = Some sid /\
               py_truthy sid = true /\
               key_eqb sid k = true /\
               record = JObj (assoc_set "events" events d)).
  { intros k record Hin. destruct (Hrec _ _ Hin) as [[]|Hnew]. exact Hnew. }
  split; [exact Hrecords|]. split; [|split; [exact Hids | eauto]].
  intros d _ Hnone k events Hin.
  destruct (Hrecords _ _ Hin) as (d' & sid & ev' & _ & Hsid & _ & _ & Heq).
  assert (Hget : assoc_get "sessionId" (assoc_set "events" events d)
                 = assoc_get "sessionId" (assoc_set "events" ev' d'))
    by congruence.
  rewrite !assoc_get_set_other in Hget by discriminate. congruence.
Qed.

End SessionProperties.

Example fetch_with_limit_two :
  exists sessions data log,
    Demo.run_fetch 2 false = (Ok (sessions, data), log) /\
    (Z.of_nat (List.length sessions) <= 2)%Z /\
    (Z.of_nat (List.length (fetched_ids log)) <= 2)%Z.
Proof.
  eexists _, _, _. split; [vm_compute; reflexivity|].
  refine (proj1 (fetch_truncates_to_positive_limit
                   (Demo.sessions_env Demo.timeline) "ghp_x" 2 false _ _ _ _)
                eq_refl _); [vm_compute; reflexivity | lia].
Defined.

(** C6.  The claim holds for every positive limit
    ([fetch_truncates_to_positive_limit]) and the code departs from it at
    the limit 0: with the "all" flag false and three sessions listed, all
    three are returned and the events of both identified ones are fetched,
    where the claim allows none. *)
Theorem zero_limit_returns_everything :
  match Demo.run_fetch 0 false with
  | (Ok (sessions, _), log) =>
      List.length sessions = 3%nat /\
      fetched_ids log = [JStr "b"; JStr "a"] /\
      ~ (Z.of_nat (List.length sessions) <= 0)%Z
  | _ => False
  end.
Proof. vm_compute. repeat split. intros H. apply H. reflexivity. Qed.

Lemma sessions_without_id_are_skipped_witness :
  exists sessions data log,
    Demo.run_fetch 50 false = (Ok (sessions, data), log) /\
    In (Demo.anonymous "2024-01-01") sessions /\
    (forall k events,
        ~ In (k, JObj (assoc_set "events" events [("startTime", JStr "2024-01-01")]))
             data) /\
    fetched_ids log = [JStr "b"; JStr "a"].
Proof.
  eexists _, _, _. split; [vm_compute; reflexivity|].
  split; [simpl; auto|].
  destruct (sessions_without_id_are_skipped
              (Demo.sessions_env Demo.timeline) "ghp_x" 50 false _ _ _
              ltac:(vm_compute; reflexivity)) as (_ & Hskip & Hids & _).
  split; [|exact Hids].
  apply Hskip; [simpl; auto | reflexivity].
Defined.

(** ** The session store *)

(** C9.  The endpoint replaces both fields of the store, by the list and the
    mapping of one fetch, exactly when that fetch succeeds; when the fetch
    raises, the endpoint raises a 500 and the store is the one it was given. *)
Theorem store_replaced_iff_fetch_succeeds
        (U : Env) (body : Main.SessionFetchRequest) (store : Main.session_store) :
  (forall sessions data log,
      Copilot.fetch_copilot_sessions U (Main.token body) (Main.limit body)
                                     (Main.fetch_all body) []
        = (Ok (sessions, data), log) ->
      exists response,
        Main.fetch_sessions_endpoint U body store
          = (Ok response,
             {| Main.sessions := sessions; Main.session_data := data |}, log) /\
        Main.list_sessions
          (snd (fst (Main.fetch_sessions_endpoint U body store))) = sessions) /\
  (forall e log,
      Copilot.fetch_copilot_sessions U (Main.token body) (Main.limit body)
                                     (Main.fetch_all body) []
        = (Raise e, log) ->
      exists detail,
        Main.fetch_sessions_endpoint U body store
          = (Raise (HTTPException 500 detail), store, log)).
Proof.
  split.
  - intros sessions data log H. unfold Main.fetch_sessions_endpoint.
    rewrite H. eexists. split; reflexivity.
  - intros e log H. unfold Main.fetch_sessions_endpoint.
    rewrite H. eexists. reflexivity.
Qed.

Lemma store_replaced_iff_fetch_succeeds_witness :
  let before := {| Main.sessions := [Demo.anonymous "2023-12-31"];
                   Main.session_data := [] |} in
  (exists response log,
      Main.fetch_sessions_endpoint (Demo.sessions_env Demo.timeline)
                                   (Demo.fetch_request 1 false) before
      = (Ok response,
         {| Main.sessions := [Demo.session "b" "2024-01-03"];
            Main.session_data :=
              [(JStr "b",
                JObj [("sessionId", JStr "b"); ("startTime", JStr "2024-01-03");
                      ("events",
                       JArr [JObj [("type", JStr "user.message");
                                   ("of", JStr "b")]])])] |},
         log)) /\
  (exists detail log,
      Main.fetch_sessions_endpoint (Demo.env 200 [] [] Demo.no_rpc)
                                   (Demo.fetch_request 1 false) before
      = (Raise (HTTPException 500 detail), before, log)).
Proof.
  intros before. split.
  - destruct (proj1 (store_replaced_iff_fetch_succeeds
                       (Demo.sessions_env Demo.timeline)
                       (Demo.fetch_request 1 false) before)
                    _ _ _ ltac:(vm_compute; reflexivity))
      as (response & Hr & _).
    eexists _, _. exact Hr.
  - destruct (proj2 (store_replaced_iff_fetch_succeeds
                       (Demo.env 200 [] [] Demo.no_rpc)
                       (Demo.fetch_request 1 false) before)
                    _ _ ltac:(vm_compute; reflexivity))
      as (detail & Hr).
    eexists _, _. exact Hr.
Defined.

(** ** One failing session *)

Lemma key_eqb_norm a b : key_eqb a b = true -> key_norm a = key_norm b.
Proof.
  unfold key_eqb.
  destruct (key_norm a), (key_norm b); try discriminate; auto.
  - intros H. apply Z.eqb_eq in H. now subst.
  - intros H. apply String.eqb_eq in H. now subst.
Qed.

Lemma key_eqb_right k a b : key_eqb a b = true -> key_eqb k a = key_eqb k b.
Proof. intros H. unfold key_eqb. now rewrite (key_eqb_norm _ _ H). Qed.

Lemma key_eqb_left k a b : key_eqb a b = true -> key_eqb a k = key_eqb b k.
Proof. intros H. unfold key_eqb. now rewrite (key_eqb_norm _ _ H). Qed.

Lemma dict_get_put k k' v d :
  dict_get k (dict_put k' v d) = if key_eqb k k' then Some v else dict_get k d.
Proof.
  induction d as [|[k0 v0] d IH]; simpl; [reflexivity|].
  destruct (key_eqb k' k0) eqn:E; simpl.
  - rewrite <- (key_eqb_right k _ _ E). now destruct (key_eqb k k').
  - rewrite IH. destruct (key_eqb k k0) eqn:E0; [|reflexivity].
    destruct (key_eqb k k') eqn:E1; [|reflexivity].
    rewrite (key_eqb_left k0 _ _ E1) in E0. congruence.
Qed.

Lemma emptied_with_events d events :
  emptied (JObj (assoc_set "events" (JArr []) d))
          (JObj (assoc_set "events" events d)).
Proof.
  split; simpl.
  - now rewrite assoc_get_set_same.
  - intros field Hf. now rewrite !assoc_get_set_other.
Qed.

Section Isolation.
Context (U : Env) (good bad : Rpc) (sid0 : json).
Import Copilot.

Hypothesis same_start : start bad = start good.
Hypothesis same_stop : stop bad = stop good.
Hypothesis same_listing :
  request bad "session.list" (JObj []) = request good "session.list" (JObj []).
Hypothesis same_elsewhere :
  forall sid, key_eqb sid sid0 = false ->
              events_outcome bad sid = events_outcome good sid.
Hypothesis fails_here :
  forall sid, key_eqb sid sid0 = true ->
              exists e, events_outcome bad sid = Raise e.

Lemma fetch_session_events_value client sid log :
  exists log',
    _fetch_session_events client sid log
    = (Ok (match events_outcome client sid with
           | Ok events => events
           | Raise _ => JArr []
           end), log').
Proof.
  unfold _fetch_session_events, events_outcome, tcatch, session_events,
    tbind, perform, lift, tret.
  destruct (resume_session client sid) as [[]|e]; simpl; [|eauto].
  destruct (request client "session.getMessages" _) as [res|e]; simpl;
    [|eauto].
  destruct (py_get res "events" (JArr [])) as [ev|e]; simpl; eauto.
Qed.

Lemma collect_isolated sessions :
  forall acc_bad acc_good log_good data_good log_good' log_bad,
    agree_but sid0 acc_bad acc_good ->
    collect good sessions acc_good log_good = (Ok data_good, log_good') ->
    exists data_bad log_bad',
      collect bad sessions acc_bad log_bad = (Ok data_bad, log_bad') /\
      agree_but sid0 data_bad data_good.
Proof.
  induction sessions as [|s rest IH];
    intros acc_bad acc_good log_good data_good log_good' log_bad Hacc H.
  - injection H as <- <-. simpl. unfold tret. eauto.
  - simpl in H |- *. unfold tbind at 1, lift at 1 in H.
    unfold tbind at 1, lift at 1.
    destruct (py_get s "sessionId" JNull) as [sid|e] eqn:Hsid;
      [|discriminate].
    destruct (py_truthy sid) eqn:Htruthy; simpl in H |- *; [|eauto].
    unfold tbind at 1 in H. unfold tbind at 1.
    destruct (fetch_session_events_value good sid log_good) as (lg & Hg).
    destruct (fetch_session_events_value bad sid log_bad) as (lb & Hb).
    rewrite Hg in H. rewrite Hb.
    unfold tbind at 1, lift at 1 in H. unfold tbind at 1, lift at 1.
    destruct s as [| | | | |d]; simpl in Hsid; try discriminate.
    simpl in H |- *.
    unfold tbind at 1, lift at 1, dict_setitem in H.
    unfold tbind at 1, lift at 1, dict_setitem.
    destruct (hashable sid) eqn:Hh; [|discriminate].
    eapply IH; [|exact H].
    intros k. rewrite !dict_get_put.
    destruct (key_eqb sid sid0) eqn:Hs0.
    + destruct (fails_here sid Hs0) as [e He]. rewrite He.
      specialize (Hacc k).
      rewrite <- (key_eqb_right k _ _ Hs0) in *.
      destruct (key_eqb k sid); [apply emptied_with_events | exact Hacc].
    + rewrite (same_elsewhere sid Hs0).
      specialize (Hacc k).
      destruct (key_eqb k sid) eqn:Hks; [|exact Hacc].
      rewrite (key_eqb_left sid0 _ _ Hks), Hs0. reflexivity.
Qed.

Lemma fetch_sessions_same log :
  _fetch_sessions (set_client U bad) bad log
  = _fetch_sessions (set_client U good) good log.
Proof. unfold _fetch_sessions, tbind, perform. now rewrite same_listing. Qed.

(** C7.  Take two assistant-session clients that differ only in the event
    fetch of the session [sid0], which raises for the first.  Whenever the
    fetch with the second returns, so does the fetch with the first, with
    the same list; in its mapping the record of [sid0] has the empty event
    list and otherwise the fields it has with the second client, and the
    record of every other session is the same. *)
Theorem one_failing_session_is_isolated
        token limit fetch_all sessions data_good log_good :
  fetch_copilot_sessions (set_client U good) token limit fetch_all []
    = (Ok (sessions, data_good), log_good) ->
  exists data_bad log_bad,
    fetch_copilot_sessions (set_client U bad) token limit fetch_all []
      = (Ok (sessions, data_bad), log_bad) /\
    (forall k, key_eqb k sid0 = false ->
               dict_get k data_bad = dict_get k data_good) /\
    (forall reference,
        dict_get sid0 data_good = Some reference ->
        exists record,
          dict_get sid0 data_bad = Some record /\
          py_getitem record "events" = Ok (JArr []) /\
          forall field, field <> "events" ->
                        py_getitem record field = py_getitem reference field).
Proof.
  intros H.
  apply fetch_copilot_sessions_steps in H
    as (all & log1 & log2 & Hstart & Hall & Htr & Hcol & Hstop & ->).
  simpl CopilotClient in *.
  assert (Hinit : agree_but sid0 [] [])
    by (intros k; simpl; now destruct (key_eqb k sid0)).
  destruct (collect_isolated _ _ _ _ _ _ log1 Hinit Hcol)
    as (data_bad & log_bad & Hbad & Hagree).
  exists data_bad, (log_bad ++ [CallStop])%list. split; [|split].
  - apply fetch_copilot_sessions_steps. exists all, log1, log_bad.
    simpl CopilotClient. rewrite fetch_sessions_same, same_start, same_stop.
    repeat split; auto.
  - intros k Hk. specialize (Hagree k). now rewrite Hk in Hagree.
  - intros reference Href. specialize (Hagree sid0).
    assert (Hrefl : key_eqb sid0 sid0 = true).
    { clear - Href. induction data_good as [|[k0 v0] d IH]; simpl in Href;
        [discriminate|].
      destruct (key_eqb sid0 k0) eqn:E; [|auto].
      now rewrite (key_eqb_right sid0 _ _ E). }
    rewrite Hrefl, Href in Hagree.
    destruct (dict_get sid0 data_bad) as [record|]; [|contradiction].
    exists record. destruct Hagree as [Hev Hfields]. auto.
Qed.

End Isolation.

Lemma one_failing_session_is_isolated_witness :
  exists sessions data_good log_good data_bad log_bad,
    Demo.run_fetch 50 false = (Ok (sessions, data_good), log_good) /\
    Copilot.fetch_copilot_sessions
      (set_client (Demo.sessions_env Demo.timeline)
                  (Demo.sessions_rpc Demo.three_sessions Demo.timeline_b_down))
      "ghp_x" 50 false [] = (Ok (sessions, data_bad), log_bad) /\
    dict_get (JStr "a") data_bad = dict_get (JStr "a") data_good /\
    exists record,
      dict_get (JStr "b") data_bad = Some record /\
      py_getitem record "events" = Ok (JArr []).
Proof.
  eexists _, _, _.
  assert (Hgood : Demo.run_fetch 50 false = (Ok (_, _), _))
    by (vm_compute; reflexivity).
  destruct (one_failing_session_is_isolated
              (Demo.sessions_env Demo.timeline)
              (Demo.sessions_rpc Demo.three_sessions Demo.timeline)
              (Demo.sessions_rpc Demo.three_sessions Demo.timeline_b_down)
              (JStr "b") eq_refl eq_refl eq_refl
              ltac:(intros sid Hs; unfold Copilot.events_outcome;
                    cbn -[key_eqb]; unfold Demo.timeline_b_down;
                    rewrite Hs; reflexivity)
              ltac:(intros sid Hs; unfold Copilot.events_outcome;
                    cbn -[key_eqb]; unfold Demo.timeline_b_down;
                    rewrite Hs; eexists; reflexivity)
              "ghp_x" 50%Z false _ _ _ Hgood)
    as (data_bad & log_bad & Hbad & Hothers & Hfailed).
  exists data_bad, log_bad. split; [exact Hgood|]. split; [exact Hbad|].
  split; [apply Hothers; reflexivity|].
  destruct (Hfailed _ eq_refl) as (record & Hrec & Hev & _).
  exists record. split; [exact Hrec | exact Hev].
Defined.

(* ================================================================== *)
(** * Further properties of the code *)

(** ** Suffixes, substrings and base names *)

Lemma endswith_app (p suffix : string) : endswith (p ++ suffix) suffix = true.
Proof.
  unfold endswith. rewrite length_append.
  replace (String.length p + String.length suffix - String.length suffix)%nat
    with (String.length p) by lia.
  rewrite substring_skip, substring_all, String.eqb_refl.
  apply andb_true_iff. split; [apply Nat.leb_le; lia | reflexivity].
Qed.

Lemma endswith_inv (s suffix : string) :
  endswith s suffix = true -> exists p, s = (p ++ suffix)%string.
Proof.
  unfold endswith. intros H. apply andb_true_iff in H as [Hlen Heq].
  apply Nat.leb_le in Hlen. apply String.eqb_eq in Heq.
  exists (substring 0 (String.length s - String.length suffix) s).
  remember (String.length suffix) as m eqn:Hm. rewrite <- Heq.
  pose proof (substring_split (String.length s - m) s ltac:(lia)) as Hsplit.
  replace (String.length s - (String.length s - m))%nat with m in Hsplit by lia.
  exact Hsplit.
Qed.

(** A name that ends with one of the two known names ends with ".json". *)
Lemma candidate_is_json name candidate :
  In candidate GitHub.json_candidates ->
  endswith name candidate = true -> endswith name ".json" = true.
Proof.
  intros Hc Hends. apply endswith_inv in Hends as [p ->].
  destruct Hc as [<-|[<-|[]]].
  - change "gatekeeper-consolidated.json"
      with ("gatekeeper-consolidated" ++ ".json")%string.
    rewrite <- append_assoc. apply endswith_app.
  - change "council-results.json" with ("council-results" ++ ".json")%string.
    rewrite <- append_assoc. apply endswith_app.
Qed.

(** ** More on the artifact extractor *)

Section ExtractorProperties.
Context (U : Env) (self : GitHub.GitHubClient).
Import GitHub.

Lemma find_candidate_none names :
  (forall n, In n names -> endswith n ".json" = false) ->
  find_candidate names json_candidates = None.
Proof.
  intros Hno.
  assert (Hc : forall c, In c json_candidates ->
                         find (fun n => endswith n c) names = None).
  { intros c Hc. destruct (find (fun n => endswith n c) names) as [n|] eqn:E;
      [|reflexivity].
    apply find_some in E as [Hin Hends].
    pose proof (Hno n Hin) as Hn.
    rewrite (candidate_is_json _ _ Hc Hends) in Hn. discriminate Hn. }
  simpl. rewrite !Hc by (simpl; auto). reflexivity.
Qed.

Lemma find_none_iff {A} (f : A -> bool) l :
  (forall x, In x l -> f x = false) -> find f l = None.
Proof.
  intros H. destruct (find f l) as [x|] eqn:E; [|reflexivity].
  apply find_some in E as [Hin Hx]. rewrite (H x Hin) in Hx. discriminate.
Qed.

Lemma load_entry_value zf name content v :
  zf_read zf name = Ok content ->
  json_loads U content = Ok v ->
  load_entry U zf name = Ok (_merge_cast_impact U zf v).
Proof. intros Hr Hp. unfold load_entry. rewrite Hr; simpl. now rewrite Hp. Qed.

(** X1.  Matching is by suffix: an entry named [p ++
    "gatekeeper-consolidated.json"], for any [p] at all (a directory path or
    not), makes [get_artifact] load an entry whose name ends with that file
    name, in preference to every other entry of the bundle. *)
Theorem get_artifact_matches_any_prefix run_id artifact_name zf p :
  serves_bundle U self run_id artifact_name zf ->
  In (p ++ "gatekeeper-consolidated.json") (namelist zf) ->
  exists name p',
    name = p' ++ "gatekeeper-consolidated.json" /\
    In name (namelist zf) /\
    forall content v,
      zf_read zf name = Ok content ->
      json_loads U content = Ok v ->
      get_artifact U self run_id artifact_name
        = Ok (_merge_cast_impact U zf v).
Proof.
  intros Hb Hin.
  destruct (find_first (fun n => endswith n "gatekeeper-consolidated.json")
                       _ _ Hin (endswith_app _ _)) as [name Hfirst].
  pose proof (find_some _ _ Hfirst) as [Hname Hends].
  apply endswith_inv in Hends as [p' Hp'].
  exists name, p'. repeat split; auto.
  intros content v Hread Hparse.
  rewrite (get_artifact_of_bundle _ _ _ _ _ Hb). unfold extract_json.
  rewrite (select_first_candidate _ _ Hfirst).
  now apply (load_entry_value _ _ content).
Qed.

(** X2.  Without an entry ending with "gatekeeper-consolidated.json", an
    entry ending with "council-results.json" is the payload: the first such
    in listing order, also when other ".json" entries are listed before
    it. *)
Theorem get_artifact_council_results run_id artifact_name zf entry_name :
  serves_bundle U self run_id artifact_name zf ->
  (forall n, In n (namelist zf) ->
             endswith n "gatekeeper-consolidated.json" = false) ->
  In entry_name (namelist zf) ->
  endswith entry_name "council-results.json" = true ->
  exists name,
    find (fun n => endswith n "council-results.json") (namelist zf)
      = Some name /\
    forall content v,
      zf_read zf name = Ok content ->
      json_loads U content = Ok v ->
      get_artifact U self run_id artifact_name
        = Ok (_merge_cast_impact U zf v).
Proof.
  intros Hb Hno Hin Hends.
  destruct (find_first (fun n => endswith n "council-results.json")
                       _ _ Hin Hends) as [name Hfirst].
  exists name. split; [exact Hfirst|].
  intros content v Hread Hparse.
  rewrite (get_artifact_of_bundle _ _ _ _ _ Hb).
  unfold extract_json, select_json_entry. simpl.
  rewrite (find_none_iff _ _ Hno), Hfirst.
  now apply (load_entry_value _ _ content).
Qed.

(** X3.  With neither known name in the bundle, the payload is the first
    entry in listing order whose name ends with ".json". *)
Theorem get_artifact_any_json run_id artifact_name zf entry_name :
  serves_bundle U self run_id artifact_name zf ->
  (forall n, In n (namelist zf) ->
             endswith n "gatekeeper-consolidated.json" = false /\
             endswith n "council-results.json" = false) ->
  In entry_name (namelist zf) ->
  endswith entry_name ".json" = true ->
  exists name,
    find (fun n => endswith n ".json") (namelist zf) = Some name /\
    forall content v,
      zf_read zf name = Ok content ->
      json_loads U content = Ok v ->
      get_artifact U self run_id artifact_name
        = Ok (_merge_cast_impact U zf v).
Proof.
  intros Hb Hno Hin Hends.
  destruct (find_first (fun n => endswith n ".json") _ _ Hin Hends)
    as [name Hfirst].
  exists name. split; [exact Hfirst|].
  intros content v Hread Hparse.
  rewrite (get_artifact_of_bundle _ _ _ _ _ Hb).
  unfold extract_json, select_json_entry. simpl.
  rewrite (find_none_iff (fun n => endswith n "gatekeeper-consolidated.json")
                         _ (fun n H => proj1 (Hno n H))).
  rewrite (find_none_iff (fun n => endswith n "council-results.json")
                         _ (fun n H => proj2 (Hno n H))).
  rewrite Hfirst. now apply (load_entry_value _ _ content).
Qed.

Lemma scan_artifacts_hit artifact_name pre names a n aid post :
  Forall2 (fun x m => py_getitem x "name" = Ok m) pre names ->
  Forall (fun m => py_eq_str m artifact_name = false) names ->
  py_getitem a "name" = Ok n ->
  py_eq_str n artifact_name = true ->
  py_getitem a "id" = Ok aid ->
  forall acc,
    scan_artifacts artifact_name (pre ++ a :: post)%list acc
    = Ok (aid, (acc ++ names ++ [n])%list).
Proof.
  intros Hnames Hmiss Hn Heq Hid.
  induction Hnames as [|x m pre names Hx _ IH]; intros acc; simpl.
  - rewrite Hn; simpl. rewrite Heq, Hid. reflexivity.
  - inversion Hmiss as [|? ? Hm Hrest]; subst.
    rewrite Hx; simpl. rewrite Hm, (IH Hrest).
    now rewrite <- app_assoc.
Qed.

(** X4.  When several artifacts of the run have the requested name, the
    first in listing order is the one downloaded; what the listing holds
    after it is not looked at. *)
Theorem get_artifact_first_of_same_name
        run_id artifact_name pre names a n aid post :
  list_artifacts U self run_id = Ok (pre ++ a :: post)%list ->
  Forall2 (fun x m => py_getitem x "name" = Ok m) pre names ->
  Forall (fun m => py_eq_str m artifact_name = false) names ->
  py_getitem a "name" = Ok n ->
  py_eq_str n artifact_name = true ->
  py_getitem a "id" = Ok aid ->
  is_None aid = false ->
  get_artifact U self run_id artifact_name
  = (zf <- download_zip U self aid ;; extract_json U zf).
Proof.
  intros Hl Hnames Hmiss Hn Heq Hid Hnone.
  unfold get_artifact. rewrite Hl; simpl.
  rewrite (scan_artifacts_hit _ _ _ _ _ _ post Hnames Hmiss Hn Heq Hid []).
  simpl. now rewrite Hnone.
Qed.

End ExtractorProperties.

Lemma get_artifact_matches_any_prefix_witness :
  GitHub.get_artifact
    (Demo.env 200 Demo.listing_one Demo.both_bundle Demo.no_rpc)
    Demo.client 7 Demo.default_name = Ok (JObj [("a", JNum 1)]).
Proof.
  destruct (get_artifact_matches_any_prefix
              (Demo.env 200 Demo.listing_one Demo.both_bundle Demo.no_rpc)
              Demo.client 7 Demo.default_name Demo.both_bundle "nested/dir/"
              (demo_serves_bundle _ _) (or_intror (or_introl eq_refl)))
    as (name & p' & Hname & Hin & Hload).
  simpl in Hin. destruct Hin as [Hn|[Hn|[]]].
  - exfalso. clear Hload.
    assert (H : endswith "x/council-results.json"
                         "gatekeeper-consolidated.json" = true)
      by (rewrite Hn, Hname; apply endswith_app).
    vm_compute in H. discriminate H.
  - clear Hname. subst name.
    apply (Hload (Demo.b Demo.report_text)); vm_compute; reflexivity.
Defined.

Lemma get_artifact_council_results_witness :
  GitHub.get_artifact
    (Demo.env 200 Demo.listing_one Demo.council_bundle Demo.no_rpc)
    Demo.client 7 Demo.default_name = Ok (JObj [("a", JNum 1)]).
Proof.
  destruct (get_artifact_council_results
              (Demo.env 200 Demo.listing_one Demo.council_bundle Demo.no_rpc)
              Demo.client 7 Demo.default_name Demo.council_bundle
              "out/council-results.json" (demo_serves_bundle _ _))
    as (name & Hfirst & Hload).
  - intros n Hn. simpl in Hn. destruct Hn as [<-|[<-|[]]]; vm_compute; reflexivity.
  - simpl; auto.
  - vm_compute; reflexivity.
  - injection Hfirst as <-.
    apply (Hload (Demo.b Demo.report_text)); vm_compute; reflexivity.
Defined.

Lemma get_artifact_any_json_witness :
  GitHub.get_artifact
    (Demo.env 200 Demo.listing_one Demo.plain_bundle Demo.no_rpc)
    Demo.client 7 Demo.default_name = Ok (JObj [("a", JNum 1)]).
Proof.
  destruct (get_artifact_any_json
              (Demo.env 200 Demo.listing_one Demo.plain_bundle Demo.no_rpc)
              Demo.client 7 Demo.default_name Demo.plain_bundle
              "y/other.json" (demo_serves_bundle _ _))
    as (name & Hfirst & Hload).
  - intros n Hn. simpl in Hn.
    destruct Hn as [<-|[<-|[<-|[]]]]; split; vm_compute; reflexivity.
  - simpl; auto.
  - vm_compute; reflexivity.
  - injection Hfirst as <-.
    apply (Hload (Demo.b Demo.report_text)); vm_compute; reflexivity.
Defined.

Lemma get_artifact_first_of_same_name_witness :
  GitHub.get_artifact
    (Demo.env 200 Demo.listing_twice Demo.report_bundle Demo.no_rpc)
    Demo.client 7 Demo.default_name
  = Ok (JObj [("a", JNum 1); ("cast_impact_analysis", JStr "hi")]).
Proof.
  rewrite (get_artifact_first_of_same_name
             (Demo.env 200 Demo.listing_twice Demo.report_bundle Demo.no_rpc)
             Demo.client 7 Demo.default_name
             [JObj [("id", JNum 5); ("name", JStr "logs")]] [JStr "logs"]
             (JObj [("id", JNum 11); ("name", JStr "gatekeeper-final-analysis")])
             (JStr "gatekeeper-final-analysis") (JNum 11)
             [JObj [("id", JNum 12); ("name", JStr "gatekeeper-final-analysis")];
              JNum 7]).
  - vm_compute; reflexivity.
  - vm_compute; reflexivity.
  - repeat constructor.
  - repeat constructor.
  - reflexivity.
  - reflexivity.
  - reflexivity.
  - reflexivity.
Defined.

(** ** The artifact endpoints *)

(** X5.  A bundle without any entry ending with ".json" is not an error for
    the endpoint: it answers with the "No JSON found in artifact"
    descriptor as an ordinary payload. *)
Theorem get_run_artifact_no_json
        (U : Env) run_id owner repo token artifact_name zf :
  GitHub.serves_bundle U (Main._make_client owner repo token) run_id
                       artifact_name zf ->
  (forall n, In n (namelist zf) -> endswith n ".json" = false) ->
  aclose U = Ok tt ->
  Main.get_run_artifact U run_id owner repo token artifact_name
  = Ok (JObj [("error", JStr "No JSON found in artifact")]).
Proof.
  intros Hb Hno Hclose. unfold Main.get_run_artifact, GitHub.close.
  rewrite Hclose. simpl.
  rewrite (get_artifact_of_bundle _ _ _ _ _ Hb).
  unfold GitHub.extract_json, GitHub.select_json_entry.
  rewrite (find_candidate_none _ Hno), (find_none_iff _ _ Hno). reflexivity.
Qed.

Lemma get_run_artifact_no_json_witness :
  Main.get_run_artifact
    (Demo.env 200 Demo.listing_one Demo.text_bundle Demo.no_rpc)
    7 "octo" "demo" "ghp_x" Demo.default_name
  = Ok (JObj [("error", JStr "No JSON found in artifact")]).
Proof.
  apply (get_run_artifact_no_json
           (Demo.env 200 Demo.listing_one Demo.text_bundle Demo.no_rpc)
           7 "octo" "demo" "ghp_x" Demo.default_name Demo.text_bundle).
  - apply demo_serves_bundle.
  - intros n Hn. simpl in Hn. destruct Hn as [<-|[<-|[]]]; vm_compute; reflexivity.
  - reflexivity.
Defined.

(** X6.  When no listed artifact has the requested name, the endpoint raises
    404 and the detail is the whole descriptor, the available names
    included. *)
Theorem get_run_artifact_name_miss
        (U : Env) run_id owner repo token artifact_name items names :
  GitHub.list_artifacts U (Main._make_client owner repo token) run_id
    = Ok items ->
  Forall2 (fun a n => py_getitem a "name" = Ok n) items names ->
  Forall (fun n => py_eq_str n artifact_name = false) names ->
  aclose U = Ok tt ->
  Main.get_run_artifact U run_id owner repo token artifact_name
  = Raise (HTTPException 404 (GitHub.not_found artifact_name names)).
Proof.
  intros Hl Hnames Hmiss Hclose. unfold Main.get_run_artifact, GitHub.close.
  rewrite Hclose. simpl. unfold GitHub.get_artifact. rewrite Hl; simpl.
  rewrite (scan_artifacts_miss _ _ _ Hnames Hmiss []). reflexivity.
Qed.

Lemma get_run_artifact_name_miss_witness :
  Main.get_run_artifact (Demo.env 200 Demo.listing_other [] Demo.no_rpc)
                        7 "octo" "demo" "ghp_x" Demo.default_name
  = Raise (HTTPException 404
             (GitHub.not_found Demo.default_name [JStr "logs"; JStr "coverage"])).
Proof.
  apply (get_run_artifact_name_miss
           (Demo.env 200 Demo.listing_other [] Demo.no_rpc)
           7 "octo" "demo" "ghp_x" Demo.default_name
           [ JObj [("id", JNum 5); ("name", JStr "logs")];
             JObj [("id", JNum 6); ("name", JStr "coverage")] ]).
  - vm_compute; reflexivity.
  - repeat constructor.
  - repeat constructor.
  - reflexivity.
Defined.

(** ** Workflows and runs *)

Lemma py_eq_str_false v s : py_eq_str v s = false <-> v <> JStr s.
Proof.
  destruct v; simpl; try (split; [discriminate | reflexivity]).
  destruct (String.eqb_spec s0 s) as [->|Hne]; split; congruence.
Qed.

Section WorkflowProperties.
Context (U : Env) (self : GitHub.GitHubClient).
Import GitHub.

Lemma scan_workflows_hit workflow_name pre names wf post :
  Forall2 (fun x m => py_getitem x "name" = Ok m) pre names ->
  Forall (fun m => m <> JStr workflow_name) names ->
  py_getitem wf "name" = Ok (JStr workflow_name) ->
  scan_workflows workflow_name (pre ++ wf :: post)%list = py_getitem wf "id".
Proof.
  intros Hnames Hmiss Hwf.
  induction Hnames as [|x m pre names Hx _ IH]; simpl.
  - rewrite Hwf; simpl. now rewrite String.eqb_refl.
  - inversion Hmiss as [|? ? Hm Hrest]; subst.
    rewrite Hx; simpl. apply py_eq_str_false in Hm. rewrite Hm. auto.
Qed.

Lemma scan_workflows_miss workflow_name items names :
  Forall2 (fun x m => py_getitem x "name" = Ok m) items names ->
  Forall (fun m => m <> JStr workflow_name) names ->
  scan_workflows workflow_name items = Ok JNull.
Proof.
  intros Hnames Hmiss.
  induction Hnames as [|x m items names Hx _ IH]; simpl; [reflexivity|].
  inversion Hmiss as [|? ? Hm Hrest]; subst.
  rewrite Hx; simpl. apply py_eq_str_false in Hm. rewrite Hm. auto.
Qed.

Lemma get_workflow_id_miss workflow_name data listed items names :
  _get_json U self (_repo_prefix self ++ "/actions/workflows") [] = Ok data ->
  py_get data "workflows" (JArr []) = Ok listed ->
  py_iter listed = Ok items ->
  Forall2 (fun x m => py_getitem x "name" = Ok m) items names ->
  Forall (fun m => m <> JStr workflow_name) names ->
  get_workflow_id U self workflow_name = Ok JNull.
Proof.
  intros Hdata Hlisted Hiter Hnames Hmiss.
  unfold get_workflow_id. rewrite Hdata; simpl. rewrite Hlisted; simpl.
  rewrite Hiter; simpl. now apply (scan_workflows_miss _ _ names).
Qed.

(** X7.  [get_workflow_id] returns the identifier of the first workflow in
    listing order whose name is exactly the requested one (names that
    differ, if only in case, are passed over); what the listing holds after
    that workflow is not looked at.  When no name is the requested one it
    returns [None]. *)
Theorem get_workflow_id_exact_first workflow_name data listed :
  _get_json U self (_repo_prefix self ++ "/actions/workflows") [] = Ok data ->
  py_get data "workflows" (JArr []) = Ok listed ->
  (forall pre names wf post,
      py_iter listed = Ok (pre ++ wf :: post)%list ->
      Forall2 (fun x m => py_getitem x "name" = Ok m) pre names ->
      Forall (fun m => m <> JStr workflow_name) names ->
      py_getitem wf "name" = Ok (JStr workflow_name) ->
      get_workflow_id U self workflow_name = py_getitem wf "id") /\
  (forall items names,
      py_iter listed = Ok items ->
      Forall2 (fun x m => py_getitem x "name" = Ok m) items names ->
      Forall (fun m => m <> JStr workflow_name) names ->
      get_workflow_id U self workflow_name = Ok JNull).
Proof.
  intros Hdata Hlisted. split.
  - intros pre names wf post Hiter Hnames Hmiss Hwf.
    unfold get_workflow_id. rewrite Hdata; simpl. rewrite Hlisted; simpl.
    rewrite Hiter; simpl. now apply (scan_workflows_hit _ _ names).
  - intros items names Hiter Hnames Hmiss.
    now apply (get_workflow_id_miss _ data listed items names).
Qed.

End WorkflowProperties.

Lemma get_workflow_id_exact_first_witness :
  GitHub.get_workflow_id (Demo.env 200 Demo.workflows_body [] Demo.no_rpc)
                         Demo.client "Gatekeeper Analysis" = Ok (JNum 2) /\
  GitHub.get_workflow_id (Demo.env 200 Demo.listing_one [] Demo.no_rpc)
                         Demo.client "Gatekeeper Analysis" = Ok JNull.
Proof.
  split.
  - rewrite (proj1 (get_workflow_id_exact_first
                      (Demo.env 200 Demo.workflows_body [] Demo.no_rpc)
                      Demo.client "Gatekeeper Analysis" _ _
                      ltac:(vm_compute; reflexivity) ltac:(vm_compute; reflexivity))
                   [JObj [("id", JNum 1); ("name", JStr "gatekeeper analysis")]]
                   [JStr "gatekeeper analysis"]
                   (JObj [("id", JNum 2); ("name", JStr "Gatekeeper Analysis")])
                   [JNum 7]).
    + reflexivity.
    + reflexivity.
    + repeat constructor.
    + repeat constructor. discriminate.
    + reflexivity.
  - apply (proj2 (get_workflow_id_exact_first
                    (Demo.env 200 Demo.listing_one [] Demo.no_rpc)
                    Demo.client "Gatekeeper Analysis" _ _
                    ltac:(vm_compute; reflexivity) ltac:(vm_compute; reflexivity))
                 [] []).
    + reflexivity.
    + constructor.
    + constructor.
Defined.

Section RunEndpoints.
Context (U : Env) (owner repo token : string).
Let self := Main._make_client owner repo token.

(** X8.  The run-listing endpoints answer an unknown workflow name with 404
    and a message naming the workflow and the repository; the runs are not
    requested. *)
Theorem list_runs_unknown_workflow workflow_name per_page data listed items names :
  GitHub._get_json U self (GitHub._repo_prefix self ++ "/actions/workflows") []
    = Ok data ->
  py_get data "workflows" (JArr []) = Ok listed ->
  py_iter listed = Ok items ->
  Forall2 (fun x m => py_getitem x "name" = Ok m) items names ->
  Forall (fun m => m <> JStr workflow_name) names ->
  aclose U = Ok tt ->
  let not_found :=
    Raise (HTTPException 404
             (JStr ("Workflow '" ++ workflow_name ++ "' not found in " ++
                    owner ++ "/" ++ repo))) in
  Main.list_runs U owner repo token workflow_name per_page = not_found /\
  Main.list_frd_runs U owner repo token workflow_name per_page = not_found.
Proof.
  intros Hdata Hlisted Hiter Hnames Hmiss Hclose.
  pose proof (get_workflow_id_miss U self workflow_name _ _ _ _
                Hdata Hlisted Hiter Hnames Hmiss) as Hid.
  unfold Main.list_runs, Main.list_frd_runs, GitHub.close. fold self.
  rewrite Hclose, Hid. split; reflexivity.
Qed.

(** For a workflow that is found, with an integer identifier, the endpoint
    returns what [get_runs] returns for that identifier and the requested
    page size, or raises what it raises. *)
Lemma list_runs_found workflow_name per_page workflow_id :
  GitHub.get_workflow_id U self workflow_name = Ok (JNum workflow_id) ->
  aclose U = Ok tt ->
  Main.list_runs U owner repo token workflow_name per_page
  = GitHub.get_runs U self workflow_id per_page.
Proof.
  intros Hid Hclose. unfold Main.list_runs, GitHub.close. fold self.
  rewrite Hclose, Hid. reflexivity.
Qed.

(** X9.  The run-listing endpoints have no handler for the API client's
    errors: an upstream 401 or 403 on the workflow listing leaves the
    endpoint as [PermissionError] and a 404 as [LookupError], not as an
    [HTTPException]. *)
Theorem list_runs_propagates_client_errors workflow_name per_page r :
  http_get U (GitHub.headers self)
           (GitHub._repo_prefix self ++ "/actions/workflows") [] false = Ok r ->
  aclose U = Ok tt ->
  (status_code r = 401%Z ->
   Main.list_runs U owner repo token workflow_name per_page
   = Raise (PermissionError GitHub.msg_401)) /\
  (status_code r = 403%Z ->
   Main.list_runs U owner repo token workflow_name per_page
   = Raise (PermissionError GitHub.msg_403)) /\
  (status_code r = 404%Z ->
   Main.list_runs U owner repo token workflow_name per_page
   = Raise (LookupError GitHub.msg_404)).
Proof.
  intros Hget Hclose.
  unfold Main.list_runs, GitHub.close, GitHub.get_workflow_id. fold self.
  rewrite Hclose, (get_json_status _ _ _ _ _ Hget).
  repeat split; intros ->; reflexivity.
Qed.

End RunEndpoints.

Lemma list_runs_unknown_workflow_witness :
  Main.list_runs (Demo.env 200 Demo.workflows_two [] Demo.no_rpc)
                 "octo" "demo" "ghp_x" "Nightly" 10
  = Raise (HTTPException 404
             (JStr "Workflow 'Nightly' not found in octo/demo")).
Proof.
  apply (list_runs_unknown_workflow
           (Demo.env 200 Demo.workflows_two [] Demo.no_rpc)
           "octo" "demo" "ghp_x" "Nightly" 10
           (JObj [("workflows",
                   JArr [JObj [("id", JNum 1); ("name", JStr "gatekeeper analysis")];
                         JObj [("id", JNum 2); ("name", JStr "Gatekeeper Analysis")]])])
           (JArr [JObj [("id", JNum 1); ("name", JStr "gatekeeper analysis")];
                  JObj [("id", JNum 2); ("name", JStr "Gatekeeper Analysis")]])
           [JObj [("id", JNum 1); ("name", JStr "gatekeeper analysis")];
            JObj [("id", JNum 2); ("name", JStr "Gatekeeper Analysis")]]
           [JStr "gatekeeper analysis"; JStr "Gatekeeper Analysis"]).
  - vm_compute; reflexivity.
  - reflexivity.
  - reflexivity.
  - repeat constructor.
  - repeat constructor; discriminate.
  - reflexivity.
Defined.

Lemma list_runs_propagates_client_errors_witness :
  Main.list_runs (Demo.env 401 [] [] Demo.no_rpc)
                 "octo" "demo" "ghp_x" "Gatekeeper Analysis" 10
  = Raise (PermissionError GitHub.msg_401).
Proof.
  apply (list_runs_propagates_client_errors
           (Demo.env 401 [] [] Demo.no_rpc) "octo" "demo" "ghp_x"
           "Gatekeeper Analysis" 10 {| status_code := 401; content := [] |});
    reflexivity.
Defined.

(** ** Run summaries *)

Lemma substring_0_length (n : nat) :
  forall s, String.length (substring 0 n s) = Nat.min n (String.length s).
Proof.
  induction n as [|n IH]; intros s; [now destruct s|].
  destruct s as [|c s]; simpl; [reflexivity | now rewrite IH].
Qed.



Lemma mapM_raises {A B} (f : A -> result B) (l : list A) (x : A) :
  In x l -> (exists e, f x = Raise e) -> exists e, mapM f l = Raise e.
Proof.
  intros Hin [e He]. induction l as [|y l IH]; [contradiction|].
  simpl. destruct Hin as [->|Hin].
  - rewrite He. simpl. eauto.
  - destruct (f y) as [b|e']; simpl; [|eauto].
    destruct (IH Hin) as [e' He']. rewrite He'. simpl. eauto.
Qed.


Lemma all_runs_summary_fields r o :
  GitHub.all_runs_summary r = Ok o ->
  py_getitem o "workflow_name" = py_get r "name" (JStr "Unknown") /\
  py_getitem o "status" = py_getitem r "status".
Proof.
  unfold GitHub.all_runs_summary. intros H.
  apply bind_Ok_inv in H as (id & Hid & H).
  apply bind_Ok_inv in H as (status & Hstatus & H).
  apply bind_Ok_inv in H as (conclusion & Hconclusion & H).
  apply bind_Ok_inv in H as (created & Hcreated & H).
  apply bind_Ok_inv in H as (updated & Hupdated & H).
  apply bind_Ok_inv in H as (url & Hurl & H).
  apply bind_Ok_inv in H as (full & Hfull & H).
  apply bind_Ok_inv in H as (head & Hhead & H).
  apply bind_Ok_inv in H as (title & Htitle & H).
  apply bind_Ok_inv in H as (number & Hnumber & H).
  apply bind_Ok_inv in H as (name & Hname & H).
  apply bind_Ok_inv in H as (a1 & Ha1 & H).
  apply bind_Ok_inv in H as (login & Hlogin & H).
  apply bind_Ok_inv in H as (a2 & Ha2 & H).
  apply bind_Ok_inv in H as (avatar & Havatar & H).
  injection H as <-. simpl. split; congruence.
Qed.

Lemma run_summary_null_actor d :
  assoc_get "actor" d = Some JNull ->
  exists e, GitHub.run_summary (JObj d) = Raise e.
Proof.
  intros Hnull. unfold GitHub.run_summary.
  repeat match goal with
         | |- exists e, bind ?m _ = Raise e =>
             let E := fresh "E" in
             destruct m as [?|?] eqn:E; simpl; [|eauto]
         end.
  all: simpl in *; rewrite Hnull in *;
    repeat match goal with
           | H : Ok _ = Ok _ |- _ => injection H as <-
           end; simpl in *; try discriminate; eauto.
Qed.

Section RunProperties.
Context (U : Env) (self : GitHub.GitHubClient).
Import GitHub.


(** X11.  A run whose actor is [null] fails the whole page: [get_runs]
    raises instead of returning the other runs. *)
Theorem get_runs_null_actor workflow_id per_page data listed runs d :
  _get_json U self
    (_repo_prefix self ++ "/actions/workflows/" ++
     py_str U (JNum workflow_id) ++ "/runs")
    [("per_page", JNum per_page); ("status", JStr "completed")] = Ok data ->
  py_get data "workflow_runs" (JArr []) = Ok listed ->
  py_iter listed = Ok runs ->
  In (JObj d) runs ->
  assoc_get "actor" d = Some JNull ->
  exists e, get_runs U self workflow_id per_page = Raise e.
Proof.
  intros Hdata Hlisted Hruns Hin Hnull. unfold get_runs.
  rewrite Hdata; simpl. rewrite Hlisted; simpl. rewrite Hruns; simpl.
  apply (mapM_raises _ _ (JObj d) Hin). now apply run_summary_null_actor.
Qed.

(** X12.  [get_all_runs] asks for the page size only, without a status, and
    returns one summary per listed run, in order, with the status the
    upstream gave and, as "workflow_name", the run's "name" or "Unknown"
    when it has none. *)
Theorem get_all_runs_mirrors_upstream per_page data listed runs :
  _get_json U self (_repo_prefix self ++ "/actions/runs")
            [("per_page", JNum per_page)] = Ok data ->
  py_get data "workflow_runs" (JArr []) = Ok listed ->
  py_iter listed = Ok runs ->
  Forall (fun r => exists o, all_runs_summary r = Ok o) runs ->
  exists out,
    get_all_runs U self per_page = Ok out /\
    List.length out = List.length runs /\
    Forall2 (fun r o =>
               py_getitem o "workflow_name" = py_get r "name" (JStr "Unknown") /\
               py_getitem o "status" = py_getitem r "status") runs out.
Proof.
  intros Hdata Hlisted Hruns Hwf.
  destruct (mapM_total _ _ Hwf) as (out & Hout & Hall).
  exists out. unfold get_all_runs.
  rewrite Hdata; simpl. rewrite Hlisted; simpl. rewrite Hruns; simpl.
  split; [exact Hout|].
  split; [symmetry; eapply Forall2_length; eauto|].
  clear - Hall. induction Hall; constructor; auto using all_runs_summary_fields.
Qed.

(** X13.  A response mapping without the listing key is an empty listing:
    no runs, no workflow, and a "not found" descriptor with no available
    names. *)
Theorem missing_listing_key_is_empty d :
  (forall workflow_id per_page,
      _get_json U self
        (_repo_prefix self ++ "/actions/workflows/" ++
         py_str U (JNum workflow_id) ++ "/runs")
        [("per_page", JNum per_page); ("status", JStr "completed")]
        = Ok (JObj d) ->
      assoc_get "workflow_runs" d = None ->
      get_runs U self workflow_id per_page = Ok []) /\
  (forall workflow_name,
      _get_json U self (_repo_prefix self ++ "/actions/workflows") []
        = Ok (JObj d) ->
      assoc_get "workflows" d = None ->
      get_workflow_id U self workflow_name = Ok JNull) /\
  (forall run_id artifact_name,
      _get_json U self
        (_repo_prefix self ++ "/actions/runs/" ++ py_str U (JNum run_id) ++
         "/artifacts") [] = Ok (JObj d) ->
      assoc_get "artifacts" d = None ->
      get_artifact U self run_id artifact_name
        = Ok (not_found artifact_name [])).
Proof.
  split; [|split].
  - intros wf pp Hdata Hnone. unfold get_runs. rewrite Hdata; simpl.
    now rewrite Hnone.
  - intros name Hdata Hnone. unfold get_workflow_id. rewrite Hdata; simpl.
    now rewrite Hnone.
  - intros run name Hdata Hnone. unfold get_artifact, list_artifacts.
    rewrite Hdata; simpl. now rewrite Hnone.
Qed.

End RunProperties.


Lemma get_runs_null_actor_witness :
  exists e,
    GitHub.get_runs (Demo.env 200 Demo.runs_page_null_actor [] Demo.no_rpc)
                    Demo.client 42 5 = Raise e.
Proof.
  eapply (get_runs_null_actor
            (Demo.env 200 Demo.runs_page_null_actor [] Demo.no_rpc)
            Demo.client 42 5).
  - vm_compute; reflexivity.
  - vm_compute; reflexivity.
  - vm_compute; reflexivity.
  - right. left. reflexivity.
  - reflexivity.
Defined.

Lemma get_all_runs_mirrors_upstream_witness :
  exists out,
    GitHub.get_all_runs (Demo.env 200 Demo.all_runs_page [] Demo.no_rpc)
                        Demo.client 5 = Ok out /\
    map (fun o => py_getitem o "workflow_name") out
      = [Ok (JStr "Nightly"); Ok (JStr "Unknown")] /\
    map (fun o => py_getitem o "status") out
      = [Ok (JStr "in_progress"); Ok (JStr "completed")].
Proof.
  edestruct (get_all_runs_mirrors_upstream
               (Demo.env 200 Demo.all_runs_page [] Demo.no_rpc) Demo.client 5)
    as (out & Hout & _).
  - vm_compute; reflexivity.
  - vm_compute; reflexivity.
  - vm_compute; reflexivity.
  - repeat constructor; eexists; vm_compute; reflexivity.
  - exists out. split; [exact Hout|].
    vm_compute in Hout. injection Hout as <-. split; reflexivity.
Defined.

Lemma missing_listing_key_is_empty_witness :
  let U := Demo.env 200 (Demo.b "{}") [] Demo.no_rpc in
  GitHub.get_runs U Demo.client 42 5 = Ok [] /\
  GitHub.get_workflow_id U Demo.client "Gatekeeper Analysis" = Ok JNull /\
  GitHub.get_artifact U Demo.client 7 Demo.default_name
    = Ok (GitHub.not_found Demo.default_name []).
Proof.
  cbv zeta.
  destruct (missing_listing_key_is_empty
              (Demo.env 200 (Demo.b "{}") [] Demo.no_rpc) Demo.client [])
    as (Hruns & Hwf & Hart).
  split; [|split].
  - apply Hruns; [vm_compute; reflexivity | reflexivity].
  - apply Hwf; [vm_compute; reflexivity | reflexivity].
  - apply Hart; [vm_compute; reflexivity | reflexivity].
Defined.

(** ** More on the session fetch *)

Lemma rpc_only_app l1 l2 :
  rpc_only (l1 ++ l2) = rpc_only l1 && rpc_only l2.
Proof. apply forallb_app. Qed.

Section ClientLifecycle.
Context (U : Env).
Import Copilot.

Lemma fetch_sessions_calls client log r log' :
  _fetch_sessions U client log = (r, log') ->
  exists l, log' = (log ++ l)%list /\ rpc_only l = true.
Proof.
  unfold _fetch_sessions, tbind, perform, lift. intros H.
  exists [CallRequest "session.list" (JObj [])]. split; [|reflexivity].
  destruct (request client "session.list" (JObj [])) as [resp|e];
    [|now injection H as _ <-].
  set (lst := match resp with JArr _ => Ok resp | _ => _ end) in H.
  destruct lst as [ss|e]; [|now injection H as _ <-].
  destruct ss; try (now injection H as _ <-).
  destruct (mapM _ items) as [keys|e]; now injection H as _ <-.
Qed.

Lemma fetch_session_events_calls client sid log r log' :
  _fetch_session_events client sid log = (r, log') ->
  exists l, log' = (log ++ l)%list /\ rpc_only l = true.
Proof.
  unfold _fetch_session_events, tcatch, session_events, tbind, perform, lift,
    tret.
  destruct (resume_session client sid) as [[]|e]; simpl.
  - destruct (request client "session.getMessages" _) as [res|e]; simpl.
    + destruct (py_get res "events" (JArr [])) as [ev|e]; simpl;
        intros H; injection H as _ <-; rewrite <- app_assoc;
        eexists; split; reflexivity.
    + intros H; injection H as _ <-. rewrite <- app_assoc.
      eexists; split; reflexivity.
  - intros H; injection H as _ <-. eexists; split; reflexivity.
Qed.

Lemma collect_calls client sessions :
  forall acc log r log',
    collect client sessions acc log = (r, log') ->
    exists l, log' = (log ++ l)%list /\ rpc_only l = true.
Proof.
  induction sessions as [|s rest IH]; intros acc log r log' H.
  - injection H as _ <-. exists []. now rewrite app_nil_r.
  - simpl in H. unfold tbind at 1, lift at 1 in H.
    destruct (py_get s "sessionId" JNull) as [sid|e];
      [|injection H as _ <-; exists []; now rewrite app_nil_r].
    destruct (py_truthy sid); simpl in H; [|eauto].
    unfold tbind at 1 in H.
    destruct (_fetch_session_events client sid log) as [[ev|e] log1] eqn:Hev;
      apply fetch_session_events_calls in Hev as (l1 & -> & Hl1);
      [|injection H as _ <-; eauto].
    unfold tbind at 1, lift at 1 in H.
    destruct (with_events s ev) as [record|e];
      [|injection H as _ <-; eauto].
    unfold tbind at 1, lift at 1 in H.
    destruct (dict_setitem acc sid record) as [acc'|e];
      [|injection H as _ <-; eauto].
    apply IH in H as (l2 & -> & Hl2).
    exists (l1 ++ l2)%list. rewrite app_assoc, rpc_only_app, Hl1, Hl2. auto.
Qed.

(** X14.  Once the client has started it is stopped exactly once, as the
    last call, whether listing, truncating and collecting succeed or raise;
    a client whose start raises is never stopped, and nothing else is
    called on it. *)
Theorem fetch_stops_started_client token limit fetch_all r log :
  fetch_copilot_sessions U token limit fetch_all [] = (r, log) ->
  match start (CopilotClient U token) with
  | Raise e => r = Raise e /\ log = [CallStart]
  | Ok _ =>
      exists calls,
        log = (CallStart :: calls ++ [CallStop])%list /\ rpc_only calls = true
  end.
Proof.
  unfold fetch_copilot_sessions, tbind at 1, perform at 1. simpl.
  destruct (start (CopilotClient U token)) as [[]|e];
    [|intros H; injection H as <- <-; auto].
  unfold tfinally, tbind at 1.
  destruct (_fetch_sessions U (CopilotClient U token) [CallStart])
    as [[all|e] log1] eqn:Hall;
    apply fetch_sessions_calls in Hall as (l1 & -> & Hl1).
  - unfold tbind at 1.
    destruct (collect (CopilotClient U token) _ [] _)
      as [[d|e] log2] eqn:Hc;
      apply collect_calls in Hc as (l2 & -> & Hl2);
      unfold tret, perform;
      destruct (stop (CopilotClient U token)) as [[]|e'];
      intros H; injection H as _ <-;
      exists (l1 ++ l2)%list; rewrite rpc_only_app, Hl1, Hl2;
      simpl; rewrite <- !app_assoc; auto.
  - unfold perform.
    destruct (stop (CopilotClient U token)) as [[]|e'];
      intros H; injection H as _ <-; exists l1; auto.
Qed.

End ClientLifecycle.

Lemma fetch_stops_started_client_witness :
  (exists r calls,
      Copilot.fetch_copilot_sessions
        (Demo.env 200 [] [] Demo.listless_rpc) "ghp_x" 50 false []
      = (r, (CallStart :: calls ++ [CallStop])%list) /\ rpc_only calls = true) /\
  (exists r,
      Copilot.fetch_copilot_sessions
        (Demo.env 200 [] [] Demo.no_rpc) "ghp_x" 50 false [] = (r, [CallStart])).
Proof.
  split.
  - destruct (Copilot.fetch_copilot_sessions
                (Demo.env 200 [] [] Demo.listless_rpc) "ghp_x" 50 false [])
      as [r log] eqn:E.
    pose proof (fetch_stops_started_client _ _ _ _ _ _ E) as H.
    simpl start in H. destruct H as (calls & -> & Honly).
    exists r, calls. split; [reflexivity | exact Honly].
  - destruct (Copilot.fetch_copilot_sessions
                (Demo.env 200 [] [] Demo.no_rpc) "ghp_x" 50 false [])
      as [r log] eqn:E.
    pose proof (fetch_stops_started_client _ _ _ _ _ _ E) as H.
    simpl start in H. destruct H as [_ ->].
    exists r. reflexivity.
Defined.

(** ** The store after a fetch *)

Lemma dict_get_In k d v :
  dict_get k d = Some v -> exists k', In (k', v) d /\ key_eqb k k' = true.
Proof.
  induction d as [|[k0 v0] d IH]; simpl; [discriminate|].
  destruct (key_eqb k k0) eqn:E.
  - intros H. injection H as <-. eauto.
  - intros H. destruct (IH H) as (k' & Hin & Hk). eauto.
Qed.

Lemma key_eqb_str sid k : key_eqb (JStr sid) k = true -> k = JStr sid.
Proof.
  unfold key_eqb. simpl. destruct k as [|[]| | | |]; simpl; try discriminate.
  intros H. apply String.eqb_eq in H. now subst.
Qed.

Lemma key_eqb_str_r sid k : key_eqb k (JStr sid) = true -> k = JStr sid.
Proof.
  unfold key_eqb. destruct k as [|[]| | | |]; simpl; try discriminate.
  intros H. apply String.eqb_eq in H. now subst.
Qed.

Section Retrieval.
Context (U : Env).
Import Copilot.

(** Every identified session of the list ends up under its identifier. *)
Lemma collect_present client sessions :
  forall acc log data log',
    collect client sessions acc log = (Ok data, log') ->
    (forall k, dict_get k acc <> None -> dict_get k data <> None) /\
    (forall d sid,
        In (JObj d) sessions ->
        assoc_get "sessionId" d = Some sid ->
        py_truthy sid = true ->
        dict_get sid data <> None).
Proof.
  induction sessions as [|s rest IH]; intros acc log data log' H.
  - injection H as <- <-. split; [auto | intros ? ? []].
  - simpl in H. unfold tbind at 1, lift at 1 in H.
    destruct (py_get s "sessionId" JNull) as [sid|e] eqn:Hsid;
      [|discriminate].
    destruct (py_truthy sid) eqn:Htruthy; simpl in H.
    + unfold tbind at 1 in H.
      destruct (fetch_session_events_total client sid log)
        as (events & log1 & Hev & _ & _).
      rewrite Hev in H. unfold tbind at 1, lift at 1 in H.
      destruct s as [| | | | |d0]; simpl in Hsid; try discriminate.
      simpl in H. unfold tbind at 1, lift at 1, dict_setitem in H.
      destruct (hashable sid) eqn:Hh; [|discriminate].
      apply IH in H as [Hkeep Hnew].
      assert (Hput : dict_get sid (dict_put sid
                        (JObj (assoc_set "events" events d0)) acc) <> None).
      { rewrite dict_get_put, (key_eqb_refl _ Hh). discriminate. }
      split.
      * intros k Hk. apply Hkeep. rewrite dict_get_put.
        destruct (key_eqb k sid); [discriminate | exact Hk].
      * intros d sid' [Heq|Hin] Hget Htr; [|eauto].
        injection Heq as ->. rewrite Hget in Hsid. injection Hsid as ->.
        now apply Hkeep.
    + apply IH in H as [Hkeep Hnew]. split; [exact Hkeep|].
      intros d sid' [Heq|Hin] Hget Htr; [|eauto].
      subst s. simpl in Hsid. rewrite Hget in Hsid. injection Hsid as ->.
      congruence.
Qed.

(** X15.  After a successful fetch, every session of the stored list that
    has a non-empty string identifier can be retrieved by it: [get_session]
    returns a record that carries that identifier and an event list. *)
Theorem fetched_sessions_are_retrievable body store response store' log d sid :
  Main.fetch_sessions_endpoint U body store = (Ok response, store', log) ->
  In (JObj d) (Main.list_sessions store') ->
  assoc_get "sessionId" d = Some (JStr sid) ->
  sid <> "" ->
  exists record events,
    Main.get_session sid store' = Ok record /\
    py_getitem record "sessionId" = Ok (JStr sid) /\
    py_getitem record "events" = Ok events.
Proof.
  unfold Main.fetch_sessions_endpoint, Main.list_sessions.
  destruct (fetch_copilot_sessions U (Main.token body) (Main.limit body)
                                   (Main.fetch_all body) [])
    as [[[sessions data]|e] flog] eqn:Hfetch; [|discriminate].
  intros H Hin Hsid Hne. injection H as _ <- _. simpl in Hin.
  apply fetch_copilot_sessions_inv in Hfetch
    as (all & log1 & log2 & _ & _ & Hcol & _).
  pose proof (collect_present _ _ _ _ _ _ Hcol) as [_ Hpresent].
  pose proof (collect_spec _ _ _ _ _ _ Hcol) as [_ Hrecords].
  assert (Htruthy : py_truthy (JStr sid) = true).
  { simpl. now destruct (String.eqb_spec sid ""). }
  specialize (Hpresent d (JStr sid) Hin Hsid Htruthy).
  destruct (dict_get (JStr sid) data) as [record|] eqn:Hget; [|contradiction].
  destruct (dict_get_In _ _ _ Hget) as (k' & Hk' & Hkey).
  apply key_eqb_str in Hkey. subst k'.
  destruct (Hrecords _ _ Hk') as [[]|(d' & sid' & ev & _ & Hsid' & _ & Hkey' & ->)].
  apply key_eqb_str_r in Hkey'. subst sid'.
  exists (JObj (assoc_set "events" ev d')), ev.
  unfold Main.get_session. simpl. rewrite Hget. simpl.
  split; [reflexivity|]. split.
  - rewrite assoc_get_set_other by discriminate. now rewrite Hsid'.
  - now rewrite assoc_get_set_same.
Qed.

(** X16.  A negative limit [-k] with the "all" flag false drops the last [k]
    sessions of the sorted listing: what is returned is its first
    [n - k] sessions (none when [k] exceeds [n]). *)
Theorem negative_limit_drops_last token limit sessions data log :
  (limit < 0)%Z ->
  fetch_copilot_sessions U token limit false [] = (Ok (sessions, data), log) ->
  exists all log1,
    _fetch_sessions U (CopilotClient U token) [CallStart] = (Ok all, log1) /\
    sessions = firstn (List.length all - Z.to_nat (- limit)) all /\
    List.length sessions = (List.length all - Z.to_nat (- limit))%nat.
Proof.
  intros Hneg H.
  apply fetch_copilot_sessions_inv in H
    as (all & log1 & log2 & Hall & -> & _ & _).
  exists all, log1. split; [exact Hall|].
  unfold cap_of, truncate, slice_to.
  destruct (Z.eqb_spec limit 0); [lia|].
  destruct (Z.leb_spec 0 limit); [lia|].
  split; [reflexivity|]. rewrite length_firstn. lia.
Qed.

End Retrieval.

Lemma fetched_sessions_are_retrievable_witness :
  exists record events,
    Main.get_session "a"
      (snd (fst (Main.fetch_sessions_endpoint
                   (Demo.sessions_env Demo.timeline)
                   (Demo.fetch_request 50 false) Main._session_store)))
    = Ok record /\
    py_getitem record "sessionId" = Ok (JStr "a") /\
    py_getitem record "events" = Ok events.
Proof.
  destruct (Main.fetch_sessions_endpoint
              (Demo.sessions_env Demo.timeline)
              (Demo.fetch_request 50 false) Main._session_store)
    as [[response store'] log] eqn:E.
  assert (Hr : exists v, response = Ok v)
    by (vm_compute in E; injection E as <- _ _; eauto).
  destruct Hr as [v ->].
  apply (fetched_sessions_are_retrievable _ _ _ _ _ _
           [("sessionId", JStr "a"); ("startTime", JStr "2024-01-02")] "a" E).
  - vm_compute in E. injection E as _ <- _. simpl. auto.
  - reflexivity.
  - discriminate.
Defined.

Lemma negative_limit_drops_last_witness :
  exists sessions data log,
    Demo.run_fetch (-1) false = (Ok (sessions, data), log) /\
    List.length sessions = 2%nat.
Proof.
  eexists _, _, _. split; [vm_compute; reflexivity|].
  destruct (negative_limit_drops_last
              (Demo.sessions_env Demo.timeline) "ghp_x" (-1) _ _ _
              ltac:(lia) ltac:(vm_compute; reflexivity))
    as (all & log1 & Hall & _ & Hlen).
  vm_compute in Hall. injection Hall as <- _. exact Hlen.
Defined.

(** ** Scrubbing the token from error text *)

Lemma str_contains_nil t :
  str_contains EmptyString t = match t with EmptyString => true | _ => false end.
Proof. unfold str_contains. now destruct t. Qed.

Lemma substring_length_le (n m : nat) :
  forall s, (String.length (substring n m s) <= m)%nat.
Proof.
  revert m. induction n as [|n IH]; intros m s.
  - rewrite substring_0_length. lia.
  - destruct s as [|c s]; simpl; [lia | apply IH].
Qed.

Lemma starred_no_prefix tok s :
  tok <> EmptyString -> no_char "*" tok = true ->
  String.prefix tok (String "*" s) = false.
Proof.
  intros Hne Hplain. destruct tok as [|a t]; [contradiction|].
  rewrite prefix_cons. cbn [no_char] in Hplain.
  apply andb_true_iff in Hplain as [Ha _].
  rewrite Ascii.eqb_sym.
  destruct (Ascii.eqb "*" a); [discriminate Ha | reflexivity].
Qed.

(** A star-free prefix of the scrubbed text is a prefix of the text. *)
Lemma replace_prefix tok fuel :
  forall s t,
    no_char "*" t = true ->
    String.prefix t (str_replace_fuel fuel s tok "***") = true ->
    String.prefix t s = true.
Proof.
  induction fuel as [|fuel IH]; intros s t Ht H; [exact H|].
  destruct t as [|a t]; [now destruct s|].
  cbn [no_char] in Ht. apply andb_true_iff in Ht as [Ha Ht].
  destruct s as [|c r]; [exact H|].
  cbn [str_replace_fuel] in H.
  destruct (String.prefix tok (String c r)).
  - change ("***" ++ ?x)%string with (String "*" (String "*" (String "*" x))) in H.
    rewrite prefix_cons in H. rewrite Ascii.eqb_sym in H.
    destruct (Ascii.eqb "*" a); [discriminate Ha | discriminate H].
  - rewrite prefix_cons in H |- *.
    destruct (Ascii.eqb a c); [|discriminate]. now apply (IH r t).
Qed.

Lemma replace_scrubs tok fuel :
  tok <> EmptyString -> no_char "*" tok = true ->
  forall s, (String.length s < fuel)%nat ->
            str_contains (str_replace_fuel fuel s tok "***") tok = false.
Proof.
  intros Hne Hplain.
  induction fuel as [|fuel IH]; intros s Hlen; [lia|].
  destruct s as [|c r].
  - simpl. rewrite str_contains_nil. now destruct tok.
  - cbn [str_replace_fuel].
    destruct (String.prefix tok (String c r)) eqn:Hp.
    + change ("***" ++ ?x)%string with (String "*" (String "*" (String "*" x))).
      rewrite !str_contains_cons, !(starred_no_prefix _ _ Hne Hplain).
      cbn [orb]. apply IH.
      pose proof (substring_length_le (String.length tok)
                    (String.length (String c r) - String.length tok)
                    (String c r)) as Hsub.
      assert (0 < String.length tok)%nat
        by (destruct tok; [contradiction | simpl; lia]).
      change (String.length (String c r)) with (S (String.length r)) in *.
      lia.
    + rewrite str_contains_cons. apply orb_false_iff. split.
      * destruct (String.prefix tok
                    (String c (str_replace_fuel fuel r tok "***"))) eqn:Hq;
          [|reflexivity].
        assert (Hq' : String.prefix tok
                        (str_replace_fuel (S fuel) (String c r) tok "***") = true)
          by (cbn [str_replace_fuel]; rewrite Hp; exact Hq).
        apply (replace_prefix _ _ _ _ Hplain) in Hq'. congruence.
      * apply IH. simpl in Hlen. lia.
Qed.

Lemma str_replace_scrubs tok s :
  tok <> EmptyString -> no_char "*" tok = true ->
  str_contains (str_replace s tok "***") tok = false.
Proof.
  intros Hne Hplain. unfold str_replace.
  destruct tok as [|a t] eqn:E; [contradiction|].
  rewrite <- E in *. apply replace_scrubs; auto. 
Qed.

(** X17.  When the fetch raises, the detail of the endpoint's 500 is "Fetch
    failed: " followed by the error text with the token scrubbed: for a
    non-empty token without "*", the text no longer contains the token. *)
Theorem fetch_error_is_scrubbed (U : Env) body store e log :
  Main.token body <> "" ->
  no_char "*" (Main.token body) = true ->
  Copilot.fetch_copilot_sessions U (Main.token body) (Main.limit body)
                                 (Main.fetch_all body) [] = (Raise e, log) ->
  exists err,
    Main.fetch_sessions_endpoint U body store
      = (Raise (HTTPException 500 (JStr ("Fetch failed: " ++ err))), store, log) /\
    str_contains err (Main.token body) = false.
Proof.
  intros Hne Hplain H. unfold Main.fetch_sessions_endpoint. rewrite H.
  eexists. split; [reflexivity|]. now apply str_replace_scrubs.
Qed.

Lemma fetch_error_is_scrubbed_witness :
  exists err,
    Main.fetch_sessions_endpoint (Demo.env 200 [] [] Demo.leaky_rpc)
                                 (Demo.fetch_request 50 false) Main._session_store
    = (Raise (HTTPException 500 (JStr ("Fetch failed: " ++ err))),
       Main._session_store, [CallStart]) /\
    str_contains err "ghp_x" = false.
Proof.
  apply (fetch_error_is_scrubbed
           (Demo.env 200 [] [] Demo.leaky_rpc) (Demo.fetch_request 50 false)
           Main._session_store
           (ExternalError "AuthError"
              "token ghp_x rejected (ghp_x is not authorised)")
           [CallStart]).
  - discriminate.
  - reflexivity.
  - vm_compute; reflexivity.
Defined.

(** ** The agent endpoint *)

Ltac characters_step IH :=
  match goal with
  | |- Forall _ (_ :: characters ?t) /\ _ =>
      let H1 := fresh in
      let H2 := fresh in
      destruct (IH t ltac:(simpl in *; lia)) as [H1 H2];
      split;
      [ constructor; [discriminate | exact H1]
      | unfold join in *; cbn [fold_right append]; now rewrite H2 ]
  end.

(** [characters] cuts the text into pieces, none of them empty. *)
Lemma characters_shape n :
  forall s, (String.length s <= n)%nat ->
            Forall (fun ch => ch <> "") (characters s) /\
            join (characters s) = s.
Proof.
  induction n as [|n IH]; intros s Hlen.
  - destruct s; [split; [constructor|reflexivity] | simpl in Hlen; lia].
  - destruct s as [|a r]; [split; [constructor|reflexivity]|].
    cbn [characters].
    destruct (utf8_width a) as [|[|[|[|[|w]]]]]; try characters_step IH.
    + destruct r as [|b r]; characters_step IH.
    + destruct r as [|b [|c r]]; characters_step IH.
    + destruct r as [|b [|c [|d r]]]; characters_step IH.
Qed.

Lemma characters_nonempty s : Forall (fun ch => ch <> "") (characters s).
Proof. exact (proj1 (characters_shape _ s (le_n _))). Qed.

Lemma join_characters s : join (characters s) = s.
Proof. exact (proj2 (characters_shape _ s (le_n _))). Qed.

Lemma join_empty l : Forall (fun ch => ch <> "") l -> join l = "" -> l = [].
Proof.
  intros H. destruct H as [|ch l Hch _]; [reflexivity|].
  unfold join; simpl. destruct ch; [contradiction | discriminate].
Qed.

Lemma dropwhile_nil {A} (p : A -> bool) l :
  dropwhile p l = [] <-> forallb p l = true.
Proof.
  induction l as [|x l IH]; simpl; [tauto|].
  destruct (p x); simpl; [exact IH | split; discriminate].
Qed.

Lemma dropwhile_Forall {A} (p : A -> bool) (Q : A -> Prop) l :
  Forall Q l -> Forall Q (dropwhile p l).
Proof.
  induction 1 as [|x l Hx Hl IH]; simpl; [constructor|].
  destruct (p x); [exact IH | now constructor].
Qed.

Lemma dropwhile_head {A} (p : A -> bool) l x r :
  dropwhile p l = x :: r -> p x = false.
Proof.
  induction l as [|y l IH]; simpl; [discriminate|].
  destruct (p y) eqn:E; [exact IH|]. intros H. injection H as <- _. exact E.
Qed.

Lemma strip_empty s : py_strip s = "" <-> blank s = true.
Proof.
  unfold py_strip, blank, rstrip, lstrip.
  rewrite <- dropwhile_nil. split.
  - intros H. apply join_empty in H.
    + destruct (dropwhile is_space (characters s)) as [|x r] eqn:E;
        [reflexivity|].
      apply dropwhile_head in E.
      assert (Hrev : dropwhile is_space (rev (x :: r)) = []).
      { rewrite <- (rev_involutive (dropwhile _ _)), H. reflexivity. }
      apply dropwhile_nil in Hrev. rewrite forallb_forall in Hrev.
      rewrite (Hrev x) in E; [discriminate|].
      apply in_rev. rewrite rev_involutive. now left.
    + apply Forall_rev, dropwhile_Forall, Forall_rev, dropwhile_Forall,
        characters_nonempty.
  - intros ->. reflexivity.
Qed.

Lemma strip_eqb s : String.eqb (py_strip s) "" = blank s.
Proof.
  destruct (String.eqb_spec (py_strip s) "") as [H|H].
  - symmetry. now apply strip_empty.
  - destruct (blank s) eqn:E; [|reflexivity].
    apply strip_empty in E. contradiction.
Qed.

(** The UTF-8 form of a white-space code point is one character. *)
Lemma characters_space cp s :
  In cp WHITESPACE ->
  characters (utf8_char cp ++ s) = utf8_char cp :: characters s.
Proof.
  intros H. repeat (destruct H as [<-|H]; [reflexivity|]). destruct H.
Qed.

Lemma is_space_utf8 cp : In cp WHITESPACE -> is_space (utf8_char cp) = true.
Proof.
  intros H. unfold is_space. apply existsb_exists. exists cp.
  split; [exact H | apply String.eqb_refl].
Qed.

Lemma spaces_utf8 l :
  forallb is_space l = true ->
  exists cps, Forall (fun cp => In cp WHITESPACE) cps /\ l = map utf8_char cps.
Proof.
  induction l as [|ch l IH]; simpl.
  - exists []. split; [constructor | reflexivity].
  - intros H. apply andb_true_iff in H as [Hch Hl].
    destruct (IH Hl) as (cps & Hall & ->).
    unfold is_space in Hch. apply existsb_exists in Hch as (cp & Hin & Heq).
    apply String.eqb_eq in Heq. subst ch.
    exists (cp :: cps). split; [now constructor | reflexivity].
Qed.

(** The blank texts are the texts made of white-space code points. *)
Lemma blank_utf8 s :
  blank s = true <->
  exists cps, Forall (fun cp => In cp WHITESPACE) cps /\ s = utf8 cps.
Proof.
  split.
  - intros H. destruct (spaces_utf8 _ H) as (cps & Hall & Heq).
    exists cps. split; [exact Hall|].
    unfold utf8. now rewrite <- Heq, join_characters.
  - intros (cps & Hall & ->). unfold blank, utf8.
    induction Hall as [|cp cps Hcp _ IH]; [reflexivity|].
    unfold join in *. cbn [map fold_right].
    rewrite (characters_space _ _ Hcp). cbn [forallb].
    now rewrite (is_space_utf8 _ Hcp), IH.
Qed.

(** [characters] finds the characters of every text: it undoes [utf8]. *)
Lemma width_of_byte n :
  (n < 256)%N ->
  utf8_width (ascii_of_N n) =
  if (n <? 192)%N then 1%nat else if (n <? 224)%N then 2%nat
  else if (n <? 240)%N then 3%nat else if (n <? 248)%N then 4%nat else 1%nat.
Proof.
  intros H. unfold utf8_width, nat_of_ascii. rewrite (N_ascii_embedding _ H).
  repeat match goal with
         | |- context [(?a <? ?b)%nat] => destruct (Nat.ltb_spec a b)
         | |- context [(?a <? ?b)%N] => destruct (N.ltb_spec a b)
         end; try reflexivity; lia.
Qed.

Ltac split_ltb :=
  repeat match goal with
         | |- context [(if (?a <? ?b)%N then _ else _)] =>
             destruct (N.ltb_spec a b)
         end.

Lemma characters_1 a s :
  utf8_width a = 1%nat -> characters (String a s) = String a "" :: characters s.
Proof. intros H. cbn [characters]. now rewrite H. Qed.

Lemma characters_2 a b s :
  utf8_width a = 2%nat ->
  characters (String a (String b s)) = String a (String b "") :: characters s.
Proof. intros H. cbn [characters]. now rewrite H. Qed.

Lemma characters_3 a b c s :
  utf8_width a = 3%nat ->
  characters (String a (String b (String c s)))
  = String a (String b (String c "")) :: characters s.
Proof. intros H. cbn [characters]. now rewrite H. Qed.

Lemma characters_4 a b c d s :
  utf8_width a = 4%nat ->
  characters (String a (String b (String c (String d s))))
  = String a (String b (String c (String d ""))) :: characters s.
Proof. intros H. cbn [characters]. now rewrite H. Qed.

Lemma characters_utf8_char cp s :
  (cp < 0x110000)%N ->
  characters (utf8_char cp ++ s) = utf8_char cp :: characters s.
Proof.
  intros H. unfold utf8_char. split_ltb; cbn [append].
  - apply characters_1.
    rewrite width_of_byte by lia. split_ltb; try reflexivity; lia.
  - assert (cp / 0x40 < 0x20)%N by (apply N.Div0.div_lt_upper_bound; lia).
    pose proof (N.le_0_l (cp / 0x40)).
    apply characters_2.
    rewrite width_of_byte by lia. split_ltb; try reflexivity; lia.
  - assert (cp / 0x1000 < 0x10)%N by (apply N.Div0.div_lt_upper_bound; lia).
    pose proof (N.le_0_l (cp / 0x1000)).
    apply characters_3.
    rewrite width_of_byte by lia. split_ltb; try reflexivity; lia.
  - assert (cp / 0x40000 < 0x5)%N by (apply N.Div0.div_lt_upper_bound; lia).
    pose proof (N.le_0_l (cp / 0x40000)).
    apply characters_4.
    rewrite width_of_byte by lia. split_ltb; try reflexivity; lia.
Qed.

Lemma characters_utf8 cps :
  Forall (fun cp => (cp < 0x110000)%N) cps ->
  characters (utf8 cps) = map utf8_char cps.
Proof.
  unfold utf8, join. induction 1 as [|cp cps Hcp _ IH]; [reflexivity|].
  cbn [map fold_right]. now rewrite (characters_utf8_char _ _ Hcp), IH.
Qed.

(** X18.  The agent endpoint rejects with 400 a query made only of white
    space (whatever the context), then a context made only of white space;
    with both present it answers with the agent's text, and turns any
    failure of the agent call into a 500.  White space is what
    [str.strip()] removes: a text is made only of it exactly when it is the
    text of code points of [WHITESPACE], the empty text included. *)
Theorem agent_query_validation (U : Env) (A : Main.Agent) body :
  (blank (Main.query body) = true ->
   Main.agent_query U A body
   = Raise (HTTPException 400 (JStr "Query cannot be empty"))) /\
  (blank (Main.query body) = false ->
   blank (Main.context body) = true ->
   Main.agent_query U A body
   = Raise (HTTPException 400
              (JStr "Context cannot be empty. Please load context first."))) /\
  (blank (Main.query body) = false ->
   blank (Main.context body) = false ->
   (exists text,
       Main._call_agent_sync A (Main.context body) (Main.query body) = Ok text /\
       Main.agent_query U A body = Ok (JObj [("response", JStr text)])) \/
   (exists exc,
       Main._call_agent_sync A (Main.context body) (Main.query body) = Raise exc /\
       Main.agent_query U A body
       = Raise (HTTPException 500
                  (JStr ("Agent call failed: " ++ exn_str U exc))))) /\
  (forall s,
      blank s = true <->
      exists cps, Forall (fun cp => In cp WHITESPACE) cps /\ s = utf8 cps).
Proof.
  unfold Main.agent_query. rewrite !strip_eqb. repeat split.
  - intros ->. reflexivity.
  - intros -> ->. reflexivity.
  - intros -> ->.
    destruct (Main._call_agent_sync A (Main.context body) (Main.query body))
      as [text|exc]; [left | right]; eauto.
  - apply blank_utf8.
  - apply blank_utf8.
Qed.

Lemma agent_query_validation_witness :
  let U := Demo.env 200 [] [] Demo.no_rpc in
  let tab := String "009" EmptyString in
  let em_space := utf8_char 0x2003 in
  Main.agent_query U Demo.canned_agent
    {| Main.context := "runs"; Main.query := " " ++ tab ++ em_space |}
  = Raise (HTTPException 400 (JStr "Query cannot be empty")) /\
  Main.agent_query U Demo.canned_agent
    {| Main.context := em_space ++ " "; Main.query := "why?" |}
  = Raise (HTTPException 400
             (JStr "Context cannot be empty. Please load context first.")) /\
  Main.agent_query U Demo.canned_agent
    {| Main.context := "runs"; Main.query := em_space ++ "why?" ++ em_space |}
  = Ok (JObj [("response", JStr "All checks passed.")]).
Proof.
  cbv zeta. split; [|split].
  - apply (proj1 (agent_query_validation _ _ _)). reflexivity.
  - apply (proj1 (proj2 (agent_query_validation _ _ _))); reflexivity.
  - destruct (proj1 (proj2 (proj2 (agent_query_validation
                (Demo.env 200 [] [] Demo.no_rpc) Demo.canned_agent
                {| Main.context := "runs";
                   Main.query := utf8_char 0x2003 ++ "why?" ++ utf8_char 0x2003 |})))
              eq_refl eq_refl)
      as [(text & Hcall & Hres)|(exc & Hcall & _)].
    + vm_compute in Hcall. injection Hcall as <-. exact Hres.
    + vm_compute in Hcall. discriminate Hcall.
Defined.

(** ** The command-line script *)

Section ScriptProperties.
Context (U : Env) (O : Cli.Os).
Import Cli.

(** X19.  The token is the first of the [--token] flag,
    [COPILOT_GITHUB_TOKEN], [GH_TOKEN] and [GITHUB_TOKEN] that is set and
    not empty, and the client is built with it; when none is, the client of
    the local login is used. *)
Theorem token_priority args :
  let sources := [ token args; environ O "COPILOT_GITHUB_TOKEN";
                   environ O "GH_TOKEN"; environ O "GITHUB_TOKEN" ] in
  (forall t, find usable sources = Some (Some t) ->
             resolve_token O args = Some t /\
             make_client U O args = CopilotClient U t) /\
  (find usable sources = None -> make_client U O args = local_client O).
Proof.
  unfold make_client, resolve_token. simpl.
  destruct (token args) as [[|a0 t0]|];
    destruct (environ O "COPILOT_GITHUB_TOKEN") as [[|a1 t1]|];
    destruct (environ O "GH_TOKEN") as [[|a2 t2]|];
    destruct (environ O "GITHUB_TOKEN") as [[|a3 t3]|];
    simpl; split; intros; try discriminate; try reflexivity;
    match goal with
    | H : Some _ = Some _ |- _ => injection H as <-; split; reflexivity
    end.
Qed.

End ScriptProperties.

Lemma token_priority_witness :
  Cli.resolve_token Demo.os (Demo.cli_args true) = Some "ghp_env".
Proof.
  apply (proj1 (token_priority (Demo.env 200 [] [] Demo.no_rpc) Demo.os
                               (Demo.cli_args true)) "ghp_env").
  reflexivity.
Defined.

Lemma cli_events_total client sid :
  exists events log,
    Cli.fetch_session_events client sid [] = (Ok events, log) /\
    In (CallResume sid) log.
Proof.
  unfold Cli.fetch_session_events, tcatch, tbind, perform, lift, tret.
  destruct (resume_session client sid) as [[]|e]; simpl.
  - destruct (request client "session.getMessages" _) as [res|e]; simpl.
    + destruct (py_get res "events" (JArr [])) as [ev|e]; simpl;
        eexists _, _; (split; [reflexivity | simpl; auto]).
    + eexists _, _; (split; [reflexivity | simpl; auto]).
  - eexists _, _; (split; [reflexivity | simpl; auto]).
Qed.

Section ScriptRuns.
Context (U : Env) (O : Cli.Os).
Import Cli.

(** What the loop of [main] has done when it ends normally. *)
Lemma write_sessions_spec client display :
  forall ev tr ev' tr',
    write_sessions U O client display ev tr = (Done ev', tr') ->
    (forall x, In x tr -> In x tr') /\
    (display = [] -> ev' = ev) /\
    (display <> [] -> ev' <> None) /\
    (forall s, In s display ->
       exists sid events data,
         py_get s "sessionId" (JStr "unknown") = Ok sid /\
         Copilot.with_events s events = Ok data /\
         In (Rpc_call (CallResume sid)) tr' /\
         In (Dump (session_path U O sid) data) tr').
Proof.
  induction display as [|s rest IH]; intros ev tr ev' tr' H.
  - injection H as <- <-.
    split; [auto|]. split; [auto|]. split; [intros Hne; now contradiction Hne|].
    intros ? [].
  - cbn [write_sessions] in H. unfold cbind at 1, pure at 1 in H.
    destruct (py_get s "sessionId" (JStr "unknown")) as [sid|e] eqn:Hsid;
      [|discriminate].
    cbn [of_result] in H. unfold cbind at 1, rpc at 1 in H.
    destruct (cli_events_total client sid) as (events & log & Hev & Hres).
    rewrite Hev in H. cbn [of_result] in H.
    unfold cbind at 1, pure at 1 in H.
    destruct (Copilot.with_events s events) as [data|e] eqn:Hdata;
      [|discriminate].
    cbn [of_result] in H. unfold cbind at 1, act at 1 in H.
    destruct (dump_json O (session_path U O sid) data) as [[]|e];
      [|discriminate].
    cbn [of_result] in H.
    apply IH in H as (Hext & Hnil & Hsome & Hall).
    assert (Hresume : In (Rpc_call (CallResume sid)) tr').
    { apply Hext. apply in_or_app. left. apply in_or_app. right.
      now apply in_map. }
    assert (Hdump : In (Dump (session_path U O sid) data) tr').
    { apply Hext. apply in_or_app. right. simpl. auto. }
    split; [|split; [discriminate|split]].
    + intros x Hx. apply Hext. apply in_or_app. left. apply in_or_app. now left.
    + intros _. destruct rest as [|s' rest'].
      * rewrite (Hnil eq_refl). discriminate.
      * apply Hsome. discriminate.
    + intros s0 [<-|Hin]; [|auto]. exists sid, events, data. auto.
Qed.

(** X20.  In list-only mode the script writes the session list, fetches no
    events, stops the client and then fails: its closing report reads the
    variable [events], which only the loop over the sessions assigns. *)
Theorem main_list_only_raises args sessions log :
  let client := make_client U O args in
  let display := Copilot.truncate sessions
                   (Copilot.cap_of (limit args) (all args)) in
  let sessions_path := path_join O (DATA_DIR O) "sessions.json" in
  list_only args = true ->
  makedirs O = Ok tt ->
  start client = Ok tt ->
  fetch_sessions U client [] = (Ok sessions, log) ->
  dump_json O sessions_path (JArr display) = Ok tt ->
  stop client = Ok tt ->
  main U O args []
  = (Fail (UnboundLocalError "events"),
     (Makedirs :: Rpc_call CallStart :: map Rpc_call log ++
      [Dump sessions_path (JArr display); Rpc_call CallStop])%list).
Proof.
  intros client display sessions_path Hmode Hdirs Hstart Hfetch Hdump Hstop.
  unfold main, ensure_dirs. unfold cbind at 1, act at 1. rewrite Hdirs.
  cbn [of_result]. unfold cbind at 1, rpc at 1, perform at 1.
  fold client. rewrite Hstart. cbn [of_result].
  unfold cfinally, cbind at 1, rpc at 1. rewrite Hfetch. cbn [of_result].
  unfold cbind at 1, act at 1. fold display sessions_path. rewrite Hdump.
  cbn [of_result]. unfold cbind at 1. rewrite Hmode. unfold cret at 1.
  unfold rpc, perform. rewrite Hstop. cbn [of_result app map].
  rewrite <- !app_assoc. reflexivity.
Qed.

(** X21.  The script ends normally only outside list-only mode and after at
    least one session: then it has written the session list and, for every
    session of it, fetched the events and written the session's file, under
    the name "unknown" for a session without identifier (the script skips
    no session). *)
Theorem main_done args tr :
  main U O args [] = (Done tt, tr) ->
  list_only args = false /\
  exists display,
    display <> [] /\
    In (Dump (path_join O (DATA_DIR O) "sessions.json") (JArr display)) tr /\
    (forall s, In s display ->
       exists sid events data,
         py_get s "sessionId" (JStr "unknown") = Ok sid /\
         Copilot.with_events s events = Ok data /\
         In (Rpc_call (CallResume sid)) tr /\
         In (Dump (session_path U O sid) data) tr) /\
    (forall d, In (JObj d) display ->
       assoc_get "sessionId" d = None ->
       exists events,
         In (Dump (session_path U O (JStr "unknown"))
                  (JObj (assoc_set "events" events d))) tr).
Proof.
  unfold main, ensure_dirs. unfold cbind at 1, act at 1.
  destruct (makedirs O) as [[]|e]; cbn [of_result]; [|discriminate].
  unfold cbind at 1, rpc at 1, perform at 1.
  destruct (start (make_client U O args)) as [[]|e]; cbn [of_result];
    [|discriminate].
  unfold cfinally.
  match goal with
  | |- (let '(r, tr1) := ?b ?t in _) = _ -> _ =>
      destruct (b t) as [r tr1] eqn:Hbody
  end.
  unfold rpc, perform.
  destruct (stop (make_client U O args)) as [[]|e]; cbn [of_result];
    [|discriminate].
  intros H. injection H as -> <-.
  unfold cbind at 1, rpc at 1 in Hbody.
  destruct (fetch_sessions U (make_client U O args) [])
    as [[sessions|e] log] eqn:Hfetch; cbn [of_result] in Hbody;
    [|discriminate].
  unfold cbind at 1, act at 1 in Hbody.
  destruct (dump_json O _ _) as [[]|e]; cbn [of_result] in Hbody;
    [|discriminate].
  unfold cbind at 1 in Hbody.
  destruct (list_only args); [discriminate|].
  split; [reflexivity|].
  destruct (write_sessions U O _ _ None _) as [[ev'|e] tr'] eqn:Hw;
    [|discriminate].
  apply write_sessions_spec in Hw as (Hext & Hnil & Hsome & Hall).
  destruct ev' as [events|]; [|discriminate].
  unfold cbind, pure, cret in Hbody.
  destruct (py_len events) as [n|e]; cbn [of_result] in Hbody; [|discriminate].
  injection Hbody as <-.
  exists (Copilot.truncate sessions (Copilot.cap_of (limit args) (all args))).
  split; [|split; [|split]].
  - intros Hempty. specialize (Hnil Hempty). discriminate.
  - apply in_or_app. left. apply Hext. apply in_or_app. right. simpl. auto.
  - intros s Hs. destruct (Hall s Hs) as (sid & evs & data & Hsid & Hd & Hr & Hf).
    exists sid, evs, data. repeat split; auto; apply in_or_app; auto.
  - intros d Hd Hnone.
    destruct (Hall _ Hd) as (sid & evs & data & Hsid & Hdata & _ & Hf).
    simpl in Hsid. rewrite Hnone in Hsid. injection Hsid as <-.
    simpl in Hdata. injection Hdata as <-.
    exists evs. apply in_or_app. auto.
Qed.

End ScriptRuns.

Lemma main_list_only_raises_witness :
  exists tr,
    Cli.main (Demo.sessions_env Demo.timeline) Demo.os (Demo.cli_args true) []
    = (Cli.Fail (Cli.UnboundLocalError "events"), tr) /\
    fetched_ids (flat_map (fun e => match e with
                                    | Cli.Rpc_call c => [c]
                                    | _ => []
                                    end) tr) = [].
Proof.
  eexists. split.
  - apply (main_list_only_raises
             (Demo.sessions_env Demo.timeline) Demo.os (Demo.cli_args true)
             [Demo.session "b" "2024-01-03"; Demo.session "a" "2024-01-02";
              Demo.anonymous "2024-01-01"]
             [CallRequest "session.list" (JObj [])]);
      reflexivity.
  - reflexivity.
Defined.

Lemma main_done_witness :
  exists tr events,
    Cli.main (Demo.sessions_env Demo.timeline) Demo.os (Demo.cli_args false) []
    = (Cli.Done tt, tr) /\
    In (Cli.Dump "data/sessions/unknown.json"
                 (JObj [("startTime", JStr "2024-01-01"); ("events", events)]))
       tr.
Proof.
  destruct (Cli.main (Demo.sessions_env Demo.timeline) Demo.os
                     (Demo.cli_args false) []) as [r tr] eqn:E.
  assert (Hr : r = Cli.Done tt) by (vm_compute in E; now injection E as <- _).
  subst r.
  destruct (main_done _ _ _ _ E) as (_ & display & _ & Hlist & _ & Hunknown).
  assert (Hd : display = [Demo.session "b" "2024-01-03";
                          Demo.session "a" "2024-01-02";
                          Demo.anonymous "2024-01-01"]).
  { vm_compute in E. injection E as <-. simpl in Hlist.
    repeat (destruct Hlist as [Hlist|Hlist]; try discriminate Hlist);
      try contradiction.
    now injection Hlist as <-. }
  subst display.
  destruct (Hunknown [("startTime", JStr "2024-01-01")]) as [events Hin].
  - simpl. auto.
  - reflexivity.
  - exists tr, events. split; [reflexivity | exact Hin].
Defined.

(** ** Base names *)

(** X22.  The companion report is recognised by its base name alone: an
    entry ["<dir>/cast-impact-analysis<rest>"] is one for every directory
    path, whereas a file that has the prefix only in its directory part is
    not; the text of the first companion in listing order is what a mapping
    payload receives. *)
Theorem merge_uses_base_name (U : Env) zf dir rest fields :
  no_char "/" rest = true ->
  In (dir ++ "/cast-impact-analysis" ++ rest) (namelist zf) ->
  GitHub.is_cast_impact (dir ++ "/cast-impact-analysis" ++ rest) = true /\
  (forall base, no_char "/" base = true ->
                startswith base "cast-impact-analysis" = false ->
                GitHub.is_cast_impact ("cast-impact-analysis/" ++ base) = false) /\
  exists name,
    find GitHub.is_cast_impact (namelist zf) = Some name /\
    forall raw text,
      zf_read zf name = Ok raw ->
      decode_utf8_replace U raw = Ok text ->
      GitHub._merge_cast_impact U zf (JObj fields)
      = JObj (assoc_set "cast_impact_analysis" (JStr text) fields).
Proof.
  intros Hrest Hin.
  assert (Hplain : no_char "/" ("cast-impact-analysis" ++ rest) = true)
    by exact Hrest.
  assert (His : GitHub.is_cast_impact (dir ++ "/cast-impact-analysis" ++ rest)
                = true).
  { unfold GitHub.is_cast_impact, startswith.
    change (dir ++ "/cast-impact-analysis" ++ rest)%string
      with (dir ++ String "/" ("cast-impact-analysis" ++ rest))%string.
    rewrite (basename_join _ _ Hplain). apply prefix_app. }
  split; [exact His|]. split.
  - intros base Hbase Hno. unfold GitHub.is_cast_impact.
    change ("cast-impact-analysis/" ++ base)%string
      with ("cast-impact-analysis" ++ String "/" base)%string.
    now rewrite (basename_join _ _ Hbase).
  - destruct (find_first GitHub.is_cast_impact _ _ Hin His) as [name Hname].
    exists name. split; [exact Hname|].
    intros raw text Hraw Htext. unfold GitHub._merge_cast_impact.
    rewrite Hname, Hraw. simpl. now rewrite Htext.
Qed.

Lemma merge_uses_base_name_witness :
  GitHub._merge_cast_impact (Demo.env 200 [] [] Demo.no_rpc) Demo.nested_bundle
                            (JObj [("a", JNum 1)])
  = JObj [("a", JNum 1); ("cast_impact_analysis", JStr "deep")].
Proof.
  destruct (merge_uses_base_name
              (Demo.env 200 [] [] Demo.no_rpc) Demo.nested_bundle
              "reports/md" "-v3.md" [("a", JNum 1)] eq_refl
              (or_intror (or_intror (or_introl eq_refl))))
    as (_ & _ & name & Hname & Hmerge).
  vm_compute in Hname. injection Hname as <-.
  apply (Hmerge (Demo.b "deep") "deep"); reflexivity.
Defined.
